(** * podman build: the command-line front end of [cmd/podman/images/build.go]

  A shallow embedding of [useLayers], [buildFlags], [build] and
  [buildFlagsWrapperToOptions], together with the properties of the build
  request they compile.

  Go strings are byte strings ([string]); the Go map of build arguments is a
  [gmap string string]; the package-level variable [buildOpts], the trace of
  calls that leave the process, and the stack of deferred calls are threaded
  through a small state-and-error monad.  Everything the file reaches in
  other packages (the file system, the environment, buildah's parsers, the
  image engine) is a field of the record [World]. *)

From stdpp Require Import gmap strings list.
From Stdlib Require Import ZArith Ascii String Bool Lia.

Open Scope string_scope.

(** ** Strings: the functions of Go's [strings] package that the file calls *)

Module gostrings.

(** [strings.HasPrefix(s, prefix)]. *)
Definition HasPrefix (s pre : string) : bool := String.prefix pre s.

(** [strings.SplitN(s, sep, 2)] for a separator of one byte: the text before
    the first separator and the text after it, or [s] alone when it holds
    no separator. *)
Fixpoint SplitN2 (s : string) (sep : ascii) : list string :=
  match s with
  | EmptyString => [EmptyString]
  | String ch rest =>
      if Ascii.eqb ch sep then [EmptyString; rest]
      else match SplitN2 rest sep with
           | hd :: tl => String ch hd :: tl
           | [] => []
           end
  end.

Fixpoint map (f : ascii -> ascii) (s : string) : string :=
  match s with
  | EmptyString => EmptyString
  | String ch rest => String (f ch) (map f rest)
  end.

Fixpoint all (p : ascii -> bool) (s : string) : bool :=
  match s with
  | EmptyString => true
  | String ch rest => p ch && all p rest
  end.

(** A byte below [utf8.RuneSelf]. *)
Definition isASCIIbyte (ch : ascii) : bool := (N_of_ascii ch <? 128)%N.

Definition isASCII (s : string) : bool := all isASCIIbyte s.

(** The byte-wise step of [strings.ToLower]: ['A'..'Z'] move by
    ['a' - 'A'], every other byte stays. *)
Definition lowerByte (ch : ascii) : ascii :=
  let n := N_of_ascii ch in
  if ((65 <=? n) && (n <=? 90))%N then ascii_of_N (n + 32) else ch.

(** [strings.ToLower].  The library lower-cases a string that holds only
    ASCII bytes byte by byte; a string with a byte of 128 or more goes
    through the Unicode tables ([strings.Map(unicode.ToLower, s)]), which
    are the parameter [unicodeLower]. *)
Definition ToLower (unicodeLower : string -> string) (s : string) : string :=
  if isASCII s then map lowerByte s else unicodeLower s.

End gostrings.

(** ** Errors

  [errors.New], [errors.Errorf] and [errors.Wrapf] of [github.com/pkg/errors]
  kept as terms: the format string of the source and its arguments, not the
  rendered text. *)

Inductive error : Type :=
| errors_New (msg : string)
| errors_Errorf (format : string) (args : list string)
| errors_Wrapf (cause : error) (format : string) (args : list string).

Inductive result (A : Type) : Type :=
| Ok (a : A)
| Err (e : error).
Arguments Ok {A} a.
Arguments Err {A} e.

Definition is_Ok {A} (r : result A) : bool :=
  match r with Ok _ => true | Err _ => false end.

(** ** Library types that the command only hands on *)

(** [*os.File]: the two standard streams and a file opened by name. *)
Inductive os_File : Type :=
| os_Stdout
| os_Stderr
| os_Opened (name : string).

Module buildah.

(** Modelled from the spec: the constants [buildah.OCI], [buildah.DOCKER],
    [buildah.OCIv1ImageManifest] and [buildah.Dockerv2ImageManifest] are
    declared in the buildah library, not in this file.  The spec names the
    two families ([--format docker], OCI by default) and a manifest type for
    each; the values are the ones of the library. *)
Definition OCI : string := "oci".
Definition DOCKER : string := "docker".
Definition OCIv1ImageManifest : string :=
  "application/vnd.oci.image.manifest.v1+json".
Definition Dockerv2ImageManifest : string :=
  "application/vnd.docker.distribution.manifest.v2+json".

(** [buildah.Isolation], [buildah.NetworkConfigurationPolicy]: integer
    enumerations of the library. *)
Definition Isolation : Type := Z.
Definition NetworkConfigurationPolicy : Type := Z.

Record NamespaceOption : Type := {
  ns_Name : string;
  ns_Host : bool;
  ns_Path : string
}.

(** [*buildah.IDMappingOptions] and [*types.SystemContext] are produced by
    buildah's parsers and only stored; they are kept as opaque handles. *)
Inductive IDMappingOptions : Type := IDMappingOptionsRef (id : N).
Inductive SystemContext : Type := SystemContextRef (id : N).

Record CommonBuildOptions : Type := {
  cb_AddHost : list string;
  cb_CPUPeriod : Z;
  cb_CPUQuota : Z;
  cb_CPUSetCPUs : string;
  cb_CPUSetMems : string;
  cb_CPUShares : Z;
  cb_CgroupParent : string;
  cb_HTTPProxy : bool;
  cb_Memory : Z;
  cb_MemorySwap : Z;
  cb_ShmSize : string;
  cb_Ulimit : list string;
  cb_Volumes : list string
}.

End buildah.

Module imagebuildah.

(** The pull policies of the library. *)
Inductive PullPolicy : Type := PullIfMissing | PullAlways | PullNever.

Inductive Compression : Type := Gzip | Uncompressed.

(** [imagebuildah.BuildOptions], with the fields that
    [buildFlagsWrapperToOptions] fills. *)
Record BuildOptions : Type := {
  AddCapabilities : list string;
  AdditionalTags : list string;
  Annotations : list string;
  Architecture : string;
  Args : gmap string string;
  BlobDirectory : string;
  CNIConfigDir : string;
  CNIPluginPath : string;
  CommonBuildOpts : buildah.CommonBuildOptions;
  Compression_ : Compression;
  ConfigureNetwork : buildah.NetworkConfigurationPolicy;
  ContextDirectory : string;
  Devices : list string;
  DropCapabilities : list string;
  Err_ : os_File;
  ForceRmIntermediateCtrs : bool;
  IDMappingOptions : buildah.IDMappingOptions;
  IIDFile : string;
  Isolation : buildah.Isolation;
  Labels : list string;
  Layers : bool;
  NamespaceOptions : list buildah.NamespaceOption;
  NoCache : bool;
  OS : string;
  Out : os_File;
  Output : string;
  OutputFormat : string;
  PullPolicy_ : PullPolicy;
  Quiet : bool;
  RemoveIntermediateCtrs : bool;
  ReportWriter : os_File;
  Runtime : string;
  RuntimeArgs : list string;
  SignBy : string;
  SignaturePolicyPath : string;
  Squash : bool;
  SystemContext : buildah.SystemContext;
  Target : string;
  TransientMounts : list string
}.

End imagebuildah.

(** ** The flags of the command

    [buildFlagsWrapper] embeds buildah's [BudResults], [LayerResults],
    [FromAndBudResults], [NameSpaceResults] and [UserNSResults] and adds
    [SquashAll]; Go promotes the fields of embedded structs, so the record is
    flat and holds the fields the file reads. *)

Record buildFlagsWrapper : Type := {
  AddHost : list string;
  Annotation : list string;
  Arch : string;
  BlobCache : string;
  BuildArg : list string;
  CNIConfigDir : string;
  CNIPlugInPath : string;
  CPUPeriod : Z;
  CPUQuota : Z;
  CPUSetCPUs : string;
  CPUSetMems : string;
  CPUShares : Z;
  CapAdd : list string;
  CapDrop : list string;
  CgroupParent : string;
  Devices : list string;
  DisableCompression : bool;
  File : list string;
  ForceRm : bool;
  Format : string;
  HTTPProxy : bool;
  Iidfile : string;
  Isolation : string;
  Label : list string;
  Layers : bool;
  Logfile : string;
  Memory : string;
  MemorySwap : string;
  NoCache : bool;
  OS : string;
  Pull : bool;
  PullAlways : bool;
  PullNever : bool;
  Quiet : bool;
  Rm : bool;
  RuntimeFlags : list string;
  ShmSize : string;
  SignBy : string;
  SignaturePolicy : string;
  Squash : bool;
  SquashAll : bool;
  Tag : list string;
  Target : string;
  Ulimit : list string;
  Volumes : list string
}.

(** The assignment [flags.Layers = v]. *)
Definition set_Layers (v : bool) (o : buildFlagsWrapper)
    : buildFlagsWrapper :=
  {| AddHost := AddHost o; Annotation := Annotation o; Arch := Arch o;
     BlobCache := BlobCache o; BuildArg := BuildArg o;
     CNIConfigDir := CNIConfigDir o; CNIPlugInPath := CNIPlugInPath o;
     CPUPeriod := CPUPeriod o; CPUQuota := CPUQuota o;
     CPUSetCPUs := CPUSetCPUs o; CPUSetMems := CPUSetMems o;
     CPUShares := CPUShares o; CapAdd := CapAdd o; CapDrop := CapDrop o;
     CgroupParent := CgroupParent o; Devices := Devices o;
     DisableCompression := DisableCompression o; File := File o;
     ForceRm := ForceRm o; Format := Format o; HTTPProxy := HTTPProxy o;
     Iidfile := Iidfile o; Isolation := Isolation o; Label := Label o;
     Layers := v; Logfile := Logfile o; Memory := Memory o;
     MemorySwap := MemorySwap o; NoCache := NoCache o; OS := OS o;
     Pull := Pull o; PullAlways := PullAlways o; PullNever := PullNever o;
     Quiet := Quiet o; Rm := Rm o; RuntimeFlags := RuntimeFlags o;
     ShmSize := ShmSize o; SignBy := SignBy o;
     SignaturePolicy := SignaturePolicy o; Squash := Squash o;
     SquashAll := SquashAll o; Tag := Tag o; Target := Target o;
     Ulimit := Ulimit o; Volumes := Volumes o |}.

(** The assignment [flags.Squash = v]. *)
Definition set_Squash (v : bool) (o : buildFlagsWrapper)
    : buildFlagsWrapper :=
  {| AddHost := AddHost o; Annotation := Annotation o; Arch := Arch o;
     BlobCache := BlobCache o; BuildArg := BuildArg o;
     CNIConfigDir := CNIConfigDir o; CNIPlugInPath := CNIPlugInPath o;
     CPUPeriod := CPUPeriod o; CPUQuota := CPUQuota o;
     CPUSetCPUs := CPUSetCPUs o; CPUSetMems := CPUSetMems o;
     CPUShares := CPUShares o; CapAdd := CapAdd o; CapDrop := CapDrop o;
     CgroupParent := CgroupParent o; Devices := Devices o;
     DisableCompression := DisableCompression o; File := File o;
     ForceRm := ForceRm o; Format := Format o; HTTPProxy := HTTPProxy o;
     Iidfile := Iidfile o; Isolation := Isolation o; Label := Label o;
     Layers := Layers o; Logfile := Logfile o; Memory := Memory o;
     MemorySwap := MemorySwap o; NoCache := NoCache o; OS := OS o;
     Pull := Pull o; PullAlways := PullAlways o; PullNever := PullNever o;
     Quiet := Quiet o; Rm := Rm o; RuntimeFlags := RuntimeFlags o;
     ShmSize := ShmSize o; SignBy := SignBy o;
     SignaturePolicy := SignaturePolicy o; Squash := v;
     SquashAll := SquashAll o; Tag := Tag o; Target := Target o;
     Ulimit := Ulimit o; Volumes := Volumes o |}.

(** The assignment [flags.Format = v]. *)
Definition set_Format (v : string) (o : buildFlagsWrapper)
    : buildFlagsWrapper :=
  {| AddHost := AddHost o; Annotation := Annotation o; Arch := Arch o;
     BlobCache := BlobCache o; BuildArg := BuildArg o;
     CNIConfigDir := CNIConfigDir o; CNIPlugInPath := CNIPlugInPath o;
     CPUPeriod := CPUPeriod o; CPUQuota := CPUQuota o;
     CPUSetCPUs := CPUSetCPUs o; CPUSetMems := CPUSetMems o;
     CPUShares := CPUShares o; CapAdd := CapAdd o; CapDrop := CapDrop o;
     CgroupParent := CgroupParent o; Devices := Devices o;
     DisableCompression := DisableCompression o; File := File o;
     ForceRm := ForceRm o; Format := v; HTTPProxy := HTTPProxy o;
     Iidfile := Iidfile o; Isolation := Isolation o; Label := Label o;
     Layers := Layers o; Logfile := Logfile o; Memory := Memory o;
     MemorySwap := MemorySwap o; NoCache := NoCache o; OS := OS o;
     Pull := Pull o; PullAlways := PullAlways o; PullNever := PullNever o;
     Quiet := Quiet o; Rm := Rm o; RuntimeFlags := RuntimeFlags o;
     ShmSize := ShmSize o; SignBy := SignBy o;
     SignaturePolicy := SignaturePolicy o; Squash := Squash o;
     SquashAll := SquashAll o; Tag := Tag o; Target := Target o;
     Ulimit := Ulimit o; Volumes := Volumes o |}.

(** The assignment [buildOpts.HTTPProxy = v]. *)
Definition set_HTTPProxy (v : bool) (o : buildFlagsWrapper)
    : buildFlagsWrapper :=
  {| AddHost := AddHost o; Annotation := Annotation o; Arch := Arch o;
     BlobCache := BlobCache o; BuildArg := BuildArg o;
     CNIConfigDir := CNIConfigDir o; CNIPlugInPath := CNIPlugInPath o;
     CPUPeriod := CPUPeriod o; CPUQuota := CPUQuota o;
     CPUSetCPUs := CPUSetCPUs o; CPUSetMems := CPUSetMems o;
     CPUShares := CPUShares o; CapAdd := CapAdd o; CapDrop := CapDrop o;
     CgroupParent := CgroupParent o; Devices := Devices o;
     DisableCompression := DisableCompression o; File := File o;
     ForceRm := ForceRm o; Format := Format o; HTTPProxy := v;
     Iidfile := Iidfile o; Isolation := Isolation o; Label := Label o;
     Layers := Layers o; Logfile := Logfile o; Memory := Memory o;
     MemorySwap := MemorySwap o; NoCache := NoCache o; OS := OS o;
     Pull := Pull o; PullAlways := PullAlways o; PullNever := PullNever o;
     Quiet := Quiet o; Rm := Rm o; RuntimeFlags := RuntimeFlags o;
     ShmSize := ShmSize o; SignBy := SignBy o;
     SignaturePolicy := SignaturePolicy o; Squash := Squash o;
     SquashAll := SquashAll o; Tag := Tag o; Target := Target o;
     Ulimit := Ulimit o; Volumes := Volumes o |}.

(** [Set] on the value of the flag [pull], bound to [buildOpts.Pull]. *)
Definition set_Pull (v : bool) (o : buildFlagsWrapper)
    : buildFlagsWrapper :=
  {| AddHost := AddHost o; Annotation := Annotation o; Arch := Arch o;
     BlobCache := BlobCache o; BuildArg := BuildArg o;
     CNIConfigDir := CNIConfigDir o; CNIPlugInPath := CNIPlugInPath o;
     CPUPeriod := CPUPeriod o; CPUQuota := CPUQuota o;
     CPUSetCPUs := CPUSetCPUs o; CPUSetMems := CPUSetMems o;
     CPUShares := CPUShares o; CapAdd := CapAdd o; CapDrop := CapDrop o;
     CgroupParent := CgroupParent o; Devices := Devices o;
     DisableCompression := DisableCompression o; File := File o;
     ForceRm := ForceRm o; Format := Format o; HTTPProxy := HTTPProxy o;
     Iidfile := Iidfile o; Isolation := Isolation o; Label := Label o;
     Layers := Layers o; Logfile := Logfile o; Memory := Memory o;
     MemorySwap := MemorySwap o; NoCache := NoCache o; OS := OS o; Pull := v;
     PullAlways := PullAlways o; PullNever := PullNever o; Quiet := Quiet o;
     Rm := Rm o; RuntimeFlags := RuntimeFlags o; ShmSize := ShmSize o;
     SignBy := SignBy o; SignaturePolicy := SignaturePolicy o;
     Squash := Squash o; SquashAll := SquashAll o; Tag := Tag o;
     Target := Target o; Ulimit := Ulimit o; Volumes := Volumes o |}.

(** [Set] on the value of the flag [force-rm], bound to [buildOpts.ForceRm]. *)
Definition set_ForceRm (v : bool) (o : buildFlagsWrapper)
    : buildFlagsWrapper :=
  {| AddHost := AddHost o; Annotation := Annotation o; Arch := Arch o;
     BlobCache := BlobCache o; BuildArg := BuildArg o;
     CNIConfigDir := CNIConfigDir o; CNIPlugInPath := CNIPlugInPath o;
     CPUPeriod := CPUPeriod o; CPUQuota := CPUQuota o;
     CPUSetCPUs := CPUSetCPUs o; CPUSetMems := CPUSetMems o;
     CPUShares := CPUShares o; CapAdd := CapAdd o; CapDrop := CapDrop o;
     CgroupParent := CgroupParent o; Devices := Devices o;
     DisableCompression := DisableCompression o; File := File o;
     ForceRm := v; Format := Format o; HTTPProxy := HTTPProxy o;
     Iidfile := Iidfile o; Isolation := Isolation o; Label := Label o;
     Layers := Layers o; Logfile := Logfile o; Memory := Memory o;
     MemorySwap := MemorySwap o; NoCache := NoCache o; OS := OS o;
     Pull := Pull o; PullAlways := PullAlways o; PullNever := PullNever o;
     Quiet := Quiet o; Rm := Rm o; RuntimeFlags := RuntimeFlags o;
     ShmSize := ShmSize o; SignBy := SignBy o;
     SignaturePolicy := SignaturePolicy o; Squash := Squash o;
     SquashAll := SquashAll o; Tag := Tag o; Target := Target o;
     Ulimit := Ulimit o; Volumes := Volumes o |}.

(** The flag [squash-all], bound to [buildOpts.SquashAll]. *)
Definition set_SquashAll (v : bool) (o : buildFlagsWrapper)
    : buildFlagsWrapper :=
  {| AddHost := AddHost o; Annotation := Annotation o; Arch := Arch o;
     BlobCache := BlobCache o; BuildArg := BuildArg o;
     CNIConfigDir := CNIConfigDir o; CNIPlugInPath := CNIPlugInPath o;
     CPUPeriod := CPUPeriod o; CPUQuota := CPUQuota o;
     CPUSetCPUs := CPUSetCPUs o; CPUSetMems := CPUSetMems o;
     CPUShares := CPUShares o; CapAdd := CapAdd o; CapDrop := CapDrop o;
     CgroupParent := CgroupParent o; Devices := Devices o;
     DisableCompression := DisableCompression o; File := File o;
     ForceRm := ForceRm o; Format := Format o; HTTPProxy := HTTPProxy o;
     Iidfile := Iidfile o; Isolation := Isolation o; Label := Label o;
     Layers := Layers o; Logfile := Logfile o; Memory := Memory o;
     MemorySwap := MemorySwap o; NoCache := NoCache o; OS := OS o;
     Pull := Pull o; PullAlways := PullAlways o; PullNever := PullNever o;
     Quiet := Quiet o; Rm := Rm o; RuntimeFlags := RuntimeFlags o;
     ShmSize := ShmSize o; SignBy := SignBy o;
     SignaturePolicy := SignaturePolicy o; Squash := Squash o;
     SquashAll := v; Tag := Tag o; Target := Target o; Ulimit := Ulimit o;
     Volumes := Volumes o |}.

(** The command line writes the other flags into their bound variables. *)

(** The flag bound to [buildOpts.Tag]. *)
Definition set_Tag (v : list string) (o : buildFlagsWrapper)
    : buildFlagsWrapper :=
  {| AddHost := AddHost o; Annotation := Annotation o; Arch := Arch o;
     BlobCache := BlobCache o; BuildArg := BuildArg o;
     CNIConfigDir := CNIConfigDir o; CNIPlugInPath := CNIPlugInPath o;
     CPUPeriod := CPUPeriod o; CPUQuota := CPUQuota o;
     CPUSetCPUs := CPUSetCPUs o; CPUSetMems := CPUSetMems o;
     CPUShares := CPUShares o; CapAdd := CapAdd o; CapDrop := CapDrop o;
     CgroupParent := CgroupParent o; Devices := Devices o;
     DisableCompression := DisableCompression o; File := File o;
     ForceRm := ForceRm o; Format := Format o; HTTPProxy := HTTPProxy o;
     Iidfile := Iidfile o; Isolation := Isolation o; Label := Label o;
     Layers := Layers o; Logfile := Logfile o; Memory := Memory o;
     MemorySwap := MemorySwap o; NoCache := NoCache o; OS := OS o;
     Pull := Pull o; PullAlways := PullAlways o; PullNever := PullNever o;
     Quiet := Quiet o; Rm := Rm o; RuntimeFlags := RuntimeFlags o;
     ShmSize := ShmSize o; SignBy := SignBy o;
     SignaturePolicy := SignaturePolicy o; Squash := Squash o;
     SquashAll := SquashAll o; Tag := v; Target := Target o;
     Ulimit := Ulimit o; Volumes := Volumes o |}.

(** The flag bound to [buildOpts.File]. *)
Definition set_File (v : list string) (o : buildFlagsWrapper)
    : buildFlagsWrapper :=
  {| AddHost := AddHost o; Annotation := Annotation o; Arch := Arch o;
     BlobCache := BlobCache o; BuildArg := BuildArg o;
     CNIConfigDir := CNIConfigDir o; CNIPlugInPath := CNIPlugInPath o;
     CPUPeriod := CPUPeriod o; CPUQuota := CPUQuota o;
     CPUSetCPUs := CPUSetCPUs o; CPUSetMems := CPUSetMems o;
     CPUShares := CPUShares o; CapAdd := CapAdd o; CapDrop := CapDrop o;
     CgroupParent := CgroupParent o; Devices := Devices o;
     DisableCompression := DisableCompression o; File := v;
     ForceRm := ForceRm o; Format := Format o; HTTPProxy := HTTPProxy o;
     Iidfile := Iidfile o; Isolation := Isolation o; Label := Label o;
     Layers := Layers o; Logfile := Logfile o; Memory := Memory o;
     MemorySwap := MemorySwap o; NoCache := NoCache o; OS := OS o;
     Pull := Pull o; PullAlways := PullAlways o; PullNever := PullNever o;
     Quiet := Quiet o; Rm := Rm o; RuntimeFlags := RuntimeFlags o;
     ShmSize := ShmSize o; SignBy := SignBy o;
     SignaturePolicy := SignaturePolicy o; Squash := Squash o;
     SquashAll := SquashAll o; Tag := Tag o; Target := Target o;
     Ulimit := Ulimit o; Volumes := Volumes o |}.

(** The flag bound to [buildOpts.BuildArg]. *)
Definition set_BuildArg (v : list string) (o : buildFlagsWrapper)
    : buildFlagsWrapper :=
  {| AddHost := AddHost o; Annotation := Annotation o; Arch := Arch o;
     BlobCache := BlobCache o; BuildArg := v; CNIConfigDir := CNIConfigDir o;
     CNIPlugInPath := CNIPlugInPath o; CPUPeriod := CPUPeriod o;
     CPUQuota := CPUQuota o; CPUSetCPUs := CPUSetCPUs o;
     CPUSetMems := CPUSetMems o; CPUShares := CPUShares o;
     CapAdd := CapAdd o; CapDrop := CapDrop o;
     CgroupParent := CgroupParent o; Devices := Devices o;
     DisableCompression := DisableCompression o; File := File o;
     ForceRm := ForceRm o; Format := Format o; HTTPProxy := HTTPProxy o;
     Iidfile := Iidfile o; Isolation := Isolation o; Label := Label o;
     Layers := Layers o; Logfile := Logfile o; Memory := Memory o;
     MemorySwap := MemorySwap o; NoCache := NoCache o; OS := OS o;
     Pull := Pull o; PullAlways := PullAlways o; PullNever := PullNever o;
     Quiet := Quiet o; Rm := Rm o; RuntimeFlags := RuntimeFlags o;
     ShmSize := ShmSize o; SignBy := SignBy o;
     SignaturePolicy := SignaturePolicy o; Squash := Squash o;
     SquashAll := SquashAll o; Tag := Tag o; Target := Target o;
     Ulimit := Ulimit o; Volumes := Volumes o |}.

(** The flag bound to [buildOpts.Memory]. *)
Definition set_Memory (v : string) (o : buildFlagsWrapper)
    : buildFlagsWrapper :=
  {| AddHost := AddHost o; Annotation := Annotation o; Arch := Arch o;
     BlobCache := BlobCache o; BuildArg := BuildArg o;
     CNIConfigDir := CNIConfigDir o; CNIPlugInPath := CNIPlugInPath o;
     CPUPeriod := CPUPeriod o; CPUQuota := CPUQuota o;
     CPUSetCPUs := CPUSetCPUs o; CPUSetMems := CPUSetMems o;
     CPUShares := CPUShares o; CapAdd := CapAdd o; CapDrop := CapDrop o;
     CgroupParent := CgroupParent o; Devices := Devices o;
     DisableCompression := DisableCompression o; File := File o;
     ForceRm := ForceRm o; Format := Format o; HTTPProxy := HTTPProxy o;
     Iidfile := Iidfile o; Isolation := Isolation o; Label := Label o;
     Layers := Layers o; Logfile := Logfile o; Memory := v;
     MemorySwap := MemorySwap o; NoCache := NoCache o; OS := OS o;
     Pull := Pull o; PullAlways := PullAlways o; PullNever := PullNever o;
     Quiet := Quiet o; Rm := Rm o; RuntimeFlags := RuntimeFlags o;
     ShmSize := ShmSize o; SignBy := SignBy o;
     SignaturePolicy := SignaturePolicy o; Squash := Squash o;
     SquashAll := SquashAll o; Tag := Tag o; Target := Target o;
     Ulimit := Ulimit o; Volumes := Volumes o |}.

(** The flag bound to [buildOpts.Logfile]. *)
Definition set_Logfile (v : string) (o : buildFlagsWrapper)
    : buildFlagsWrapper :=
  {| AddHost := AddHost o; Annotation := Annotation o; Arch := Arch o;
     BlobCache := BlobCache o; BuildArg := BuildArg o;
     CNIConfigDir := CNIConfigDir o; CNIPlugInPath := CNIPlugInPath o;
     CPUPeriod := CPUPeriod o; CPUQuota := CPUQuota o;
     CPUSetCPUs := CPUSetCPUs o; CPUSetMems := CPUSetMems o;
     CPUShares := CPUShares o; CapAdd := CapAdd o; CapDrop := CapDrop o;
     CgroupParent := CgroupParent o; Devices := Devices o;
     DisableCompression := DisableCompression o; File := File o;
     ForceRm := ForceRm o; Format := Format o; HTTPProxy := HTTPProxy o;
     Iidfile := Iidfile o; Isolation := Isolation o; Label := Label o;
     Layers := Layers o; Logfile := v; Memory := Memory o;
     MemorySwap := MemorySwap o; NoCache := NoCache o; OS := OS o;
     Pull := Pull o; PullAlways := PullAlways o; PullNever := PullNever o;
     Quiet := Quiet o; Rm := Rm o; RuntimeFlags := RuntimeFlags o;
     ShmSize := ShmSize o; SignBy := SignBy o;
     SignaturePolicy := SignaturePolicy o; Squash := Squash o;
     SquashAll := SquashAll o; Tag := Tag o; Target := Target o;
     Ulimit := Ulimit o; Volumes := Volumes o |}.

(** The flag bound to [buildOpts.PullAlways]. *)
Definition set_PullAlways (v : bool) (o : buildFlagsWrapper)
    : buildFlagsWrapper :=
  {| AddHost := AddHost o; Annotation := Annotation o; Arch := Arch o;
     BlobCache := BlobCache o; BuildArg := BuildArg o;
     CNIConfigDir := CNIConfigDir o; CNIPlugInPath := CNIPlugInPath o;
     CPUPeriod := CPUPeriod o; CPUQuota := CPUQuota o;
     CPUSetCPUs := CPUSetCPUs o; CPUSetMems := CPUSetMems o;
     CPUShares := CPUShares o; CapAdd := CapAdd o; CapDrop := CapDrop o;
     CgroupParent := CgroupParent o; Devices := Devices o;
     DisableCompression := DisableCompression o; File := File o;
     ForceRm := ForceRm o; Format := Format o; HTTPProxy := HTTPProxy o;
     Iidfile := Iidfile o; Isolation := Isolation o; Label := Label o;
     Layers := Layers o; Logfile := Logfile o; Memory := Memory o;
     MemorySwap := MemorySwap o; NoCache := NoCache o; OS := OS o;
     Pull := Pull o; PullAlways := v; PullNever := PullNever o;
     Quiet := Quiet o; Rm := Rm o; RuntimeFlags := RuntimeFlags o;
     ShmSize := ShmSize o; SignBy := SignBy o;
     SignaturePolicy := SignaturePolicy o; Squash := Squash o;
     SquashAll := SquashAll o; Tag := Tag o; Target := Target o;
     Ulimit := Ulimit o; Volumes := Volumes o |}.

(** The flag bound to [buildOpts.PullNever]. *)
Definition set_PullNever (v : bool) (o : buildFlagsWrapper)
    : buildFlagsWrapper :=
  {| AddHost := AddHost o; Annotation := Annotation o; Arch := Arch o;
     BlobCache := BlobCache o; BuildArg := BuildArg o;
     CNIConfigDir := CNIConfigDir o; CNIPlugInPath := CNIPlugInPath o;
     CPUPeriod := CPUPeriod o; CPUQuota := CPUQuota o;
     CPUSetCPUs := CPUSetCPUs o; CPUSetMems := CPUSetMems o;
     CPUShares := CPUShares o; CapAdd := CapAdd o; CapDrop := CapDrop o;
     CgroupParent := CgroupParent o; Devices := Devices o;
     DisableCompression := DisableCompression o; File := File o;
     ForceRm := ForceRm o; Format := Format o; HTTPProxy := HTTPProxy o;
     Iidfile := Iidfile o; Isolation := Isolation o; Label := Label o;
     Layers := Layers o; Logfile := Logfile o; Memory := Memory o;
     MemorySwap := MemorySwap o; NoCache := NoCache o; OS := OS o;
     Pull := Pull o; PullAlways := PullAlways o; PullNever := v;
     Quiet := Quiet o; Rm := Rm o; RuntimeFlags := RuntimeFlags o;
     ShmSize := ShmSize o; SignBy := SignBy o;
     SignaturePolicy := SignaturePolicy o; Squash := Squash o;
     SquashAll := SquashAll o; Tag := Tag o; Target := Target o;
     Ulimit := Ulimit o; Volumes := Volumes o |}.

(** ** The command and the world around it *)

(** [*cobra.Command]: the file asks a command only which flags were set on
    the command line ([cmd.Flags().Changed(name)], [cmd.Flag(name).Changed]);
    the values of the flags it reads from the bound variables in
    [buildOpts]. *)
Record Command : Type := {
  Changed : string -> bool
}.

(** The process-wide configuration returned by [registry.PodmanConfig()]. *)
Record PodmanConfig : Type := {
  cfg_RuntimeFlags : list string;
  cfg_CgroupManager : string;
  cfg_RuntimePath : string
}.

Module config.
(** Modelled from the spec: [config.SystemdCgroupsManager] is a constant of
    the containers/common library, the name of the systemd cgroup manager. *)
Definition SystemdCgroupsManager : string := "systemd".
End config.

(** Everything [build.go] calls outside the file.  [utils.IsDir] and
    [utils.FileExists] are helpers of this repository that ask the file
    system; the rest are the Go library, buildah and the image engine.  Each
    of them is called at most once in a run of [build], so a function of the
    arguments stands for the answer at the time of the call. *)
Record World : Type := {
  os_Getenv : string -> string;
  registry_IsRemote : bool;
  unicodeLower : string -> string;
  GetFromAndBudFlags : option error;
  TempDirForURL : string -> string -> string -> result (string * string);
  filepath_Abs : string -> result string;
  filepath_Dir : string -> string;
  filepath_Join : string -> string -> string;
  utils_IsDir : string -> bool;
  utils_FileExists : string -> bool;
  os_OpenFile : string -> option error;
  os_RemoveAll : string -> option error;
  units_RAMInBytes : string -> result Z;
  parse_NamespaceOptions :
    Command ->
    result (list buildah.NamespaceOption * buildah.NetworkConfigurationPolicy);
  parse_IsolationOption : string -> result buildah.Isolation;
  parse_IDMappingOptions :
    Command -> buildah.Isolation ->
    result (list buildah.NamespaceOption * buildah.IDMappingOptions);
  parse_SystemContextFromOptions : Command -> result buildah.SystemContext;
  registry_PodmanConfig : PodmanConfig;
  ImageEngine_Build :
    list string -> imagebuildah.BuildOptions -> option error
}.

(** The calls that leave the process, in the order [build] makes them. *)
Inductive event : Type :=
| EvTempDirForURL (dir pre url : string)
| EvAbs (path : string)
| EvIsDir (path : string)
| EvFileExists (path : string)
| EvOpenFile (name : string)
| EvSetOutput (f : os_File)
| EvClose (f : os_File)
| EvRemoveAll (path : string)
| EvLogrusErrorf (format : string) (args : list string) (err : error)
| EvBuild (containerFiles : list string) (opts : imagebuildah.BuildOptions).

(** A call registered with [defer]. *)
Inductive deferred : Type :=
| defer_RemoveAll (tempDir contextDir : string)
| defer_Close (f : os_File).

(** The mutable state of a run: the package-level [buildOpts], the calls made
    so far, the deferred calls (last registered first). *)
Record state : Type := {
  buildOpts : buildFlagsWrapper;
  trace : list event;
  defers : list deferred
}.

(** ** A state-and-error monad for the body of [build] *)

Definition M (A : Type) : Type := state -> result A * state.

Definition ret {A} (a : A) : M A := fun s => (Ok a, s).

Definition fail {A} (e : error) : M A := fun s => (Err e, s).

Definition bind {A B} (m : M A) (k : A -> M B) : M B :=
  fun s => match m s with
           | (Ok a, s') => k a s'
           | (Err e, s') => (Err e, s')
           end.

(** The monad is used through stdpp's notations: [x ← m; k], ['(a, b) ← m; k]
    and [m ;; k]. *)
#[global] Instance M_ret : MRet M := @ret.
#[global] Instance M_bind : MBind M := fun A B k m => bind m k.

(** A library call that returns [(value, error)]. *)
Definition lift {A} (r : result A) : M A := fun s => (r, s).

Definition emit (ev : event) : M unit :=
  fun s => (Ok tt, {| buildOpts := buildOpts s;
                      trace := (trace s ++ [ev])%list;
                      defers := defers s |}).

Definition defer (d : deferred) : M unit :=
  fun s => (Ok tt, {| buildOpts := buildOpts s;
                      trace := trace s;
                      defers := d :: defers s |}).

(** A read of the package-level [buildOpts]. *)
Definition load : M buildFlagsWrapper := fun s => (Ok (buildOpts s), s).

(** An assignment to fields of the package-level [buildOpts]. *)
Definition store (f : buildFlagsWrapper -> buildFlagsWrapper) : M unit :=
  fun s => (Ok tt, {| buildOpts := f (buildOpts s);
                      trace := trace s;
                      defers := defers s |}).

(** ** [useLayers] and [buildFlags] *)

Section Program.

Variable w : World.

Definition ToLower (s : string) : string :=
  gostrings.ToLower (unicodeLower w) s.

(** [useLayers] returns ["false"] if BUILDAH_LAYERS is set to ["0"] or
    ["false"], otherwise it returns ["true"]. *)
Definition useLayers : string :=
  let layers := os_Getenv w "BUILDAH_LAYERS" in
  if (ToLower layers =? "false") || (layers =? "0") then "false" else "true".

(** [buildFlags], as far as it writes [buildOpts].  [lib] is [buildOpts] as
    the registration of buildah's flag sets leaves it (every bound variable
    at the default of its flag); [None] is the exit of the process when
    [GetFromAndBudFlags] fails.  [init] calls [buildFlags] for [buildCmd] and
    for [imageBuildCmd], both bound to the same [buildOpts], which the second
    call leaves as the first did. *)
Definition buildFlags (lib : buildFlagsWrapper) : option buildFlagsWrapper :=
  let o := set_SquashAll false lib in
  let o := set_Pull true o in
  let useLayersVal := useLayers in
  let o := set_Layers (useLayersVal =? "true") o in
  let o := set_ForceRm true o in
  match GetFromAndBudFlags w with
  | Some _ => None
  | None => Some (if registry_IsRemote w then set_HTTPProxy false o else o)
  end.

(** ** [build] *)

(** The first statement of [build]: more than one of [--squash],
    [--squash-all] and [--layers] on the command line. *)
Definition conflict (cmd : Command) : bool :=
  (Changed cmd "squash" && Changed cmd "layers")
  || (Changed cmd "squash-all" && Changed cmd "layers")
  || (Changed cmd "squash-all" && Changed cmd "squash").

(** The container files of the command line, [-] standing for the standard
    input. *)
Definition containerFilesOf (files : list string) : list string :=
  List.map (fun f => if f =? "-" then "/dev/stdin" else f) files.

(** The test of the loop over the container files: a path that is fetched,
    not read from the disk. *)
Definition looksRemote (f : string) : bool :=
  gostrings.HasPrefix f "http://"
  || gostrings.HasPrefix f "https://"
  || gostrings.HasPrefix f "git://"
  || gostrings.HasPrefix f "github.com/".

(** The loop of the [else] branch: the home of the first container file that
    is on the disk; [contextDir] stays empty when the loop finds none. *)
Fixpoint contextDirOfFiles (containerFiles : list string) : M string :=
  match containerFiles with
  | [] => ret ""
  | f :: rest =>
      if looksRemote f then contextDirOfFiles rest
      else
        emit (EvAbs f);;
        match filepath_Abs w f with
        | Err err =>
            fail (errors_Wrapf err "error determining path to file %q" [f])
        | Ok absFile => ret (filepath_Dir w absFile)
        end
  end.

(** "Determine context directory." *)
Definition contextDirOf (args containerFiles : list string) : M string :=
  match args with
  | arg0 :: _ =>
      emit (EvTempDirForURL "" "buildah" arg0);;
      match TempDirForURL w "" "buildah" arg0 with
      | Err err =>
          fail (errors_Wrapf err
                  "error prepping temporary context directory" [])
      | Ok (tempDir, subDir) =>
          if negb (tempDir =? "") then
            let contextDir := filepath_Join w tempDir subDir in
            defer (defer_RemoveAll tempDir contextDir);;
            ret contextDir
          else
            emit (EvAbs arg0);;
            match filepath_Abs w arg0 with
            | Err err =>
                fail (errors_Wrapf err
                        "error determining path to directory %q" [arg0])
            | Ok absDir => ret absDir
            end
      end
  | [] => contextDirOfFiles containerFiles
  end.

(** The default container file of a command line without [--file]. *)
Definition defaultContainerFiles (contextDir : string)
    (containerFiles : list string) : M (list string) :=
  match containerFiles with
  | [] =>
      emit (EvFileExists (filepath_Join w contextDir "Containerfile"));;
      if utils_FileExists w (filepath_Join w contextDir "Containerfile")
      then ret [filepath_Join w contextDir "Containerfile"]
      else ret [filepath_Join w contextDir "Dockerfile"]
  | _ :: _ => ret containerFiles
  end.

(** The log file of [--logfile]. *)
Definition openLogfile (cmd : Command) : M (option os_File) :=
  if Changed cmd "logfile" then
    o ← load;
    emit (EvOpenFile (Logfile o));;
    match os_OpenFile w (Logfile o) with
    | Some err => fail err
    | None =>
        defer (defer_Close (os_Opened (Logfile o)));;
        ret (Some (os_Opened (Logfile o)))
    end
  else ret None.

(** ** [buildFlagsWrapperToOptions]

    [build] passes [&buildOpts] for [flags], the only call of the function:
    [flags] and the package-level [buildOpts] are one struct, so a write
    through [flags] is a [store] and a read of either name is a [load]. *)

(** [output] and [tags]. *)
Definition outputAndTags (c : Command) (flags : buildFlagsWrapper)
    : string * list string :=
  if Changed c "tag" then
    match Tag flags with
    | t :: rest => (t, rest)
    | [] => ("", [])
    end
  else ("", []).

(** [pullPolicy]: three [if]s in a row, the last assignment stays. *)
Definition pullPolicyOf (c : Command) (flags : buildFlagsWrapper)
    : imagebuildah.PullPolicy :=
  let pullPolicy := imagebuildah.PullIfMissing in
  let pullPolicy :=
    if Changed c "pull" && Pull flags then imagebuildah.PullAlways
    else pullPolicy in
  let pullPolicy :=
    if PullAlways flags then imagebuildah.PullAlways else pullPolicy in
  if PullNever flags then imagebuildah.PullIfMissing else pullPolicy.

(** The body of the loop over [flags.BuildArg]. *)
Definition buildArgStep (args : gmap string string) (arg : string)
    : gmap string string :=
  match gostrings.SplitN2 arg "="%char with
  | k :: v :: _ => <[k := v]> args
  | [k] => delete k args
  | [] => args
  end.

(** [args]: a fresh map, filled in the order of the command line. *)
Definition buildArgsOf (c : Command) (flags : buildFlagsWrapper)
    : gmap string string :=
  if Changed c "build-arg" then fold_left buildArgStep (BuildArg flags) ∅
  else ∅.

(** The translation of [--squash] and [--squash-all] into buildah's
    [Squash] and [Layers].  The source has the two [if]s twice, once reading
    [buildOpts.Squash] and once reading [flags.Squash], the same field. *)
Definition squashTranslation (c : Command) (o : buildFlagsWrapper)
    : buildFlagsWrapper :=
  let o :=
    if Changed c "squash" && Squash o
    then set_Layers false (set_Squash false o) else o in
  if Changed c "squash-all"
  then set_Layers false (set_Squash true o) else o.

(** The [switch] on the lower-cased [flags.Format]. *)
Definition outputFormatOf (format : string) : result string :=
  if gostrings.HasPrefix format buildah.OCI
  then Ok buildah.OCIv1ImageManifest
  else if gostrings.HasPrefix format buildah.DOCKER
  then Ok buildah.Dockerv2ImageManifest
  else Err (errors_Errorf "unrecognized image type %q" [format]).

(** [runtimeFlags]: the flags of the command line, then the configured ones,
    then the flag of the systemd cgroup manager. *)
Definition runtimeFlagsOf (flags : buildFlagsWrapper) (cfg : PodmanConfig)
    : list string :=
  (List.map (fun arg => "--" +:+ arg) (RuntimeFlags flags)
   ++ List.map (fun arg => "--" +:+ arg) (cfg_RuntimeFlags cfg)
   ++ (if cfg_CgroupManager cfg =? config.SystemdCgroupsManager
       then ["--systemd-cgroup"] else []))%list.

Definition buildFlagsWrapperToOptions (c : Command) (contextDir : string)
    (logfile : option os_File) : M imagebuildah.BuildOptions :=
  flags ← load;
  let '(output, tags) := outputAndTags c flags in
  let pullPolicy := pullPolicyOf c flags in
  let args := buildArgsOf c flags in
  store (fun o => set_Layers (Layers o) o);;
  store (squashTranslation c);;
  match logfile with
  | Some f => emit (EvSetOutput f)
  | None => ret tt
  end;;
  let '(stdout, stderr, reporter) :=
    match logfile with
    | Some f => (f, f, f)
    | None => (os_Stdout, os_Stderr, os_Stderr)
    end in
  memoryLimit ←
    (if Changed c "memory" then lift (units_RAMInBytes w (Memory flags))
     else ret 0%Z);
  memorySwap ←
    (if Changed c "memory-swap"
     then lift (units_RAMInBytes w (MemorySwap flags))
     else ret 0%Z);
  '(nsValues, networkPolicy) ← lift (parse_NamespaceOptions w c);
  store (squashTranslation c);;
  let compression :=
    if DisableCompression flags then imagebuildah.Uncompressed
    else imagebuildah.Gzip in
  isolation ← lift (parse_IsolationOption w (Isolation flags));
  '(usernsOption, idmappingOptions) ←
    lift (parse_IDMappingOptions w c isolation);
  let nsValues := (nsValues ++ usernsOption)%list in
  systemContext ← lift (parse_SystemContextFromOptions w c);
  store (fun o => set_Format (ToLower (Format o)) o);;
  flags ← load;
  format ← lift (outputFormatOf (Format flags));
  let runtimeFlags := runtimeFlagsOf flags (registry_PodmanConfig w) in
  let containerConfig := registry_PodmanConfig w in
  ret {| imagebuildah.AddCapabilities := CapAdd flags;
         imagebuildah.AdditionalTags := tags;
         imagebuildah.Annotations := Annotation flags;
         imagebuildah.Architecture := Arch flags;
         imagebuildah.Args := args;
         imagebuildah.BlobDirectory := BlobCache flags;
         imagebuildah.CNIConfigDir := CNIConfigDir flags;
         imagebuildah.CNIPluginPath := CNIPlugInPath flags;
         imagebuildah.CommonBuildOpts :=
           {| buildah.cb_AddHost := AddHost flags;
              buildah.cb_CPUPeriod := CPUPeriod flags;
              buildah.cb_CPUQuota := CPUQuota flags;
              buildah.cb_CPUSetCPUs := CPUSetCPUs flags;
              buildah.cb_CPUSetMems := CPUSetMems flags;
              buildah.cb_CPUShares := CPUShares flags;
              buildah.cb_CgroupParent := CgroupParent flags;
              buildah.cb_HTTPProxy := HTTPProxy flags;
              buildah.cb_Memory := memoryLimit;
              buildah.cb_MemorySwap := memorySwap;
              buildah.cb_ShmSize := ShmSize flags;
              buildah.cb_Ulimit := Ulimit flags;
              buildah.cb_Volumes := Volumes flags |};
         imagebuildah.Compression_ := compression;
         imagebuildah.ConfigureNetwork := networkPolicy;
         imagebuildah.ContextDirectory := contextDir;
         imagebuildah.Devices := Devices flags;
         imagebuildah.DropCapabilities := CapDrop flags;
         imagebuildah.Err_ := stderr;
         imagebuildah.ForceRmIntermediateCtrs := ForceRm flags;
         imagebuildah.IDMappingOptions := idmappingOptions;
         imagebuildah.IIDFile := Iidfile flags;
         imagebuildah.Isolation := isolation;
         imagebuildah.Labels := Label flags;
         imagebuildah.Layers := Layers flags;
         imagebuildah.NamespaceOptions := nsValues;
         imagebuildah.NoCache := NoCache flags;
         imagebuildah.OS := OS flags;
         imagebuildah.Out := stdout;
         imagebuildah.Output := output;
         imagebuildah.OutputFormat := format;
         imagebuildah.PullPolicy_ := pullPolicy;
         imagebuildah.Quiet := Quiet flags;
         imagebuildah.RemoveIntermediateCtrs := Rm flags;
         imagebuildah.ReportWriter := reporter;
         imagebuildah.Runtime := cfg_RuntimePath containerConfig;
         imagebuildah.RuntimeArgs := runtimeFlags;
         imagebuildah.SignBy := SignBy flags;
         imagebuildah.SignaturePolicyPath := SignaturePolicy flags;
         imagebuildah.Squash := Squash flags;
         imagebuildah.SystemContext := systemContext;
         imagebuildah.Target := Target flags;
         imagebuildah.TransientMounts := Volumes flags |}.

(** [build] up to the call of the image engine: the container files and the
    options that the engine is going to receive. *)
Definition compileRequest (cmd : Command) (args : list string)
    : M (list string * imagebuildah.BuildOptions) :=
  if conflict cmd then
    fail (errors_New
            "cannot specify --squash, --squash-all and --layers options together")
  else
    o ← load;
    let containerFiles := containerFilesOf (File o) in
    contextDir ← contextDirOf args containerFiles;
    if contextDir =? "" then
      fail (errors_Errorf
              "no context directory and no Containerfile specified" [])
    else
      emit (EvIsDir contextDir);;
      if negb (utils_IsDir w contextDir) then
        fail (errors_Errorf "context must be a directory: %q" [contextDir])
      else
        containerFiles ← defaultContainerFiles contextDir containerFiles;
        logfile ← openLogfile cmd;
        apiBuildOpts ← buildFlagsWrapperToOptions cmd contextDir logfile;
        ret (containerFiles, apiBuildOpts).

(** The call of the image engine, whose error is the error of [build]. *)
Definition engineBuild (request : list string * imagebuildah.BuildOptions)
    : M unit :=
  let '(containerFiles, apiBuildOpts) := request in
  emit (EvBuild containerFiles apiBuildOpts);;
  match ImageEngine_Build w containerFiles apiBuildOpts with
  | Some err => fail err
  | None => ret tt
  end.

(** A deferred call, run when [build] returns.  A failure to remove the
    temporary directory is logged and changes nothing else. *)
Definition runDeferred (s : state) (d : deferred) : state :=
  match d with
  | defer_Close f => snd (emit (EvClose f) s)
  | defer_RemoveAll tempDir contextDir =>
      let s := snd (emit (EvRemoveAll tempDir) s) in
      match os_RemoveAll w tempDir with
      | Some err =>
          snd (emit (EvLogrusErrorf
                       "error removing temporary directory %q: %v"
                       [contextDir] err) s)
      | None => s
      end
  end.

(** The frame in which [build] runs its body: no call deferred yet. *)
Definition enter (s : state) : state :=
  {| buildOpts := buildOpts s; trace := trace s; defers := [] |}.

(** [build] executes the build command: the error it returns ([None] for
    [nil]) and the state it leaves.  Its deferred calls are its own; they run
    on every return, the last registered first. *)
Definition build (cmd : Command) (args : list string)
    : state -> option error * state :=
  fun s =>
    let '(r, s1) :=
      (request ← compileRequest cmd args; engineBuild request) (enter s) in
    let s2 := fold_left runDeferred (defers s1) s1 in
    (match r with Ok _ => None | Err err => Some err end,
     {| buildOpts := buildOpts s2; trace := trace s2; defers := defers s |}).

End Program.

(** ** Vocabulary of the properties *)

(** The paths whose existence a run asked for with [utils.FileExists]. *)
Fixpoint probes (t : list event) : list string :=
  match t with
  | [] => []
  | EvFileExists p :: t => p :: probes t
  | _ :: t => probes t
  end.

Section Vocabulary.

Variable w : World.

(** The container files that [build] hands to the engine. *)
Definition containerFilesFor (contextDir : string) (fs : list string)
    : list string :=
  match fs with
  | [] =>
      if utils_FileExists w (filepath_Join w contextDir "Containerfile")
      then [filepath_Join w contextDir "Containerfile"]
      else [filepath_Join w contextDir "Dockerfile"]
  | _ :: _ => fs
  end.

(** Two strings compared without regard to case: equal once both are
    lower-cased. *)
Definition eqFold (a b : string) : bool := ToLower w a =? ToLower w b.

(** The parsers that [buildFlagsWrapperToOptions] calls before it looks at
    the format all accept the command line. *)
Definition parsersAccept (c : Command) (flags : buildFlagsWrapper) : bool :=
  (if Changed c "memory"
   then is_Ok (units_RAMInBytes w (Memory flags)) else true)
  && (if Changed c "memory-swap"
      then is_Ok (units_RAMInBytes w (MemorySwap flags)) else true)
  && is_Ok (parse_NamespaceOptions w c)
  && match parse_IsolationOption w (Isolation flags) with
     | Ok isolation => is_Ok (parse_IDMappingOptions w c isolation)
     | Err _ => false
     end
  && is_Ok (parse_SystemContextFromOptions w c).

(** A run of [build] gets as far as [buildFlagsWrapperToOptions]: no
    conflict of flags, a context that resolves to a directory, a log file
    that opens when one is asked for. *)
Definition reachesOptions (cmd : Command) (args : list string) (s : state)
    : Prop :=
  conflict cmd = false /\
  (exists d s1,
     contextDirOf w args (containerFilesOf (File (buildOpts s))) s = (Ok d, s1)
     /\ (d =? "") = false
     /\ utils_IsDir w d = true) /\
  (Changed cmd "logfile" = true ->
   os_OpenFile w (Logfile (buildOpts s)) = None).

End Vocabulary.

(** A build argument key: a string without [=]. *)
Definition noSep (k : string) : bool :=
  gostrings.all (fun ch => negb (Ascii.eqb ch "="%char)) k.

(** The key of a [--build-arg] value: the text before its first [=]. *)
Definition argKey (arg : string) : string :=
  hd "" (gostrings.SplitN2 arg "="%char).

(** The error of the first statement of [build]. *)
Definition conflictError : error :=
  errors_New
    "cannot specify --squash, --squash-all and --layers options together".

(** ** Vocabulary of the properties of a whole run *)

(** The flag bound to [buildOpts.RuntimeFlags]. *)
Definition set_RuntimeFlags (v : list string) (o : buildFlagsWrapper)
    : buildFlagsWrapper :=
  {| AddHost := AddHost o; Annotation := Annotation o; Arch := Arch o;
     BlobCache := BlobCache o; BuildArg := BuildArg o;
     CNIConfigDir := CNIConfigDir o; CNIPlugInPath := CNIPlugInPath o;
     CPUPeriod := CPUPeriod o; CPUQuota := CPUQuota o;
     CPUSetCPUs := CPUSetCPUs o; CPUSetMems := CPUSetMems o;
     CPUShares := CPUShares o; CapAdd := CapAdd o; CapDrop := CapDrop o;
     CgroupParent := CgroupParent o; Devices := Devices o;
     DisableCompression := DisableCompression o; File := File o;
     ForceRm := ForceRm o; Format := Format o; HTTPProxy := HTTPProxy o;
     Iidfile := Iidfile o; Isolation := Isolation o; Label := Label o;
     Layers := Layers o; Logfile := Logfile o; Memory := Memory o;
     MemorySwap := MemorySwap o; NoCache := NoCache o; OS := OS o;
     Pull := Pull o; PullAlways := PullAlways o; PullNever := PullNever o;
     Quiet := Quiet o; Rm := Rm o; RuntimeFlags := v; ShmSize := ShmSize o;
     SignBy := SignBy o; SignaturePolicy := SignaturePolicy o;
     Squash := Squash o; SquashAll := SquashAll o; Tag := Tag o;
     Target := Target o; Ulimit := Ulimit o; Volumes := Volumes o |}.


(** A monadic computation keeps a relation between the state it finds and
    the state it leaves, whatever it returns. *)
Definition respects {A} (R : state -> state -> Prop) (m : M A) : Prop :=
  forall s r s', m s = (r, s') -> R s s'.

(** The events of the deferred calls. *)
Definition isCleanup (ev : event) : bool :=
  match ev with
  | EvClose _ | EvRemoveAll _ | EvLogrusErrorf _ _ _ => true
  | _ => false
  end.

(** The events that take no resource and run no deferred call. *)
Definition isPlain (ev : event) : bool :=
  match ev with
  | EvAbs _ | EvIsDir _ | EvFileExists _ | EvSetOutput _ | EvBuild _ _ => true
  | _ => false
  end.

(** A run only adds events, all of them in [P]. *)
Definition grows (P : event -> bool) (s s' : state) : Prop :=
  exists evs, trace s' = (trace s ++ evs)%list /\ forallb P evs = true.

(** A run that also registers no deferred call. *)
Definition quiet (P : event -> bool) (s s' : state) : Prop :=
  defers s' = defers s /\ grows P s s'.

(** The events of [build] before it calls the engine. *)
Definition isSetup (ev : event) : bool :=
  match ev with
  | EvTempDirForURL _ _ _ | EvAbs _ | EvIsDir _ | EvFileExists _
  | EvOpenFile _ | EvSetOutput _ => true
  | _ => false
  end.

(** The events of the log file: its opening and the redirection of the
    log to it. *)
Definition isLogEvent (ev : event) : bool :=
  match ev with
  | EvOpenFile _ | EvSetOutput _ => true
  | _ => false
  end.

(** Every event but a call of [os.OpenFile]. *)
Definition notOpen (ev : event) : bool :=
  match ev with EvOpenFile _ => false | _ => true end.

(** The calls of the image engine in a trace. *)
Definition engineCalls (t : list event)
    : list (list string * imagebuildah.BuildOptions) :=
  flat_map (fun ev => match ev with
                      | EvBuild files opts => [(files, opts)]
                      | _ => []
                      end) t.

(** The names with which a trace called [os.OpenFile]. *)
Definition openCalls (t : list event) : list string :=
  flat_map (fun ev => match ev with EvOpenFile name => [name] | _ => [] end) t.

Section RunVocabulary.

Variable w : World.

(** The resources that the calls in a trace took, each as the deferred call
    that gives it back: a temporary directory that [TempDirForURL] created
    (with the context directory inside it), a file that [os.OpenFile]
    opened. *)
Definition acquired (t : list event) : list deferred :=
  flat_map (fun ev =>
              match ev with
              | EvTempDirForURL dir pre url =>
                  match TempDirForURL w dir pre url with
                  | Ok (tempDir, subDir) =>
                      if tempDir =? "" then []
                      else [defer_RemoveAll tempDir
                              (filepath_Join w tempDir subDir)]
                  | Err _ => []
                  end
              | EvOpenFile name =>
                  match os_OpenFile w name with
                  | None => [defer_Close (os_Opened name)]
                  | Some _ => []
                  end
              | _ => []
              end) t.

(** The events of one deferred call. *)
Definition cleanupEvents (d : deferred) : list event :=
  match d with
  | defer_Close f => [EvClose f]
  | defer_RemoveAll tempDir contextDir =>
      EvRemoveAll tempDir
      :: match os_RemoveAll w tempDir with
         | Some err =>
             [EvLogrusErrorf "error removing temporary directory %q: %v"
                [contextDir] err]
         | None => []
         end
  end.

(** A run adds events that are no cleanup and has deferred, last first, the
    release of every resource they took. *)
Definition accounted (s s' : state) : Prop :=
  exists work,
    trace s' = (trace s ++ work)%list
    /\ forallb (fun ev => negb (isCleanup ev)) work = true
    /\ defers s' = (rev (acquired work) ++ defers s)%list.

(** The error, if any, of a library call that [buildFlagsWrapperToOptions]
    makes. *)
Definition verdict {A} (r : result A) : option error :=
  match r with Ok _ => None | Err e => Some e end.

(** The verdicts of the fallible steps of [buildFlagsWrapperToOptions] in
    the order of the source: memory, memory-swap, namespaces, isolation, ID
    mappings (asked only with an isolation), system context, format. *)
Definition optionVerdicts (c : Command) (flags : buildFlagsWrapper)
    : list (option error) :=
  [ if Changed c "memory"
    then verdict (units_RAMInBytes w (Memory flags)) else None;
    if Changed c "memory-swap"
    then verdict (units_RAMInBytes w (MemorySwap flags)) else None;
    verdict (parse_NamespaceOptions w c);
    verdict (parse_IsolationOption w (Isolation flags));
    match parse_IsolationOption w (Isolation flags) with
    | Ok isolation => verdict (parse_IDMappingOptions w c isolation)
    | Err _ => None
    end;
    verdict (parse_SystemContextFromOptions w c);
    verdict (outputFormatOf (ToLower w (Format flags))) ].

(** The run gets as far as the log file: the flags do not conflict,
    [--logfile] is on the command line and the context resolves to a
    directory. *)
Definition logfileReached (cmd : Command) (args : list string) (s : state)
    : bool :=
  negb (conflict cmd)
  && Changed cmd "logfile"
  && match fst (contextDirOf w args (containerFilesOf (File (buildOpts s))) s)
     with
     | Ok d => negb (d =? "") && utils_IsDir w d
     | Err _ => false
     end.

End RunVocabulary.

(** The value of a [--build-arg]: the text after its first [=], if it has
    one. *)
Definition argValue (arg : string) : option string :=
  match gostrings.SplitN2 arg "="%char with
  | _ :: v :: _ => Some v
  | _ => None
  end.

(** The last [--build-arg] of a command line that names the key [k]. *)
Definition lastArgFor (k : string) (buildArgs : list string) : option string :=
  find (fun arg => argKey arg =? k) (rev buildArgs).

(** The first error of a list of verdicts. *)
Fixpoint firstError (vs : list (option error)) : option error :=
  match vs with
  | [] => None
  | Some e :: _ => Some e
  | None :: vs => firstError vs
  end.

(** The fields of [buildOpts] that a run may write: [s'] has the flags of
    [s] except for [Squash], [Layers] and [Format]. *)
Definition sameButSquashLayersFormat (s s' : state) : Prop :=
  exists squash layers format,
    buildOpts s' =
    set_Format format (set_Layers layers (set_Squash squash (buildOpts s))).

(** ** A world to run the program in

    A working directory [/tmp/ctx] that holds a [Containerfile], a remote
    context that is fetched into [/var/tmp/buildah1], parsers that accept
    their input, an engine that builds without error. *)

Module Sample.

(** The directory part of a slash-separated path without a trailing slash. *)
Fixpoint dirname (s : string) : string :=
  match s with
  | EmptyString => EmptyString
  | String ch rest =>
      if gostrings.all (fun x => negb (Ascii.eqb x "/"%char)) rest
      then EmptyString
      else String ch (dirname rest)
  end.

Definition abs (p : string) : string :=
  if gostrings.HasPrefix p "/" then p
  else if p =? "." then "/tmp/ctx"
  else "/tmp/ctx/" +:+ p.

(** The world in which BUILDAH_LAYERS has the value [layers]. *)
Definition worldEnv (layers : string) : World :=
  {| os_Getenv := fun name =>
       if name =? "BUILDAH_LAYERS" then layers else "";
     registry_IsRemote := false;
     unicodeLower := fun s => s;
     GetFromAndBudFlags := None;
     TempDirForURL := fun _ _ url =>
       if gostrings.HasPrefix url "https://"
       then Ok ("/var/tmp/buildah1", "src") else Ok ("", "");
     filepath_Abs := fun p => Ok (abs p);
     filepath_Dir := fun p =>
       match dirname p with EmptyString => "/" | d => d end;
     filepath_Join := fun a b => a +:+ "/" +:+ b;
     utils_IsDir := fun p =>
       (p =? "/tmp/ctx") || (p =? "/var/tmp/buildah1/src");
     utils_FileExists := fun p => p =? "/tmp/ctx/Containerfile";
     os_OpenFile := fun _ => None;
     os_RemoveAll := fun _ => None;
     units_RAMInBytes := fun s =>
       if s =? "512m" then Ok (512 * 1024 * 1024)%Z
       else Err (errors_New "invalid size");
     parse_NamespaceOptions := fun _ => Ok ([], 0%Z);
     parse_IsolationOption := fun s =>
       if s =? "banana" then Err (errors_New "unrecognized isolation type")
       else Ok 0%Z;
     parse_IDMappingOptions := fun _ _ =>
       Ok ([], buildah.IDMappingOptionsRef 0);
     parse_SystemContextFromOptions := fun _ =>
       Ok (buildah.SystemContextRef 0);
     registry_PodmanConfig :=
       {| cfg_RuntimeFlags := [];
          cfg_CgroupManager := "systemd";
          cfg_RuntimePath := "/usr/bin/crun" |};
     ImageEngine_Build := fun _ _ => None |}.

(** BUILDAH_LAYERS is not set. *)
Definition world : World := worldEnv "".

(** [buildOpts] with every flag at the default of its library. *)
Definition libDefaults : buildFlagsWrapper :=
  {| AddHost := []; Annotation := []; Arch := "amd64"; BlobCache := "";
     BuildArg := []; CNIConfigDir := ""; CNIPlugInPath := "";
     CPUPeriod := 0; CPUQuota := 0; CPUSetCPUs := ""; CPUSetMems := "";
     CPUShares := 0; CapAdd := []; CapDrop := []; CgroupParent := "";
     Devices := []; DisableCompression := false; File := [];
     ForceRm := false; Format := "oci"; HTTPProxy := true; Iidfile := "";
     Isolation := ""; Label := []; Layers := false; Logfile := "";
     Memory := ""; MemorySwap := ""; NoCache := false; OS := "linux";
     Pull := false; PullAlways := false; PullNever := false; Quiet := false;
     Rm := true; RuntimeFlags := []; ShmSize := "65536k"; SignBy := "";
     SignaturePolicy := ""; Squash := false; SquashAll := false; Tag := [];
     Target := ""; Ulimit := []; Volumes := [] |}.

(** [buildOpts] after [init]. *)
Definition initial : buildFlagsWrapper :=
  match buildFlags world libDefaults with
  | Some o => o
  | None => libDefaults
  end.

(** A command line that sets the flags [names]. *)
Definition command (names : list string) : Command :=
  {| Changed := fun name => existsb (String.eqb name) names |}.

Definition start (o : buildFlagsWrapper) : state :=
  {| buildOpts := o; trace := []; defers := [] |}.

(** [podman build --squash-all -t myimg .] *)
Definition squashAllRun : result (list string * imagebuildah.BuildOptions) :=
  fst (compileRequest world (command ["squash-all"; "tag"]) ["."]
         (start (set_SquashAll true (set_Tag ["myimg"] initial)))).

End Sample.

(** * Properties *)

(** ** Stepping through a run *)

Lemma bind_Ok_inv {A B} (m : M A) (k : A -> M B) s b s' :
  (m ≫= k) s = (Ok b, s') ->
  exists a s1, m s = (Ok a, s1) /\ k a s1 = (Ok b, s').
Proof.
  unfold mbind, M_bind, bind.
  destruct (m s) as [[a|e] s1]; [eauto | discriminate].
Qed.

(** One primitive step that returned: the equations it gives. *)
Ltac prim H :=
  repeat match type of H with
         | (match ?e with _ => _ end) _ = _ => destruct e eqn:?
         end;
  cbv [load store emit lift ret mret M_ret defer fail] in H;
  first [discriminate H | injection H as ? ?; subst].

(** The last statement of a body that returned. *)
Ltac last_step H :=
  cbv [ret mret M_ret fail lift] in H;
  first [discriminate H | injection H as ? ?; subst].

(** One statement of a body that returned. *)
Ltac step H :=
  match type of H with
  | (mbind _ _) _ = (Ok _, _) =>
      let H1 := fresh "Hstep" in
      apply bind_Ok_inv in H as (? & ? & H1 & H); prim H1
  | (match ?e with _ => _ end) _ = _ => destruct e eqn:?
  end.

Lemma set_Layers_same o : set_Layers (Layers o) o = o.
Proof. destruct o; reflexivity. Qed.

Lemma state_eta s :
  {| buildOpts := buildOpts s; trace := trace s; defers := defers s |} = s.
Proof. destruct s; reflexivity. Qed.

(** ** The translation of the squash flags *)

Lemma squashTranslation_Format c o :
  Format (squashTranslation c o) = Format o.
Proof.
  unfold squashTranslation.
  destruct (Changed c "squash" && Squash o), (Changed c "squash-all");
    reflexivity.
Qed.

Lemma squashTranslation_idem c o :
  squashTranslation c (squashTranslation c o) = squashTranslation c o.
Proof.
  unfold squashTranslation.
  destruct (Changed c "squash"), (Changed c "squash-all"), (Squash o) eqn:E;
    cbn; rewrite ?E; reflexivity.
Qed.

Lemma squashTranslation_all c o :
  Changed c "squash-all" = true ->
  Squash (squashTranslation c o) = true /\
  Layers (squashTranslation c o) = false.
Proof. unfold squashTranslation. intros ->. split; reflexivity. Qed.

Lemma squashTranslation_squash c o :
  Changed c "squash" = true -> Squash o = true ->
  Changed c "squash-all" = false ->
  Squash (squashTranslation c o) = false /\
  Layers (squashTranslation c o) = false.
Proof. unfold squashTranslation. intros -> -> ->. split; reflexivity. Qed.

Lemma squashTranslation_untouched c o :
  Changed c "squash" && Squash o = false ->
  Changed c "squash-all" = false ->
  squashTranslation c o = o.
Proof. unfold squashTranslation. intros -> ->. reflexivity. Qed.

Section Facts.

Variable w : World.

(** What [buildFlagsWrapperToOptions] read, when it returned options. *)
Lemma buildFlagsWrapperToOptions_Ok c d lf s opts s' :
  buildFlagsWrapperToOptions w c d lf s = (Ok opts, s') ->
  imagebuildah.Squash opts = Squash (squashTranslation c (buildOpts s)) /\
  imagebuildah.Layers opts = Layers (squashTranslation c (buildOpts s)) /\
  imagebuildah.PullPolicy_ opts = pullPolicyOf c (buildOpts s) /\
  imagebuildah.Args opts = buildArgsOf c (buildOpts s) /\
  imagebuildah.ContextDirectory opts = d /\
  outputFormatOf (ToLower w (Format (buildOpts s)))
  = Ok (imagebuildah.OutputFormat opts).
Proof.
  intros H. unfold buildFlagsWrapperToOptions in H.
  repeat step H.
  all: last_step H.
  all: rewrite set_Layers_same, squashTranslation_idem in *.
  all: rewrite squashTranslation_Format in *.
  all: repeat split; assumption.
Qed.

Lemma probes_app t1 t2 : probes (t1 ++ t2)%list = (probes t1 ++ probes t2)%list.
Proof.
  induction t1 as [|e t1 IH]; [reflexivity|].
  destruct e; cbn; rewrite IH; reflexivity.
Qed.

(** The loop over the container files stops at the first one that does not
    look remote. *)
Lemma contextDirOfFiles_find fs :
  contextDirOfFiles w fs =
  match find (fun f => negb (looksRemote f)) fs with
  | None => ret ""
  | Some f =>
      emit (EvAbs f);;
      match filepath_Abs w f with
      | Err err =>
          fail (errors_Wrapf err "error determining path to file %q" [f])
      | Ok absFile => ret (filepath_Dir w absFile)
      end
  end.
Proof.
  induction fs as [|f fs IH]; [reflexivity|].
  cbn. destruct (looksRemote f); [exact IH | reflexivity].
Qed.

(** Resolving the context writes no flag and asks for no file. *)
Lemma contextDirOf_Ok args fs s d s1 :
  contextDirOf w args fs s = (Ok d, s1) ->
  buildOpts s1 = buildOpts s /\ probes (trace s1) = probes (trace s).
Proof.
  unfold contextDirOf. destruct args as [|arg0 args].
  - rewrite contextDirOfFiles_find. intros H.
    repeat step H; last_step H; cbn;
      rewrite ?probes_app, ?app_nil_r; auto.
  - intros H.
    repeat step H; last_step H; cbn;
      rewrite ?probes_app, ?app_nil_r; auto.
Qed.

Lemma openLogfile_Ok cmd s lf s1 :
  openLogfile w cmd s = (Ok lf, s1) ->
  buildOpts s1 = buildOpts s /\ probes (trace s1) = probes (trace s).
Proof.
  unfold openLogfile. intros H.
  repeat step H; last_step H; cbn;
    rewrite ?probes_app, ?app_nil_r; auto.
Qed.

Lemma buildFlagsWrapperToOptions_probes c d lf s opts s' :
  buildFlagsWrapperToOptions w c d lf s = (Ok opts, s') ->
  probes (trace s') = probes (trace s).
Proof.
  intros H. unfold buildFlagsWrapperToOptions in H.
  repeat step H.
  all: last_step H; cbn.
  all: rewrite ?probes_app, ?app_nil_r; reflexivity.
Qed.

(** The path of a run of [build] that reaches the engine. *)
Lemma compileRequest_Ok cmd args s files opts s' :
  compileRequest w cmd args s = (Ok (files, opts), s') ->
  conflict cmd = false /\
  exists d s1 lf s2,
    contextDirOf w args (containerFilesOf (File (buildOpts s))) s = (Ok d, s1)
    /\ (d =? "") = false
    /\ utils_IsDir w d = true
    /\ files = containerFilesFor w d (containerFilesOf (File (buildOpts s)))
    /\ buildOpts s2 = buildOpts s
    /\ probes (trace s2) =
       (probes (trace s)
        ++ match containerFilesOf (File (buildOpts s)) with
           | [] => [filepath_Join w d "Containerfile"]
           | _ :: _ => []
           end)%list
    /\ buildFlagsWrapperToOptions w cmd d lf s2 = (Ok opts, s').
Proof.
  unfold compileRequest. intros H.
  destruct (conflict cmd); [discriminate|]. split; [reflexivity|].
  apply bind_Ok_inv in H as (o & s0 & Hload & H).
  cbv [load] in Hload. injection Hload as <- <-.
  apply bind_Ok_inv in H as (d & s1 & Hctx & H).
  destruct (d =? "") eqn:Hd; [discriminate|].
  apply bind_Ok_inv in H as ([] & s1' & Hemit & H).
  cbv [emit] in Hemit. injection Hemit as <-.
  destruct (utils_IsDir w d) eqn:Hdir; [|discriminate]. cbn [negb] in H.
  apply bind_Ok_inv in H as (fs' & s2 & Hfiles & H).
  apply bind_Ok_inv in H as (lf & s3 & Hlog & H).
  apply bind_Ok_inv in H as (o' & s4 & Hopts & H).
  cbv [ret] in H. injection H as <- <- <-.
  destruct (contextDirOf_Ok _ _ _ _ _ Hctx) as [Hb1 Hp1].
  destruct (openLogfile_Ok _ _ _ _ Hlog) as [Hb3 Hp3].
  exists d, s1, lf, s3. repeat split; try assumption.
  - unfold defaultContainerFiles, containerFilesFor in *.
    destruct (containerFilesOf (File (buildOpts s))).
    + repeat step Hfiles; last_step Hfiles;
        reflexivity.
    + cbv [ret] in Hfiles. injection Hfiles as <- <-. reflexivity.
  - rewrite Hb3. unfold defaultContainerFiles in Hfiles.
    destruct (containerFilesOf (File (buildOpts s))).
    + repeat step Hfiles; last_step Hfiles;
        cbn; assumption.
    + cbv [ret] in Hfiles. injection Hfiles as <- <-. cbn. assumption.
  - rewrite Hp3. unfold defaultContainerFiles in Hfiles.
    destruct (containerFilesOf (File (buildOpts s))).
    + repeat step Hfiles; last_step Hfiles;
        cbn; rewrite !probes_app, Hp1; cbn; rewrite app_nil_r; reflexivity.
    + cbv [ret] in Hfiles. injection Hfiles as <- <-. cbn.
      rewrite !probes_app, Hp1. cbn. rewrite !app_nil_r. reflexivity.
Qed.

(** ** [build] and the request it compiles *)

Lemma runDeferred_trace s d ev :
  In ev (trace s) -> In ev (trace (runDeferred w s d)).
Proof.
  intros H. destruct d as [tempDir contextDir|f]; cbn.
  - destruct (os_RemoveAll w tempDir); cbn;
      repeat (apply in_or_app; left); assumption.
  - apply in_or_app. left. assumption.
Qed.

Lemma runDeferred_all_trace ds s ev :
  In ev (trace s) -> In ev (trace (fold_left (runDeferred w) ds s)).
Proof.
  revert s. induction ds as [|d ds IH]; intros s H; cbn; [assumption|].
  apply IH, runDeferred_trace, H.
Qed.

(** The error of a request that does not compile is the error of [build]. *)
Lemma build_error cmd args s e :
  fst (compileRequest w cmd args (enter s)) = Err e ->
  fst (build w cmd args s) = Some e.
Proof.
  unfold build, mbind, M_bind, bind.
  destruct (compileRequest w cmd args (enter s)) as [[request|e'] s1]; cbn;
    [discriminate|].
  intros H. injection H as ->. reflexivity.
Qed.

(** The container files and the options of a request that compiles are the
    ones with which [build] calls the engine, whose verdict it returns. *)
Lemma build_engine cmd args s files opts s1 :
  compileRequest w cmd args (enter s) = (Ok (files, opts), s1) ->
  fst (build w cmd args s) = ImageEngine_Build w files opts /\
  In (EvBuild files opts) (trace (snd (build w cmd args s))).
Proof.
  unfold build, mbind, M_bind, bind. intros ->.
  unfold engineBuild, mbind, M_bind, bind, emit.
  destruct (ImageEngine_Build w files opts); cbn [fst snd trace];
    (split; [reflexivity|]);
    apply runDeferred_all_trace; cbn; apply in_or_app; right; left;
    reflexivity.
Qed.

End Facts.

(** ** Build arguments *)

Lemma SplitN2_pair k v :
  noSep k = true ->
  gostrings.SplitN2 (k +:+ "=" +:+ v) "="%char = [k; v].
Proof.
  induction k as [|ch k IH]; [reflexivity|].
  cbn [noSep gostrings.all]. intros H. apply andb_true_iff in H as [Hch Hk].
  apply negb_true_iff in Hch.
  change (String ch k +:+ "=" +:+ v) with (String ch (k +:+ "=" +:+ v)).
  cbn [gostrings.SplitN2]. rewrite Hch, (IH Hk). reflexivity.
Qed.

Lemma SplitN2_bare k :
  noSep k = true -> gostrings.SplitN2 k "="%char = [k].
Proof.
  induction k as [|ch k IH]; cbn; [reflexivity|].
  intros H. apply andb_true_iff in H as [Hch Hk].
  apply negb_true_iff in Hch. rewrite Hch, (IH Hk). reflexivity.
Qed.

(** A build argument with another key leaves the entry of [k] alone. *)
Lemma buildArgStep_other (m : gmap string string) arg k :
  argKey arg <> k -> buildArgStep m arg !! k = m !! k.
Proof.
  unfold argKey, buildArgStep.
  destruct (gostrings.SplitN2 arg "="%char) as [|k0 [|v tl]]; cbn; intros H.
  - reflexivity.
  - apply lookup_delete_ne. assumption.
  - apply lookup_insert_ne. assumption.
Qed.

Lemma buildArgs_later (post : list string) (m : gmap string string) k :
  (forall a, In a post -> argKey a <> k) ->
  fold_left buildArgStep post m !! k = m !! k.
Proof.
  revert m. induction post as [|a post IH]; intros m H; cbn; [reflexivity|].
  rewrite IH by (intros b Hb; apply H; right; assumption).
  apply buildArgStep_other. apply H. left. reflexivity.
Qed.

(** ** The manifest format *)

(** When the parsers before it accept the command line, the verdict of
    [buildFlagsWrapperToOptions] on a format that the [switch] refuses is the
    error of the [switch]. *)
Lemma buildFlagsWrapperToOptions_format_error w c d lf s e :
  parsersAccept w c (buildOpts s) = true ->
  outputFormatOf (ToLower w (Format (buildOpts s))) = Err e ->
  fst (buildFlagsWrapperToOptions w c d lf s) = Err e.
Proof.
  unfold parsersAccept, buildFlagsWrapperToOptions. intros Hacc Hfmt.
  destruct (outputAndTags c (buildOpts s)) as [output tags] eqn:Htags.
  cbv [mbind M_bind bind load store lift emit ret mret M_ret].
  rewrite Htags.
  destruct (Changed c "memory"), (Changed c "memory-swap");
    cbn [andb] in Hacc.
  all: repeat match type of Hacc with
         | context [is_Ok ?r] =>
             destruct r as [?|?]; cbn [is_Ok andb] in Hacc;
             try discriminate Hacc
         | context [match ?r with Ok _ => _ | Err _ => _ end] =>
             destruct r as [?|?]; cbn [is_Ok andb] in Hacc;
             try discriminate Hacc
         end.
  all: repeat match goal with
         | p : (_ * _)%type |- _ => destruct p
         end.
  all: destruct lf as [f|]; cbn [buildOpts trace defers fst].
  all: rewrite set_Layers_same, squashTranslation_idem.
  all: cbn [Format set_Format].
  all: rewrite squashTranslation_Format, Hfmt; reflexivity.
Qed.

(** The same verdict for [build] as a whole, when the run reaches
    [buildFlagsWrapperToOptions]. *)
Lemma compileRequest_format_error w cmd args s e :
  reachesOptions w cmd args s ->
  parsersAccept w cmd (buildOpts s) = true ->
  outputFormatOf (ToLower w (Format (buildOpts s))) = Err e ->
  fst (compileRequest w cmd args s) = Err e.
Proof.
  intros (Hc & (d & s1 & Hctx & Hd & Hdir) & Hlog) Hacc Hfmt.
  destruct (contextDirOf_Ok _ _ _ _ _ _ Hctx) as [Hb1 _].
  assert (Hrun : forall lf s2, buildOpts s2 = buildOpts s ->
            fst (buildFlagsWrapperToOptions w cmd d lf s2) = Err e).
  { intros lf s2 Hb. apply buildFlagsWrapperToOptions_format_error;
      rewrite Hb; assumption. }
  unfold compileRequest. rewrite Hc.
  cbv [mbind M_bind bind load]. rewrite Hctx, Hd. cbv [emit].
  rewrite Hdir. cbn [negb].
  unfold defaultContainerFiles, openLogfile.
  cbv [mbind M_bind bind load emit defer ret].
  cbn [buildOpts trace defers]. rewrite Hb1.
  destruct (containerFilesOf (File (buildOpts s)));
    [destruct (utils_FileExists w _)|];
    destruct (Changed cmd "logfile");
    cbn [buildOpts trace defers];
    rewrite ?(Hlog eq_refl);
    match goal with
    | |- context [buildFlagsWrapperToOptions w cmd d ?lf ?s2] =>
        specialize (Hrun lf s2 eq_refl);
        destruct (buildFlagsWrapperToOptions w cmd d lf s2) as [[?|?] ?];
        cbn in Hrun |- *; congruence
    end.
Qed.

(** A format that the [switch] accepts: [buildFlagsWrapperToOptions]
    returns options once the parsers before the [switch] have accepted the
    command line. *)
Lemma buildFlagsWrapperToOptions_format_ok w c d lf s t :
  parsersAccept w c (buildOpts s) = true ->
  outputFormatOf (ToLower w (Format (buildOpts s))) = Ok t ->
  is_Ok (fst (buildFlagsWrapperToOptions w c d lf s)) = true.
Proof.
  unfold parsersAccept, buildFlagsWrapperToOptions. intros Hacc Hfmt.
  destruct (outputAndTags c (buildOpts s)) as [output tags] eqn:Htags.
  cbv [mbind M_bind bind load store lift emit ret mret M_ret].
  rewrite Htags.
  destruct (Changed c "memory"), (Changed c "memory-swap");
    cbn [andb] in Hacc.
  all: repeat match type of Hacc with
         | context [is_Ok ?r] =>
             destruct r as [?|?]; cbn [is_Ok andb] in Hacc;
             try discriminate Hacc
         | context [match ?r with Ok _ => _ | Err _ => _ end] =>
             destruct r as [?|?]; cbn [is_Ok andb] in Hacc;
             try discriminate Hacc
         end.
  all: repeat match goal with
         | p : (_ * _)%type |- _ => destruct p
         end.
  all: destruct lf as [f|]; cbn [buildOpts trace defers fst].
  all: rewrite set_Layers_same, squashTranslation_idem.
  all: cbn [Format set_Format].
  all: rewrite squashTranslation_Format, Hfmt; reflexivity.
Qed.

(** The same for [build] as a whole, when the run reaches
    [buildFlagsWrapperToOptions]: the request compiles, and the output format
    of the options is the one the [switch] chose. *)
Lemma compileRequest_format_ok w cmd args s t :
  reachesOptions w cmd args s ->
  parsersAccept w cmd (buildOpts s) = true ->
  outputFormatOf (ToLower w (Format (buildOpts s))) = Ok t ->
  exists files opts s',
    compileRequest w cmd args s = (Ok (files, opts), s')
    /\ imagebuildah.OutputFormat opts = t.
Proof.
  intros (Hc & (d & s1 & Hctx & Hd & Hdir) & Hlog) Hacc Hfmt.
  assert (Hok : is_Ok (fst (compileRequest w cmd args s)) = true).
  { destruct (contextDirOf_Ok _ _ _ _ _ _ Hctx) as [Hb1 _].
    assert (Hrun : forall lf s2, buildOpts s2 = buildOpts s ->
              is_Ok (fst (buildFlagsWrapperToOptions w cmd d lf s2)) = true).
    { intros lf s2 Hb. apply buildFlagsWrapperToOptions_format_ok with t;
        rewrite Hb; assumption. }
    unfold compileRequest. rewrite Hc.
    cbv [mbind M_bind bind load]. rewrite Hctx, Hd. cbv [emit].
    rewrite Hdir. cbn [negb].
    unfold defaultContainerFiles, openLogfile.
    cbv [mbind M_bind bind load emit defer ret].
    cbn [buildOpts trace defers]. rewrite Hb1.
    destruct (containerFilesOf (File (buildOpts s)));
      [destruct (utils_FileExists w _)|];
      destruct (Changed cmd "logfile");
      cbn [buildOpts trace defers];
      rewrite ?(Hlog eq_refl);
      match goal with
      | |- context [buildFlagsWrapperToOptions w cmd d ?lf ?s2] =>
          specialize (Hrun lf s2 eq_refl);
          destruct (buildFlagsWrapperToOptions w cmd d lf s2) as [[?|?] ?];
          cbn in Hrun |- *; congruence
      end. }
  destruct (compileRequest w cmd args s) as [[[files opts]|e] s'] eqn:H;
    [|discriminate Hok].
  exists files, opts, s'. split; [reflexivity|].
  apply compileRequest_Ok in H
    as (_ & d' & s1' & lf & s2 & _ & _ & _ & _ & Hb & _ & H).
  apply buildFlagsWrapperToOptions_Ok in H as (_ & _ & _ & _ & _ & Hf).
  rewrite Hb, Hfmt in Hf. congruence.
Qed.

(** The two families do not meet: a format of the Docker family is not of
    the OCI family. *)
Lemma HasPrefix_DOCKER_not_OCI format :
  gostrings.HasPrefix format buildah.DOCKER = true ->
  gostrings.HasPrefix format buildah.OCI = false.
Proof.
  destruct format as [|ch rest]; [discriminate|].
  unfold gostrings.HasPrefix, buildah.DOCKER, buildah.OCI. cbn [String.prefix].
  destruct (ascii_dec "d" ch) as [<-|]; [|discriminate].
  intros _. reflexivity.
Qed.

(** ** The default of [--layers] *)

(** Lower-casing a byte gives the digit [0] only from the digit [0]. *)
Lemma lowerByte_zero ch : gostrings.lowerByte ch = "0"%char -> ch = "0"%char.
Proof.
  destruct ch as [[] [] [] [] [] [] [] []]; vm_compute; intros H;
    first [reflexivity | discriminate H].
Qed.

Lemma ToLower_zero w v :
  (forall s, gostrings.isASCII s = false -> unicodeLower w s <> "0") ->
  (ToLower w v =? "0") = (v =? "0").
Proof.
  intros Hu. destruct (String.eqb_spec v "0") as [->|Hne].
  - reflexivity.
  - apply String.eqb_neq. intros H. apply Hne. revert H.
    unfold ToLower, gostrings.ToLower.
    destruct (gostrings.isASCII v) eqn:Hascii.
    + destruct v as [|ch [|ch' v]]; cbn; try discriminate.
      intros H. injection H as H. apply lowerByte_zero in H. subst ch.
      reflexivity.
    + intros H. exfalso. exact (Hu v Hascii H).
Qed.

Lemma squashTranslation_Layers_off c o :
  Layers o = false -> Layers (squashTranslation c o) = false.
Proof.
  unfold squashTranslation. intros H.
  destruct (Changed c "squash" && Squash o), (Changed c "squash-all");
    cbn; auto.
Qed.

(** * The program on sample runs *)

(** [podman build --squash-all -t myimg .] in [/tmp/ctx]. *)
Example squash_all_end_to_end :
  exists o,
    Sample.squashAllRun = Ok (["/tmp/ctx/Containerfile"], o)
    /\ imagebuildah.Output o = "myimg"
    /\ imagebuildah.AdditionalTags o = []
    /\ imagebuildah.Squash o = true
    /\ imagebuildah.Layers o = false
    /\ imagebuildah.PullPolicy_ o = imagebuildah.PullIfMissing
    /\ imagebuildah.OutputFormat o = buildah.OCIv1ImageManifest.
Proof. eexists. split; [vm_compute; reflexivity|]. repeat split. Qed.

(** [-f -] reads the container file from the standard input. *)
Example stdin_container_file :
  containerFilesOf ["-"; "Containerfile.simple"]
  = ["/dev/stdin"; "Containerfile.simple"].
Proof. reflexivity. Qed.

(** [--tag foo --tag bar], and no [--tag]. *)
Example output_and_tags :
  outputAndTags (Sample.command ["tag"])
    (set_Tag ["foo"; "bar"] Sample.initial) = ("foo", ["bar"])
  /\ outputAndTags (Sample.command []) Sample.initial = ("", []).
Proof. split; reflexivity. Qed.

(** [--memory 512m] and [--memory 512x]. *)
Example memory_limit :
  (exists files o s',
     compileRequest Sample.world (Sample.command ["memory"]) ["."]
       (Sample.start (set_Memory "512m" Sample.initial))
     = (Ok (files, o), s')
     /\ buildah.cb_Memory (imagebuildah.CommonBuildOpts o)
        = (512 * 1024 * 1024)%Z)
  /\ fst (compileRequest Sample.world (Sample.command ["memory"]) ["."]
            (Sample.start (set_Memory "512x" Sample.initial)))
     = Err (errors_New "invalid size").
Proof.
  split; [eexists _, _, _; split|]; vm_compute; reflexivity.
Qed.

(** The calls of [podman build --squash --logfile log.txt
    https://x.org/a.git], in order: the log file is closed and the checkout
    removed after the engine has run. *)
Example remote_context_trace :
  exists o,
    build Sample.world (Sample.command ["squash"; "logfile"])
      ["https://x.org/a.git"]
      (Sample.start (set_Squash true (set_Logfile "log.txt" Sample.initial)))
    = (None,
       {| buildOpts :=
            set_Layers false
              (set_Squash false (set_Logfile "log.txt" Sample.initial));
          trace :=
            [EvTempDirForURL "" "buildah" "https://x.org/a.git";
             EvIsDir "/var/tmp/buildah1/src";
             EvFileExists "/var/tmp/buildah1/src/Containerfile";
             EvOpenFile "log.txt";
             EvSetOutput (os_Opened "log.txt");
             EvBuild ["/var/tmp/buildah1/src/Dockerfile"] o;
             EvClose (os_Opened "log.txt");
             EvRemoveAll "/var/tmp/buildah1"];
          defers := [] |}).
Proof. eexists. vm_compute. reflexivity. Qed.

(** * The properties of the specification *)

(** C1.  Whenever at least two of the flags [squash], [squash-all] and
    [layers] are set on the command line, [build] returns the one conflict
    error at once: the state it leaves is the state it found, so no container
    file was looked at, no context resolved, no call made outside the
    process and nothing deferred. *)
Theorem C1_conflict_fails_before_any_work
    (w : World) (cmd : Command) (args : list string) (s : state) :
  2 <= List.length (List.filter (Changed cmd) ["squash"; "squash-all"; "layers"]) ->
  compileRequest w cmd args s = (Err conflictError, s) /\
  build w cmd args s = (Some conflictError, s).
Proof.
  intros H.
  assert (Hc : conflict cmd = true).
  { unfold conflict. cbn in H.
    destruct (Changed cmd "squash"), (Changed cmd "squash-all"),
      (Changed cmd "layers"); cbn in H |- *; try reflexivity; lia. }
  assert (Hr : forall s0, compileRequest w cmd args s0 = (Err conflictError, s0)).
  { intros s0. unfold compileRequest. rewrite Hc. reflexivity. }
  split; [apply Hr|].
  unfold build, mbind, M_bind, bind. rewrite Hr. cbn.
  rewrite state_eta. reflexivity.
Qed.

(** C2.  When the build request compiles: with [--squash] given (the flag
    set on the command line, which gives it the value true) and
    [--squash-all] not given, the options have [Squash = false] and
    [Layers = false]; with [--squash-all] given, they have [Squash = true]
    and [Layers = false].  A request that compiles has passed the conflict
    test, so [--layers] is not on the command line in either case. *)
Theorem C2_squash_flags_compile
    (w : World) (cmd : Command) (args : list string) (s : state)
    (files : list string) (opts : imagebuildah.BuildOptions) (s' : state) :
  compileRequest w cmd args s = (Ok (files, opts), s') ->
  (Changed cmd "squash" = true -> Squash (buildOpts s) = true ->
   Changed cmd "squash-all" = false ->
   imagebuildah.Squash opts = false /\ imagebuildah.Layers opts = false)
  /\
  (Changed cmd "squash-all" = true ->
   imagebuildah.Squash opts = true /\ imagebuildah.Layers opts = false).
Proof.
  intros H.
  apply compileRequest_Ok in H
    as (_ & d & s1 & lf & s2 & _ & _ & _ & _ & Hb & _ & H).
  apply buildFlagsWrapperToOptions_Ok in H as (Hs & Hl & _).
  rewrite Hb in Hs, Hl. rewrite Hs, Hl. split.
  - intros H1 H2 H3. apply squashTranslation_squash; assumption.
  - intros H1. apply squashTranslation_all; assumption.
Qed.

(** C3.  When the build request compiles, the pull policy is "pull if
    missing" unless [--pull] was set on the command line with the value true
    or [--pull-always] is set; these make it "always pull" when
    [--pull-never] is not set.  With [--pull-never] set it is "pull if
    missing", the policy of the default, whatever the other two flags say. *)
Theorem C3_pull_policy
    (w : World) (cmd : Command) (args : list string) (s : state)
    (files : list string) (opts : imagebuildah.BuildOptions) (s' : state) :
  compileRequest w cmd args s = (Ok (files, opts), s') ->
  let flags := buildOpts s in
  (Changed cmd "pull" && Pull flags = false -> PullAlways flags = false ->
   imagebuildah.PullPolicy_ opts = imagebuildah.PullIfMissing)
  /\
  (PullNever flags = false ->
   Changed cmd "pull" && Pull flags = true \/ PullAlways flags = true ->
   imagebuildah.PullPolicy_ opts = imagebuildah.PullAlways)
  /\
  (PullNever flags = true ->
   imagebuildah.PullPolicy_ opts = imagebuildah.PullIfMissing).
Proof.
  intros H flags.
  apply compileRequest_Ok in H
    as (_ & d & s1 & lf & s2 & _ & _ & _ & _ & Hb & _ & H).
  apply buildFlagsWrapperToOptions_Ok in H as (_ & _ & Hp & _).
  rewrite Hb in Hp. rewrite Hp. unfold pullPolicyOf. fold flags.
  repeat split.
  - intros -> ->. destruct (PullNever flags); reflexivity.
  - intros -> [-> | ->]; [destruct (PullAlways flags)|]; reflexivity.
  - intros ->. reflexivity.
Qed.

(** C4.  [buildFlags] sets the default of [--layers] from the environment:
    it is disabled exactly when BUILDAH_LAYERS, compared without regard to
    case, is ["false"] or ["0"], and enabled for every other value, the empty
    value of an unset variable included.  A command line without [--layers]
    compiles with that default (unless a squash flag turns the layers off);
    a command line with [--layers] compiles with the value it gives,
    whatever the environment says.  The Unicode tables are assumed not to
    lower-case a string with a byte above 127 to ["0"]. *)
Theorem C4_layers_default_from_environment
    (w : World) (lib o : buildFlagsWrapper) :
  (forall s, gostrings.isASCII s = false -> unicodeLower w s <> "0") ->
  buildFlags w lib = Some o ->
  let value := os_Getenv w "BUILDAH_LAYERS" in
  let off := eqFold w value "false" || eqFold w value "0" in
  Layers o = negb off
  /\
  (forall cmd args s files opts s',
     compileRequest w cmd args s = (Ok (files, opts), s') ->
     (Changed cmd "layers" = false -> Layers (buildOpts s) = Layers o ->
      (off = true -> imagebuildah.Layers opts = false) /\
      (off = false ->
       Changed cmd "squash" && Squash (buildOpts s) = false ->
       Changed cmd "squash-all" = false ->
       imagebuildah.Layers opts = true))
     /\
     (Changed cmd "layers" = true ->
      imagebuildah.Layers opts = Layers (buildOpts s))).
Proof.
  intros Hu Hflags value off.
  assert (Hdef : Layers o = negb off).
  { unfold buildFlags in Hflags.
    destruct (GetFromAndBudFlags w); [discriminate|].
    injection Hflags as <-.
    assert (Hoff : off = (ToLower w value =? "false") || (value =? "0")).
    { unfold off, eqFold. rewrite <- (ToLower_zero w value Hu). reflexivity. }
    rewrite Hoff.
    transitivity (useLayers w =? "true").
    { destruct (registry_IsRemote w); reflexivity. }
    unfold useLayers. fold value.
    destruct ((ToLower w value =? "false") || (value =? "0")); reflexivity. }
  split; [exact Hdef|].
  intros cmd args s files opts s' H.
  apply compileRequest_Ok in H
    as (Hc & d & s1 & lf & s2 & _ & _ & _ & _ & Hb & _ & H).
  apply buildFlagsWrapperToOptions_Ok in H as (_ & Hl & _).
  rewrite Hb in Hl. rewrite Hl. split.
  - intros _ Hsame. rewrite Hdef in Hsame. split.
    + intros Hoff. apply squashTranslation_Layers_off.
      rewrite Hsame, Hoff. reflexivity.
    + intros Hoff Hsq Hall. rewrite squashTranslation_untouched by assumption.
      rewrite Hsame, Hoff. reflexivity.
  - intros Hlayers. unfold conflict in Hc. rewrite Hlayers in Hc.
    rewrite !andb_true_r in Hc.
    apply orb_false_iff in Hc as [Hc _].
    apply orb_false_iff in Hc as [Hsq Hall].
    rewrite squashTranslation_untouched; [reflexivity| |assumption].
    rewrite Hsq. reflexivity.
Qed.

(** C5.  The translation of [--squash] and [--squash-all] is idempotent:
    applied to a state it has already translated it changes nothing, so the
    options that [build] compiles, after the two passes of the source, carry
    the [Squash] and [Layers] of one pass. *)
Theorem C5_squash_translation_idempotent
    (w : World) (cmd : Command) (args : list string) (s : state) :
  (forall o : buildFlagsWrapper,
     squashTranslation cmd (squashTranslation cmd o) = squashTranslation cmd o)
  /\
  (forall files opts s',
     compileRequest w cmd args s = (Ok (files, opts), s') ->
     imagebuildah.Squash opts = Squash (squashTranslation cmd (buildOpts s)) /\
     imagebuildah.Layers opts = Layers (squashTranslation cmd (buildOpts s))).
Proof.
  split; [apply squashTranslation_idem|].
  intros files opts s' H.
  apply compileRequest_Ok in H
    as (_ & d & s1 & lf & s2 & _ & _ & _ & _ & Hb & _ & H).
  apply buildFlagsWrapperToOptions_Ok in H as (Hs & Hl & _).
  rewrite Hb in Hs, Hl. split; assumption.
Qed.

(** C6.  Without a positional context argument (and without a conflict of
    flags), [build] takes the first container file of the list, as
    normalised ([-] read as [/dev/stdin]), that does not start with
    [http://], [https://], [git://] or [github.com/]: the context directory
    of the compiled options is the directory of its absolute path.  When no
    container file passes the test, [build] fails with "no context directory
    and no Containerfile specified" and has called nothing; when the
    directory found is not a directory, it fails with "context must be a
    directory".  ([filepath.Dir] is a parameter here; the library never
    returns the empty string, which [build] would take for a missing
    context.) *)
Theorem C6_context_from_first_local_file
    (w : World) (cmd : Command) (s : state) :
  conflict cmd = false ->
  let containerFiles := containerFilesOf (File (buildOpts s)) in
  let isLocal := fun f =>
    negb (gostrings.HasPrefix f "http://"
          || gostrings.HasPrefix f "https://"
          || gostrings.HasPrefix f "git://"
          || gostrings.HasPrefix f "github.com/") in
  (find isLocal containerFiles = None ->
   compileRequest w cmd [] s =
   (Err (errors_Errorf
           "no context directory and no Containerfile specified" []), s))
  /\
  (forall f absFile,
     find isLocal containerFiles = Some f ->
     filepath_Abs w f = Ok absFile ->
     (forall files opts s',
        compileRequest w cmd [] s = (Ok (files, opts), s') ->
        imagebuildah.ContextDirectory opts = filepath_Dir w absFile /\
        utils_IsDir w (filepath_Dir w absFile) = true)
     /\
     (filepath_Dir w absFile <> "" ->
      utils_IsDir w (filepath_Dir w absFile) = false ->
      fst (compileRequest w cmd [] s) =
      Err (errors_Errorf "context must be a directory: %q"
             [filepath_Dir w absFile]))).
Proof.
  intros Hc containerFiles isLocal.
  change isLocal with (fun f => negb (looksRemote f)).
  split.
  - intros Hnone. unfold compileRequest. rewrite Hc.
    unfold mbind, M_bind, bind, load, contextDirOf.
    fold containerFiles. rewrite contextDirOfFiles_find, Hnone. reflexivity.
  - intros f absFile Hsome Habs. split.
    + intros files opts s' H.
      apply compileRequest_Ok in H
        as (_ & d & s1 & lf & s2 & Hctx & _ & Hdir & _ & _ & _ & H).
      apply buildFlagsWrapperToOptions_Ok in H as (_ & _ & _ & _ & Hd & _).
      unfold contextDirOf in Hctx. fold containerFiles in Hctx.
      rewrite contextDirOfFiles_find, Hsome in Hctx.
      unfold mbind, M_bind, bind, emit in Hctx. rewrite Habs in Hctx.
      cbv [ret] in Hctx. injection Hctx as <- <-.
      split; assumption.
    + intros Hne Hdir. unfold compileRequest. rewrite Hc.
      unfold mbind, M_bind, bind, load, contextDirOf.
      fold containerFiles. rewrite contextDirOfFiles_find, Hsome.
      unfold mbind, M_bind, bind, emit. rewrite Habs. cbv [ret].
      apply String.eqb_neq in Hne. rewrite Hne. rewrite Hdir. reflexivity.
Qed.

(** C7.  When the build request compiles, the list of container files is not
    empty.  Without [--file] it is the one entry [contextDir/Containerfile]
    when [utils.FileExists] finds that file in the context directory, and the
    one entry [contextDir/Dockerfile] when it does not; the run asks for the
    existence of [contextDir/Containerfile] and of no other path. *)
Theorem C7_container_files_never_empty
    (w : World) (cmd : Command) (args : list string) (s : state)
    (files : list string) (opts : imagebuildah.BuildOptions) (s' : state) :
  compileRequest w cmd args s = (Ok (files, opts), s') ->
  let contextDir := imagebuildah.ContextDirectory opts in
  files <> [] /\
  (File (buildOpts s) = [] ->
   utils_IsDir w contextDir = true /\
   (utils_FileExists w (filepath_Join w contextDir "Containerfile") = true ->
    files = [filepath_Join w contextDir "Containerfile"]) /\
   (utils_FileExists w (filepath_Join w contextDir "Containerfile") = false ->
    files = [filepath_Join w contextDir "Dockerfile"]) /\
   probes (trace s') =
   (probes (trace s) ++ [filepath_Join w contextDir "Containerfile"])%list).
Proof.
  intros H contextDir.
  apply compileRequest_Ok in H
    as (_ & d & s1 & lf & s2 & _ & _ & Hdir & Hf & Hb & Hp & H).
  pose proof (buildFlagsWrapperToOptions_probes _ _ _ _ _ _ _ H) as Hp'.
  apply buildFlagsWrapperToOptions_Ok in H as (_ & _ & _ & _ & Hd & _).
  subst contextDir. rewrite Hd. split.
  - rewrite Hf. unfold containerFilesFor.
    destruct (containerFilesOf (File (buildOpts s))); [|discriminate].
    destruct (utils_FileExists w _); discriminate.
  - intros Hnone. rewrite Hnone in *. cbn in Hf, Hp.
    repeat split; try assumption.
    + intros E. rewrite E in Hf. assumption.
    + intros E. rewrite E in Hf. assumption.
    + rewrite Hp', Hp. reflexivity.
Qed.

(** C8.  The build arguments are processed in the order of the command line
    into one map.  For a key [k] (a string without [=]) and a [--build-arg]
    after which no later one has the key [k]: if it is [k=v], the compiled
    map sends [k] to [v], whatever came before; if it is the bare [k], the
    compiled map has no entry for [k], whatever came before. *)
Theorem C8_build_args_last_wins
    (w : World) (cmd : Command) (args : list string) (s : state)
    (files : list string) (opts : imagebuildah.BuildOptions) (s' : state)
    (pre post : list string) (arg k : string) :
  compileRequest w cmd args s = (Ok (files, opts), s') ->
  Changed cmd "build-arg" = true ->
  BuildArg (buildOpts s) = (pre ++ arg :: post)%list ->
  noSep k = true ->
  (forall a, In a post -> argKey a <> k) ->
  (forall v, arg = k +:+ "=" +:+ v -> imagebuildah.Args opts !! k = Some v)
  /\
  (arg = k -> imagebuildah.Args opts !! k = None).
Proof.
  intros H Hch Hargs Hk Hpost.
  apply compileRequest_Ok in H
    as (_ & d & s1 & lf & s2 & _ & _ & _ & _ & Hb & _ & H).
  apply buildFlagsWrapperToOptions_Ok in H as (_ & _ & _ & Ha & _).
  rewrite Hb in Ha. rewrite Ha. unfold buildArgsOf.
  rewrite Hch, Hargs, fold_left_app. cbn [fold_left].
  rewrite buildArgs_later by assumption.
  unfold buildArgStep. split.
  - intros v ->. rewrite SplitN2_pair by assumption.
    apply lookup_insert_eq.
  - intros ->. rewrite SplitN2_bare by assumption.
    apply lookup_delete_eq.
Qed.

(** C9.  The format flag is lower-cased.  When the build request compiles,
    the lower-cased format has the prefix of the OCI family and the output
    format is the OCI v1 manifest type, or it has the prefix of the Docker
    family and the output format is the Docker v2 manifest type.  A format
    with neither prefix never compiles; the error is "unrecognized image
    type" whenever the run gets as far as the format, that is when the
    context resolves, the log file opens and the parsers called before the
    [switch] accept the command line.  Such a run compiles for every format
    with one of the two prefixes, whatever follows the prefix: to the OCI v1
    manifest type for the OCI family, to the Docker v2 manifest type for the
    Docker family. *)
Theorem C9_format_families
    (w : World) (cmd : Command) (args : list string) (s : state) :
  let format := ToLower w (Format (buildOpts s)) in
  (forall files opts s',
     compileRequest w cmd args s = (Ok (files, opts), s') ->
     (gostrings.HasPrefix format buildah.OCI = true /\
      imagebuildah.OutputFormat opts = buildah.OCIv1ImageManifest)
     \/
     (gostrings.HasPrefix format buildah.OCI = false /\
      gostrings.HasPrefix format buildah.DOCKER = true /\
      imagebuildah.OutputFormat opts = buildah.Dockerv2ImageManifest))
  /\
  (gostrings.HasPrefix format buildah.OCI = false ->
   gostrings.HasPrefix format buildah.DOCKER = false ->
   is_Ok (fst (compileRequest w cmd args s)) = false /\
   (reachesOptions w cmd args s ->
    parsersAccept w cmd (buildOpts s) = true ->
    fst (compileRequest w cmd args s) =
    Err (errors_Errorf "unrecognized image type %q" [format])))
  /\
  (reachesOptions w cmd args s ->
   parsersAccept w cmd (buildOpts s) = true ->
   (gostrings.HasPrefix format buildah.OCI = true ->
    exists files opts s',
      compileRequest w cmd args s = (Ok (files, opts), s')
      /\ imagebuildah.OutputFormat opts = buildah.OCIv1ImageManifest)
   /\
   (gostrings.HasPrefix format buildah.DOCKER = true ->
    exists files opts s',
      compileRequest w cmd args s = (Ok (files, opts), s')
      /\ imagebuildah.OutputFormat opts = buildah.Dockerv2ImageManifest)).
Proof.
  intros format. split; [|split].
  - intros files opts s' H.
    apply compileRequest_Ok in H
      as (_ & d & s1 & lf & s2 & _ & _ & _ & _ & Hb & _ & H).
    apply buildFlagsWrapperToOptions_Ok in H as (_ & _ & _ & _ & _ & Hf).
    rewrite Hb in Hf. fold format in Hf. unfold outputFormatOf in Hf.
    destruct (gostrings.HasPrefix format buildah.OCI).
    + left. injection Hf as <-. split; reflexivity.
    + destruct (gostrings.HasPrefix format buildah.DOCKER); [|discriminate].
      right. injection Hf as <-. repeat split; reflexivity.
  - intros Hoci Hdocker.
    assert (Hf : outputFormatOf format =
                 Err (errors_Errorf "unrecognized image type %q" [format])).
    { unfold outputFormatOf. rewrite Hoci, Hdocker. reflexivity. }
    split.
    + destruct (compileRequest w cmd args s) as [[[files opts]|e] s'] eqn:H;
        [|reflexivity].
      apply compileRequest_Ok in H
        as (_ & d & s1 & lf & s2 & _ & _ & _ & _ & Hb & _ & H).
      apply buildFlagsWrapperToOptions_Ok in H as (_ & _ & _ & _ & _ & Hf').
      rewrite Hb in Hf'. fold format in Hf'. rewrite Hf in Hf'. discriminate.
    + intros Hreach Hacc.
      apply compileRequest_format_error; assumption.
  - intros Hreach Hacc. split.
    + intros Hoci. apply compileRequest_format_ok; try assumption.
      fold format. unfold outputFormatOf. rewrite Hoci. reflexivity.
    + intros Hdocker. apply compileRequest_format_ok; try assumption.
      fold format. unfold outputFormatOf.
      rewrite (HasPrefix_DOCKER_not_OCI _ Hdocker), Hdocker. reflexivity.
Qed.

(** C10.  When the build request compiles: [--squash-all] set on the command
    line gives [Squash = true] and [Layers = false] whatever the value [b] of
    the flag, [--squash-all=false] included; [--squash=false] without
    [--squash-all] leaves [Squash] and [Layers] as the command line left
    them. *)
Theorem C10_squash_all_fires_on_presence
    (w : World) (cmd : Command) (args : list string) (s : state)
    (files : list string) (opts : imagebuildah.BuildOptions) (s' : state) :
  compileRequest w cmd args s = (Ok (files, opts), s') ->
  (forall b : bool,
     Changed cmd "squash-all" = true -> SquashAll (buildOpts s) = b ->
     imagebuildah.Squash opts = true /\ imagebuildah.Layers opts = false)
  /\
  (Changed cmd "squash" = true -> Squash (buildOpts s) = false ->
   Changed cmd "squash-all" = false ->
   imagebuildah.Squash opts = Squash (buildOpts s) /\
   imagebuildah.Layers opts = Layers (buildOpts s)).
Proof.
  intros H.
  apply compileRequest_Ok in H
    as (_ & d & s1 & lf & s2 & _ & _ & _ & _ & Hb & _ & H).
  apply buildFlagsWrapperToOptions_Ok in H as (Hs & Hl & _).
  rewrite Hb in Hs, Hl. rewrite Hs, Hl. split.
  - intros b H1 _. apply squashTranslation_all; assumption.
  - intros H1 H2 H3. rewrite squashTranslation_untouched; auto.
    rewrite H2. apply andb_false_r.
Qed.

(** * The properties on sample runs *)

(** [podman build --squash --layers .] stops at the conflict. *)
Lemma C1_witness :
  build Sample.world (Sample.command ["squash"; "layers"]) ["."]
    (Sample.start (set_Squash true Sample.initial))
  = (Some conflictError, Sample.start (set_Squash true Sample.initial)).
Proof.
  refine (proj2 (C1_conflict_fails_before_any_work Sample.world
                   (Sample.command ["squash"; "layers"]) ["."]
                   (Sample.start (set_Squash true Sample.initial)) _)).
  cbn. lia.
Defined.

(** [podman build --squash .] and [podman build --squash-all .] *)
Lemma C2_witness :
  (exists files opts s',
     compileRequest Sample.world (Sample.command ["squash"]) ["."]
       (Sample.start (set_Squash true Sample.initial))
     = (Ok (files, opts), s')
     /\ imagebuildah.Squash opts = false /\ imagebuildah.Layers opts = false)
  /\
  (exists files opts s',
     compileRequest Sample.world (Sample.command ["squash-all"]) ["."]
       (Sample.start (set_SquashAll true Sample.initial))
     = (Ok (files, opts), s')
     /\ imagebuildah.Squash opts = true /\ imagebuildah.Layers opts = false).
Proof.
  split; eexists _, _, _; (split; [vm_compute; reflexivity|]).
  - refine (proj1 (C2_squash_flags_compile Sample.world
                     (Sample.command ["squash"]) ["."]
                     (Sample.start (set_Squash true Sample.initial))
                     _ _ _ _) _ _ _);
      vm_compute; reflexivity.
  - refine (proj2 (C2_squash_flags_compile Sample.world
                     (Sample.command ["squash-all"]) ["."]
                     (Sample.start (set_SquashAll true Sample.initial))
                     _ _ _ _) _);
      vm_compute; reflexivity.
Defined.

(** [podman build --pull .], and [--pull-always --pull-never]. *)
Lemma C3_witness :
  (exists files opts s',
     compileRequest Sample.world (Sample.command ["pull"]) ["."]
       (Sample.start Sample.initial)
     = (Ok (files, opts), s')
     /\ imagebuildah.PullPolicy_ opts = imagebuildah.PullAlways)
  /\
  (exists files opts s',
     compileRequest Sample.world
       (Sample.command ["pull-always"; "pull-never"]) ["."]
       (Sample.start (set_PullAlways true (set_PullNever true Sample.initial)))
     = (Ok (files, opts), s')
     /\ imagebuildah.PullPolicy_ opts = imagebuildah.PullIfMissing).
Proof.
  split; eexists _, _, _; (split; [vm_compute; reflexivity|]).
  - refine (proj1 (proj2 (C3_pull_policy Sample.world
                     (Sample.command ["pull"]) ["."]
                     (Sample.start Sample.initial) _ _ _ _)) _ (or_introl _));
      vm_compute; reflexivity.
  - refine (proj2 (proj2 (C3_pull_policy Sample.world
                     (Sample.command ["pull-always"; "pull-never"]) ["."]
                     (Sample.start
                        (set_PullAlways true
                           (set_PullNever true Sample.initial))) _ _ _ _)) _);
      vm_compute; reflexivity.
Defined.

(** C3 as it is worded makes the policy "always pull" whenever
    [--pull-always] is set or [--pull] is set to true.  Both runs below set
    [--pull-never] as well, the first beside [--pull-always], the second
    beside [--pull] (whose value is true): each compiles, and its policy is
    "pull if missing".  So the rule "always pull" does not hold of every run
    with one of the two flags. *)
Lemma C3_counterexample :
  (exists files opts s',
     compileRequest Sample.world
       (Sample.command ["pull-always"; "pull-never"]) ["."]
       (Sample.start (set_PullAlways true (set_PullNever true Sample.initial)))
     = (Ok (files, opts), s')
     /\ imagebuildah.PullPolicy_ opts = imagebuildah.PullIfMissing)
  /\
  (exists files opts s',
     compileRequest Sample.world
       (Sample.command ["pull"; "pull-never"]) ["."]
       (Sample.start (set_Pull true (set_PullNever true Sample.initial)))
     = (Ok (files, opts), s')
     /\ imagebuildah.PullPolicy_ opts = imagebuildah.PullIfMissing)
  /\
  ~ (forall (w : World) (cmd : Command) (args : list string) (s : state)
            (files : list string) (opts : imagebuildah.BuildOptions)
            (s' : state),
       compileRequest w cmd args s = (Ok (files, opts), s') ->
       Changed cmd "pull" && Pull (buildOpts s) = true
       \/ PullAlways (buildOpts s) = true ->
       imagebuildah.PullPolicy_ opts = imagebuildah.PullAlways).
Proof.
  split; [|split].
  - eexists _, _, _. split; vm_compute; reflexivity.
  - eexists _, _, _. split; vm_compute; reflexivity.
  - intros Hall.
    pose (s := Sample.start
                 (set_PullAlways true (set_PullNever true Sample.initial))).
    pose (cmd := Sample.command ["pull-always"; "pull-never"]).
    destruct (compileRequest Sample.world cmd ["."] s)
      as [[[files opts]|e] s'] eqn:H; [|vm_compute in H; discriminate H].
    pose proof (Hall _ _ _ _ _ _ _ H (or_intror eq_refl)) as Hp.
    vm_compute in H. injection H as _ <- _. discriminate Hp.
Qed.

(** BUILDAH_LAYERS=FALSE: the default of [--layers] is off, and
    [podman build --layers=true .] compiles with layers all the same. *)
Lemma C4_witness :
  (exists o,
     buildFlags (Sample.worldEnv "FALSE") Sample.libDefaults = Some o
     /\ Layers o = false)
  /\
  (exists files opts s',
     compileRequest (Sample.worldEnv "FALSE") (Sample.command ["layers"]) ["."]
       (Sample.start (set_Layers true Sample.initial))
     = (Ok (files, opts), s')
     /\ imagebuildah.Layers opts = true).
Proof.
  assert (Hu : forall s, gostrings.isASCII s = false ->
               unicodeLower (Sample.worldEnv "FALSE") s <> "0").
  { intros s Hs E. cbn in E. subst s. vm_compute in Hs. discriminate Hs. }
  split.
  - eexists. split; [vm_compute; reflexivity|].
    refine (proj1 (C4_layers_default_from_environment
                     (Sample.worldEnv "FALSE") Sample.libDefaults _ Hu _)).
    vm_compute; reflexivity.
  - eexists _, _, _. split; [vm_compute; reflexivity|].
    refine (proj2 (proj2 (C4_layers_default_from_environment
                     (Sample.worldEnv "FALSE") Sample.libDefaults _ Hu _)
                     (Sample.command ["layers"]) ["."]
                     (Sample.start (set_Layers true Sample.initial))
                     _ _ _ _) _);
      vm_compute; reflexivity.
Defined.

(** The translation on [podman build --squash .] *)
Lemma C5_witness :
  exists files opts s',
    compileRequest Sample.world (Sample.command ["squash"]) ["."]
      (Sample.start (set_Squash true Sample.initial))
    = (Ok (files, opts), s')
    /\ imagebuildah.Squash opts = false /\ imagebuildah.Layers opts = false.
Proof.
  eexists _, _, _. split; [vm_compute; reflexivity|].
  refine (proj2 (C5_squash_translation_idempotent Sample.world
                   (Sample.command ["squash"]) ["."]
                   (Sample.start (set_Squash true Sample.initial)))
            _ _ _ _).
  vm_compute; reflexivity.
Defined.

(** [podman build -f http://a/b -f Dockerfile] in [/tmp/ctx];
    [podman build -f http://a/b]; [podman build -f sub/Dockerfile], where
    [/tmp/ctx/sub] is no directory. *)
Lemma C6_witness :
  (exists files opts s',
     compileRequest Sample.world (Sample.command ["file"]) []
       (Sample.start (set_File ["http://a/b"; "Dockerfile"] Sample.initial))
     = (Ok (files, opts), s')
     /\ imagebuildah.ContextDirectory opts = "/tmp/ctx")
  /\
  fst (compileRequest Sample.world (Sample.command ["file"]) []
         (Sample.start (set_File ["http://a/b"] Sample.initial)))
  = Err (errors_Errorf
           "no context directory and no Containerfile specified" [])
  /\
  fst (compileRequest Sample.world (Sample.command ["file"]) []
         (Sample.start (set_File ["sub/Dockerfile"] Sample.initial)))
  = Err (errors_Errorf "context must be a directory: %q" ["/tmp/ctx/sub"]).
Proof.
  split; [|split].
  - eexists _, _, _. split; [vm_compute; reflexivity|].
    refine (proj1 (proj1 (proj2 (C6_context_from_first_local_file Sample.world
              (Sample.command ["file"])
              (Sample.start
                 (set_File ["http://a/b"; "Dockerfile"] Sample.initial)) _)
              "Dockerfile" "/tmp/ctx/Dockerfile" _ _) _ _ _ _));
      vm_compute; reflexivity.
  - refine (f_equal fst (proj1 (C6_context_from_first_local_file Sample.world
              (Sample.command ["file"])
              (Sample.start (set_File ["http://a/b"] Sample.initial)) _) _));
      vm_compute; reflexivity.
  - refine (proj2 (proj2 (C6_context_from_first_local_file Sample.world
              (Sample.command ["file"])
              (Sample.start (set_File ["sub/Dockerfile"] Sample.initial)) _)
              "sub/Dockerfile" "/tmp/ctx/sub/Dockerfile" _ _) _ _);
      vm_compute; first [reflexivity | discriminate].
Defined.

(** [podman build .] in [/tmp/ctx], which holds a [Containerfile], and
    [podman build https://x.org/a.git], whose checkout holds neither file. *)
Lemma C7_witness :
  (exists files opts s',
     compileRequest Sample.world (Sample.command []) ["."]
       (Sample.start Sample.initial)
     = (Ok (files, opts), s')
     /\ files = ["/tmp/ctx/Containerfile"])
  /\
  (exists files opts s',
     compileRequest Sample.world (Sample.command []) ["https://x.org/a.git"]
       (Sample.start Sample.initial)
     = (Ok (files, opts), s')
     /\ files = ["/var/tmp/buildah1/src/Dockerfile"]
     /\ probes (trace s') = ["/var/tmp/buildah1/src/Containerfile"]).
Proof.
  split; eexists _, _, _;
    (match goal with
     | |- ?E /\ _ => assert (HE : E) by (vm_compute; reflexivity)
     end; split; [exact HE|]).
  - pose proof (C7_container_files_never_empty Sample.world
                  (Sample.command []) ["."] (Sample.start Sample.initial)
                  _ _ _ HE) as [_ H].
    destruct (H eq_refl) as (_ & H1 & _).
    exact (H1 eq_refl).
  - pose proof (C7_container_files_never_empty Sample.world
                  (Sample.command []) ["https://x.org/a.git"]
                  (Sample.start Sample.initial) _ _ _ HE) as [_ H].
    destruct (H eq_refl) as (_ & _ & H2 & H3).
    exact (conj (H2 eq_refl) H3).
Defined.

(** [podman build --build-arg A=1 --build-arg B=2 --build-arg A=3
    --build-arg B .] *)
Lemma C8_witness :
  exists files opts s',
    compileRequest Sample.world (Sample.command ["build-arg"]) ["."]
      (Sample.start (set_BuildArg ["A=1"; "B=2"; "A=3"; "B"] Sample.initial))
    = (Ok (files, opts), s')
    /\ imagebuildah.Args opts !! "A" = Some "3"
    /\ imagebuildah.Args opts !! "B" = None.
Proof.
  eexists _, _, _. split; [vm_compute; reflexivity|]. split.
  - refine (proj1 (C8_build_args_last_wins Sample.world
              (Sample.command ["build-arg"]) ["."]
              (Sample.start
                 (set_BuildArg ["A=1"; "B=2"; "A=3"; "B"] Sample.initial))
              _ _ _ ["A=1"; "B=2"] ["B"] "A=3" "A" _ _ _ _ _) "3" _);
      try (vm_compute; reflexivity).
    intros a [<-|[]]. vm_compute. discriminate.
  - refine (proj2 (C8_build_args_last_wins Sample.world
              (Sample.command ["build-arg"]) ["."]
              (Sample.start
                 (set_BuildArg ["A=1"; "B=2"; "A=3"; "B"] Sample.initial))
              _ _ _ ["A=1"; "B=2"; "A=3"] [] "B" "B" _ _ _ _ _) _);
      try (vm_compute; reflexivity).
    intros a [].
Defined.

(** [podman build --format Docker .] and [podman build --format banana .] *)
Lemma C9_witness :
  (exists files opts s',
     compileRequest Sample.world (Sample.command ["format"]) ["."]
       (Sample.start (set_Format "Docker" Sample.initial))
     = (Ok (files, opts), s')
     /\ imagebuildah.OutputFormat opts = buildah.Dockerv2ImageManifest)
  /\
  fst (compileRequest Sample.world (Sample.command ["format"]) ["."]
         (Sample.start (set_Format "Banana" Sample.initial)))
  = Err (errors_Errorf "unrecognized image type %q" ["banana"])
  /\
  (exists files opts s',
     compileRequest Sample.world (Sample.command ["format"]) ["."]
       (Sample.start (set_Format "OCI-archive" Sample.initial))
     = (Ok (files, opts), s')
     /\ imagebuildah.OutputFormat opts = buildah.OCIv1ImageManifest)
  /\
  (exists files opts s',
     compileRequest Sample.world (Sample.command ["format"]) ["."]
       (Sample.start (set_Format "dockerv2s2" Sample.initial))
     = (Ok (files, opts), s')
     /\ imagebuildah.OutputFormat opts = buildah.Dockerv2ImageManifest).
Proof.
  assert (Hreach : forall format,
            reachesOptions Sample.world (Sample.command ["format"]) ["."]
              (Sample.start (set_Format format Sample.initial))).
  { intros format. split; [reflexivity|]. split; [|discriminate].
    eexists _, _. split; [vm_compute; reflexivity|]. split; reflexivity. }
  split; [|split; [|split]].
  - eexists _, _, _.
    match goal with
    | |- ?E /\ _ => assert (HE : E) by (vm_compute; reflexivity)
    end.
    split; [exact HE|].
    destruct (proj1 (C9_format_families Sample.world
                (Sample.command ["format"]) ["."]
                (Sample.start (set_Format "Docker" Sample.initial)))
                _ _ _ HE) as [[H _]|(_ & _ & H)].
    + vm_compute in H. discriminate H.
    + exact H.
  - refine (proj2 (proj1 (proj2 (C9_format_families Sample.world
              (Sample.command ["format"]) ["."]
              (Sample.start (set_Format "Banana" Sample.initial)))) _ _)
              (Hreach _) _);
      vm_compute; reflexivity.
  - refine (proj1 (proj2 (proj2 (C9_format_families Sample.world
              (Sample.command ["format"]) ["."]
              (Sample.start (set_Format "OCI-archive" Sample.initial))))
              (Hreach _) _) _);
      vm_compute; reflexivity.
  - refine (proj2 (proj2 (proj2 (C9_format_families Sample.world
              (Sample.command ["format"]) ["."]
              (Sample.start (set_Format "dockerv2s2" Sample.initial))))
              (Hreach _) _) _);
      vm_compute; reflexivity.
Defined.

(** [podman build --squash-all=false .] and [podman build --squash=false .] *)
Lemma C10_witness :
  (exists files opts s',
     compileRequest Sample.world (Sample.command ["squash-all"]) ["."]
       (Sample.start (set_SquashAll false Sample.initial))
     = (Ok (files, opts), s')
     /\ imagebuildah.Squash opts = true /\ imagebuildah.Layers opts = false)
  /\
  (exists files opts s',
     compileRequest Sample.world (Sample.command ["squash"]) ["."]
       (Sample.start (set_Squash false Sample.initial))
     = (Ok (files, opts), s')
     /\ imagebuildah.Squash opts = false /\ imagebuildah.Layers opts = true).
Proof.
  split; eexists _, _, _; (split; [vm_compute; reflexivity|]).
  - refine (proj1 (C10_squash_all_fires_on_presence Sample.world
                     (Sample.command ["squash-all"]) ["."]
                     (Sample.start (set_SquashAll false Sample.initial))
                     _ _ _ _) false _ _);
      vm_compute; reflexivity.
  - refine (proj2 (C10_squash_all_fires_on_presence Sample.world
                     (Sample.command ["squash"]) ["."]
                     (Sample.start (set_Squash false Sample.initial))
                     _ _ _ _) _ _ _);
      vm_compute; reflexivity.
Defined.

(** * Further properties of a run *)

(** ** Strings *)

Lemma HasPrefix_append pre s : gostrings.HasPrefix (pre +:+ s) pre = true.
Proof.
  unfold gostrings.HasPrefix.
  induction pre as [|ch pre IH]; [destruct s; reflexivity|].
  change (String ch pre +:+ s) with (String ch (pre +:+ s)).
  cbn [String.prefix]. destruct (ascii_dec ch ch); [exact IH | contradiction].
Qed.

(** ** Relations that every step of a computation keeps *)

Section Respects.

Variable R : state -> state -> Prop.
Hypothesis R_refl : forall s, R s s.
Hypothesis R_trans : forall s1 s2 s3, R s1 s2 -> R s2 s3 -> R s1 s3.

Lemma respects_bind {A B} (m : M A) (k : A -> M B) :
  respects R m -> (forall a, respects R (k a)) -> respects R (m ≫= k).
Proof.
  intros Hm Hk s r s'. unfold mbind, M_bind, bind.
  destruct (m s) as [[a|e] s1] eqn:E; intros H.
  - eapply R_trans; [eapply Hm, E | eapply Hk, H].
  - injection H as <- <-. eapply Hm, E.
Qed.

Lemma respects_ret {A} (a : A) : respects R (ret a).
Proof. intros s r s' H. injection H as <- <-. apply R_refl. Qed.

Lemma respects_fail {A} (e : error) : respects R (@fail A e).
Proof. intros s r s' H. injection H as <- <-. apply R_refl. Qed.

Lemma respects_lift {A} (x : result A) : respects R (lift x).
Proof. intros s r s' H. injection H as <- <-. apply R_refl. Qed.

Lemma respects_load : respects R load.
Proof. intros s r s' H. injection H as <- <-. apply R_refl. Qed.

End Respects.

(** A proof that follows the text of a computation: [refl] and [trans] are
    the order laws of the relation, [prims] closes the goals of [emit],
    [defer] and [store]. *)
Ltac respects_walk refl trans prims :=
  repeat first
    [ progress prims
    | apply (respects_bind _ trans); [|intros ?]
    | apply (respects_ret _ refl)
    | apply (respects_fail _ refl)
    | apply (respects_lift _ refl)
    | apply (respects_load _ refl)
    | match goal with
      | |- respects _ (match ?x with _ => _ end) => destruct x
      | |- respects _ (let _ := _ in _) => cbv zeta
      end ].

(** ** Events and deferred calls *)

Lemma grows_refl P s : grows P s s.
Proof. exists []. rewrite app_nil_r. split; reflexivity. Qed.

Lemma grows_trans P s1 s2 s3 : grows P s1 s2 -> grows P s2 s3 -> grows P s1 s3.
Proof.
  intros (e1 & H1 & F1) (e2 & H2 & F2). exists (e1 ++ e2)%list.
  rewrite H2, H1, <- app_assoc, forallb_app, F1, F2. split; reflexivity.
Qed.

Lemma quiet_refl P s : quiet P s s.
Proof. split; [reflexivity | apply grows_refl]. Qed.

Lemma quiet_trans P s1 s2 s3 : quiet P s1 s2 -> quiet P s2 s3 -> quiet P s1 s3.
Proof.
  intros [D1 G1] [D2 G2]. split; [congruence | eapply grows_trans; eassumption].
Qed.

Lemma grows_emit P ev : P ev = true -> respects (grows P) (emit ev).
Proof.
  intros HP s r s' H. injection H as <- <-. exists [ev]. cbn.
  rewrite HP. split; reflexivity.
Qed.

Lemma grows_defer P d : respects (grows P) (defer d).
Proof.
  intros s r s' H. injection H as <- <-. exists []. cbn.
  rewrite app_nil_r. split; reflexivity.
Qed.

Lemma grows_store P f : respects (grows P) (store f).
Proof.
  intros s r s' H. injection H as <- <-. exists []. cbn.
  rewrite app_nil_r. split; reflexivity.
Qed.

Lemma quiet_emit P ev : P ev = true -> respects (quiet P) (emit ev).
Proof.
  intros HP s r s' H. split; [injection H as <- <-; reflexivity|].
  eapply grows_emit; eassumption.
Qed.

Lemma quiet_store P f : respects (quiet P) (store f).
Proof.
  intros s r s' H. split; [injection H as <- <-; reflexivity|].
  eapply grows_store; eassumption.
Qed.

Ltac grows_prims :=
  first [ apply grows_emit; reflexivity | apply grows_defer | apply grows_store ].

Ltac quiet_prims :=
  first [ apply quiet_emit; reflexivity | apply quiet_store ].

Section RunFacts.

Variable w : World.

(** The options are compiled without a deferred call; the one event is the
    redirection of the log. *)
Lemma buildFlagsWrapperToOptions_quiet c d lf :
  respects (quiet isPlain) (buildFlagsWrapperToOptions w c d lf).
Proof.
  unfold buildFlagsWrapperToOptions.
  respects_walk (quiet_refl isPlain) (quiet_trans isPlain) quiet_prims.
Qed.

Lemma contextDirOfFiles_quiet fs :
  respects (quiet isPlain) (contextDirOfFiles w fs).
Proof.
  induction fs as [|f fs IH]; cbn [contextDirOfFiles].
  - apply (respects_ret _ (quiet_refl isPlain)).
  - destruct (looksRemote f); [exact IH|].
    respects_walk (quiet_refl isPlain) (quiet_trans isPlain) quiet_prims.
Qed.

Lemma defaultContainerFiles_quiet d fs :
  respects (quiet isPlain) (defaultContainerFiles w d fs).
Proof.
  unfold defaultContainerFiles.
  respects_walk (quiet_refl isPlain) (quiet_trans isPlain) quiet_prims.
Qed.

Lemma engineBuild_quiet request :
  respects (quiet isPlain) (engineBuild w request).
Proof.
  unfold engineBuild.
  respects_walk (quiet_refl isPlain) (quiet_trans isPlain) quiet_prims.
Qed.

(** ** Resources and their release *)

Lemma acquired_app t1 t2 :
  acquired w (t1 ++ t2)%list = (acquired w t1 ++ acquired w t2)%list.
Proof. apply flat_map_app. Qed.

Lemma accounted_refl s : accounted w s s.
Proof. exists []. rewrite app_nil_r. repeat split. Qed.

Lemma accounted_trans s1 s2 s3 :
  accounted w s1 s2 -> accounted w s2 s3 -> accounted w s1 s3.
Proof.
  intros (e1 & T1 & F1 & D1) (e2 & T2 & F2 & D2). exists (e1 ++ e2)%list.
  rewrite T2, T1, D2, D1, <- !app_assoc, forallb_app, F1, F2.
  rewrite acquired_app, rev_app_distr, <- app_assoc. repeat split.
Qed.

Lemma plain_acquires_nothing evs :
  forallb isPlain evs = true ->
  acquired w evs = [] /\
  forallb (fun ev => negb (isCleanup ev)) evs = true.
Proof.
  induction evs as [|ev evs IH]; [split; reflexivity|].
  cbn [forallb]. intros H. apply andb_true_iff in H as [Hev H].
  destruct (IH H) as [IH1 IH2]. unfold acquired in *.
  destruct ev; try discriminate Hev; cbn; rewrite ?IH1, ?IH2;
    split; reflexivity.
Qed.

Lemma quiet_accounted {A} (m : M A) :
  respects (quiet isPlain) m -> respects (accounted w) m.
Proof.
  intros Hm s r s' H. destruct (Hm s r s' H) as [D (evs & T & F)].
  destruct (plain_acquires_nothing evs F) as [Ha Hc].
  exists evs. rewrite Ha, D. repeat split; assumption.
Qed.

Lemma accounted_emit ev :
  isPlain ev = true -> respects (accounted w) (emit ev).
Proof.
  intros H. apply quiet_accounted, quiet_emit, H.
Qed.

(** Resolving the context defers the removal of the directory it created. *)
Lemma contextDirOf_accounted args fs :
  respects (accounted w) (contextDirOf w args fs).
Proof.
  unfold contextDirOf. destruct args as [|arg0 args].
  - apply quiet_accounted, contextDirOfFiles_quiet.
  - intros s r s'. unfold mbind, M_bind, bind, emit, defer, fail, ret.
    cbn [buildOpts trace defers].
    destruct (TempDirForURL w "" "buildah" arg0) as [[tempDir subDir]|e] eqn:E.
    + destruct (tempDir =? "") eqn:Et; cbn [negb].
      * destruct (filepath_Abs w arg0); intros H; injection H as <- <-;
          eexists; cbn [trace defers];
          (split; [rewrite <- app_assoc; reflexivity|]);
          cbn; rewrite E, Et; repeat split.
      * intros H; injection H as <- <-.
        eexists; cbn [trace defers]; (split; [reflexivity|]).
        cbn. rewrite E, Et. repeat split.
    + intros H; injection H as <- <-.
      eexists; cbn [trace defers]; (split; [reflexivity|]).
      cbn. rewrite E. repeat split.
Qed.

(** Opening the log file defers its closing. *)
Lemma openLogfile_accounted cmd :
  respects (accounted w) (openLogfile w cmd).
Proof.
  unfold openLogfile. intros s r s'.
  destruct (Changed cmd "logfile").
  - unfold mbind, M_bind, bind, load, emit, defer, fail, ret.
    cbn [buildOpts trace defers].
    destruct (os_OpenFile w (Logfile (buildOpts s))) eqn:E;
      intros H; injection H as <- <-;
      eexists; cbn [trace defers]; (split; [reflexivity|]);
      cbn; rewrite E; repeat split.
  - intros H. injection H as <- <-. apply accounted_refl.
Qed.

Ltac accounted_prims :=
  first [ apply contextDirOf_accounted
        | apply openLogfile_accounted
        | apply quiet_accounted, defaultContainerFiles_quiet
        | apply quiet_accounted, buildFlagsWrapperToOptions_quiet
        | apply quiet_accounted, engineBuild_quiet
        | apply accounted_emit; reflexivity ].

Lemma compileRequest_accounted cmd args :
  respects (accounted w) (compileRequest w cmd args).
Proof.
  unfold compileRequest.
  respects_walk accounted_refl accounted_trans accounted_prims.
Qed.

(** What a deferred call adds to the trace. *)
Lemma runDeferred_events s d :
  trace (runDeferred w s d) = (trace s ++ cleanupEvents w d)%list.
Proof.
  destruct d as [tempDir contextDir|f]; cbn; [|reflexivity].
  destruct (os_RemoveAll w tempDir); cbn; rewrite <- ?app_assoc; reflexivity.
Qed.

Lemma runDeferred_all_events ds s :
  trace (fold_left (runDeferred w) ds s) =
  (trace s ++ flat_map (cleanupEvents w) ds)%list.
Proof.
  revert s. induction ds as [|d ds IH]; intros s; cbn.
  - rewrite app_nil_r. reflexivity.
  - rewrite IH, runDeferred_events, <- app_assoc. reflexivity.
Qed.

Lemma runDeferred_all_buildOpts ds s :
  buildOpts (fold_left (runDeferred w) ds s) = buildOpts s.
Proof.
  revert s. induction ds as [|d ds IH]; intros s; cbn; [reflexivity|].
  rewrite IH. destruct d as [tempDir contextDir|f]; cbn; [|reflexivity].
  destruct (os_RemoveAll w tempDir); reflexivity.
Qed.


(** ** The path of a run that compiles, in full *)

(** The log file of a run, once [os.OpenFile] has accepted it. *)
Lemma openLogfile_Ok_file cmd s lf s1 :
  openLogfile w cmd s = (Ok lf, s1) ->
  (Changed cmd "logfile" = true /\
   os_OpenFile w (Logfile (buildOpts s)) = None /\
   lf = Some (os_Opened (Logfile (buildOpts s))) /\
   trace s1 = (trace s ++ [EvOpenFile (Logfile (buildOpts s))])%list)
  \/
  (Changed cmd "logfile" = false /\ lf = None /\ trace s1 = trace s).
Proof.
  unfold openLogfile. intros H.
  destruct (Changed cmd "logfile").
  - left. repeat step H; last_step H. repeat split; assumption.
  - right. last_step H. repeat split.
Qed.

Lemma compileRequest_path cmd args s files opts s' :
  compileRequest w cmd args s = (Ok (files, opts), s') ->
  exists d s1 lf s2,
    contextDirOf w args (containerFilesOf (File (buildOpts s))) s = (Ok d, s1)
    /\ d <> ""
    /\ utils_IsDir w d = true
    /\ openLogfile w cmd
         {| buildOpts := buildOpts s;
            trace :=
              (trace s1 ++ [EvIsDir d]
               ++ match containerFilesOf (File (buildOpts s)) with
                  | [] => [EvFileExists (filepath_Join w d "Containerfile")]
                  | _ :: _ => []
                  end)%list;
            defers := defers s1 |} = (Ok lf, s2)
    /\ buildOpts s2 = buildOpts s
    /\ buildFlagsWrapperToOptions w cmd d lf s2 = (Ok opts, s').
Proof.
  unfold compileRequest. intros H.
  destruct (conflict cmd); [discriminate|].
  apply bind_Ok_inv in H as (o & s0 & Hload & H).
  cbv [load] in Hload. injection Hload as <- <-.
  apply bind_Ok_inv in H as (d & s1 & Hctx & H).
  destruct (d =? "") eqn:Hd; [discriminate|].
  apply bind_Ok_inv in H as ([] & s1' & Hemit & H).
  cbv [emit] in Hemit. injection Hemit as <-.
  destruct (utils_IsDir w d) eqn:Hdir; [|discriminate]. cbn [negb] in H.
  apply bind_Ok_inv in H as (fs' & s2 & Hfiles & H).
  apply bind_Ok_inv in H as (lf & s3 & Hlog & H).
  apply bind_Ok_inv in H as (o' & s4 & Hopts & H).
  cbv [ret] in H. injection H as <- <- <-.
  destruct (contextDirOf_Ok _ _ _ _ _ _ Hctx) as [Hb1 _].
  destruct (openLogfile_Ok _ _ _ _ _ Hlog) as [Hb3 _].
  exists d, s1, lf, s3. split; [assumption|].
  split; [apply String.eqb_neq; assumption|]. split; [assumption|].
  unfold defaultContainerFiles in Hfiles.
  destruct (containerFilesOf (File (buildOpts s))).
  - repeat step Hfiles; last_step Hfiles; cbn in Hlog, Hb3;
      rewrite Hb1 in Hlog, Hb3; rewrite <- app_assoc in Hlog;
      repeat split; assumption.
  - last_step Hfiles. cbn in Hlog, Hb3. rewrite Hb1 in Hlog, Hb3.
    rewrite app_nil_r. repeat split; assumption.
Qed.

(** The fields that [buildFlagsWrapperToOptions] computes, besides the ones
    of the squash flags, the pull policy, the build arguments and the
    format. *)
Lemma buildFlagsWrapperToOptions_fields c d lf s opts s' :
  buildFlagsWrapperToOptions w c d lf s = (Ok opts, s') ->
  let flags := buildOpts s in
  (imagebuildah.Output opts, imagebuildah.AdditionalTags opts)
  = outputAndTags c flags
  /\ imagebuildah.RuntimeArgs opts
     = runtimeFlagsOf flags (registry_PodmanConfig w)
  /\ imagebuildah.Runtime opts = cfg_RuntimePath (registry_PodmanConfig w)
  /\ (if Changed c "memory"
      then units_RAMInBytes w (Memory flags)
      else Ok 0%Z)
     = Ok (buildah.cb_Memory (imagebuildah.CommonBuildOpts opts))
  /\ (if Changed c "memory-swap"
      then units_RAMInBytes w (MemorySwap flags)
      else Ok 0%Z)
     = Ok (buildah.cb_MemorySwap (imagebuildah.CommonBuildOpts opts))
  /\ (imagebuildah.Out opts, imagebuildah.Err_ opts,
      imagebuildah.ReportWriter opts)
     = match lf with
       | Some f => (f, f, f)
       | None => (os_Stdout, os_Stderr, os_Stderr)
       end
  /\ trace s'
     = (trace s
        ++ match lf with Some f => [EvSetOutput f] | None => [] end)%list
  /\ imagebuildah.Compression_ opts
     = (if DisableCompression flags then imagebuildah.Uncompressed
        else imagebuildah.Gzip)
  /\ imagebuildah.ForceRmIntermediateCtrs opts = ForceRm flags
  /\ imagebuildah.RemoveIntermediateCtrs opts = Rm flags
  /\ buildah.cb_HTTPProxy (imagebuildah.CommonBuildOpts opts)
     = HTTPProxy flags
  /\ imagebuildah.TransientMounts opts = Volumes flags
  /\ buildah.cb_Volumes (imagebuildah.CommonBuildOpts opts) = Volumes flags
  /\ buildOpts s'
     = set_Format (ToLower w (Format flags)) (squashTranslation c flags).
Proof.
  intros H. cbv zeta. unfold buildFlagsWrapperToOptions in H.
  repeat step H.
  all: last_step H.
  all: rewrite set_Layers_same, squashTranslation_idem in *.
  all: rewrite squashTranslation_Format in *.
  all: cbn [trace buildOpts defers]; rewrite ?app_nil_r.
  all: unfold squashTranslation, runtimeFlagsOf;
    destruct (Changed c "squash" && Squash (buildOpts _)),
      (Changed c "squash-all");
    cbn; repeat split;
    first [assumption | reflexivity | symmetry; assumption].
Qed.

(** ** The events of each part of [build] *)

Section Grows.

Variable P : event -> bool.

Lemma contextDirOfFiles_grows fs :
  (forall p, P (EvAbs p) = true) ->
  respects (grows P) (contextDirOfFiles w fs).
Proof.
  intros HP. induction fs as [|f fs IH]; cbn [contextDirOfFiles].
  - apply (respects_ret _ (grows_refl P)).
  - destruct (looksRemote f); [exact IH|].
    respects_walk (grows_refl P) (grows_trans P)
      ltac:(first [apply grows_emit; apply HP]).
Qed.

Lemma contextDirOf_grows args fs :
  (forall p, P (EvAbs p) = true) ->
  (forall d p u, P (EvTempDirForURL d p u) = true) ->
  respects (grows P) (contextDirOf w args fs).
Proof.
  intros HA HT. unfold contextDirOf. destruct args as [|arg0 args].
  - apply contextDirOfFiles_grows, HA.
  - respects_walk (grows_refl P) (grows_trans P)
      ltac:(first [ apply grows_emit; first [apply HA | apply HT]
                  | apply grows_defer ]).
Qed.

Lemma defaultContainerFiles_grows d fs :
  (forall p, P (EvFileExists p) = true) ->
  respects (grows P) (defaultContainerFiles w d fs).
Proof.
  intros HP. unfold defaultContainerFiles.
  respects_walk (grows_refl P) (grows_trans P)
    ltac:(first [apply grows_emit; apply HP]).
Qed.

Lemma openLogfile_grows cmd :
  (forall n, P (EvOpenFile n) = true) ->
  respects (grows P) (openLogfile w cmd).
Proof.
  intros HP. unfold openLogfile.
  respects_walk (grows_refl P) (grows_trans P)
    ltac:(first [apply grows_emit; apply HP | apply grows_defer]).
Qed.

Lemma buildFlagsWrapperToOptions_grows c d lf :
  (forall f, P (EvSetOutput f) = true) ->
  respects (grows P) (buildFlagsWrapperToOptions w c d lf).
Proof.
  intros HP. unfold buildFlagsWrapperToOptions.
  respects_walk (grows_refl P) (grows_trans P)
    ltac:(first [apply grows_emit; apply HP | apply grows_store]).
Qed.

Lemma compileRequest_grows cmd args :
  (forall ev, isSetup ev = true -> P ev = true) ->
  respects (grows P) (compileRequest w cmd args).
Proof.
  intros HP. unfold compileRequest.
  respects_walk (grows_refl P) (grows_trans P)
    ltac:(first [ apply contextDirOf_grows; intros; apply HP; reflexivity
                | apply defaultContainerFiles_grows;
                  intros; apply HP; reflexivity
                | apply openLogfile_grows; intros; apply HP; reflexivity
                | apply buildFlagsWrapperToOptions_grows;
                  intros; apply HP; reflexivity
                | apply grows_emit; apply HP; reflexivity ]).
Qed.

End Grows.

Lemma engineCalls_app t1 t2 :
  engineCalls (t1 ++ t2)%list = (engineCalls t1 ++ engineCalls t2)%list.
Proof. apply flat_map_app. Qed.

Lemma engineCalls_setup evs :
  forallb isSetup evs = true -> engineCalls evs = [].
Proof.
  induction evs as [|ev evs IH]; [reflexivity|]. cbn [forallb].
  intros H. apply andb_true_iff in H as [Hev H].
  unfold engineCalls in *. destruct ev; try discriminate Hev; cbn; auto.
Qed.

Lemma engineCalls_cleanup ds :
  engineCalls (flat_map (cleanupEvents w) ds) = [].
Proof.
  induction ds as [|d ds IH]; [reflexivity|]. cbn [flat_map].
  rewrite engineCalls_app, IH, app_nil_r.
  destruct d as [tempDir contextDir|f]; cbn; [|reflexivity].
  destruct (os_RemoveAll w tempDir); reflexivity.
Qed.

End RunFacts.

(** ** The map of build arguments *)

Lemma SplitN2_not_nil s sep : gostrings.SplitN2 s sep <> [].
Proof.
  induction s as [|ch s IH]; cbn; [discriminate|].
  destruct (Ascii.eqb ch sep); [discriminate|].
  destruct (gostrings.SplitN2 s sep); [contradiction | discriminate].
Qed.

Lemma buildArgStep_lookup (m : gmap string string) arg k :
  buildArgStep m arg !! k =
  if argKey arg =? k then argValue arg else m !! k.
Proof.
  unfold buildArgStep, argKey, argValue.
  pose proof (SplitN2_not_nil arg "="%char) as Hne.
  destruct (gostrings.SplitN2 arg "="%char) as [|k0 [|v tl]];
    [contradiction| |]; cbn [hd];
    destruct (String.eqb_spec k0 k) as [->|Hk].
  - apply lookup_delete_eq.
  - apply lookup_delete_ne, Hk.
  - apply lookup_insert_eq.
  - apply lookup_insert_ne, Hk.
Qed.

Lemma buildArgs_lookup (l : list string) (m : gmap string string) k :
  fold_left buildArgStep l m !! k =
  match lastArgFor k l with
  | Some arg => argValue arg
  | None => m !! k
  end.
Proof.
  unfold lastArgFor. induction l as [|arg l IH] using rev_ind; [reflexivity|].
  rewrite fold_left_app, rev_app_distr. cbn [fold_left rev app find].
  rewrite buildArgStep_lookup. destruct (argKey arg =? k); [reflexivity|].
  exact IH.
Qed.

Lemma find_key_unique (l : list string) k arg :
  List.NoDup (List.map argKey l) -> In arg l -> argKey arg = k ->
  find (fun a => argKey a =? k) l = Some arg.
Proof.
  induction l as [|a l IH]; intros Hnd Hin Hk; [contradiction|].
  cbn [List.map] in Hnd. apply List.NoDup_cons_iff in Hnd as [Hnotin Hnd].
  cbn [find]. destruct Hin as [->|Hin].
  - apply String.eqb_eq in Hk. rewrite Hk. reflexivity.
  - destruct (String.eqb_spec (argKey a) k) as [Ha|Ha].
    + exfalso. apply Hnotin. rewrite Ha, <- Hk. apply in_map, Hin.
    + apply IH; assumption.
Qed.

Lemma find_key_permutation (l l' : list string) k :
  List.NoDup (List.map argKey l) -> Permutation l l' ->
  find (fun a => argKey a =? k) l = find (fun a => argKey a =? k) l'.
Proof.
  intros Hnd Hp.
  assert (Hnd' : List.NoDup (List.map argKey l')).
  { eapply Permutation_NoDup; [apply Permutation_map, Hp | exact Hnd]. }
  destruct (find (fun a => argKey a =? k) l) as [arg|] eqn:E.
  - apply find_some in E as [Hin Hk]. apply String.eqb_eq in Hk.
    symmetry. apply find_key_unique; try assumption.
    eapply Permutation_in; eassumption.
  - destruct (find (fun a => argKey a =? k) l') as [arg|] eqn:E';
      [|reflexivity].
    apply find_some in E' as [Hin Hk].
    rewrite (find_none _ _ E arg) in Hk; [discriminate|].
    eapply Permutation_in; [symmetry|]; eassumption.
Qed.

(** ** What a run writes into [buildOpts] *)

Lemma sameButSquashLayersFormat_refl s : sameButSquashLayersFormat s s.
Proof.
  exists (Squash (buildOpts s)), (Layers (buildOpts s)),
    (Format (buildOpts s)).
  destruct (buildOpts s); reflexivity.
Qed.

Lemma sameButSquashLayersFormat_trans s1 s2 s3 :
  sameButSquashLayersFormat s1 s2 -> sameButSquashLayersFormat s2 s3 ->
  sameButSquashLayersFormat s1 s3.
Proof.
  intros (q1 & l1 & f1 & H1) (q2 & l2 & f2 & H2).
  exists q2, l2, f2. rewrite H2, H1. reflexivity.
Qed.

Lemma sameButSquashLayersFormat_opts s s' :
  buildOpts s' = buildOpts s -> sameButSquashLayersFormat s s'.
Proof.
  intros H. destruct (sameButSquashLayersFormat_refl s) as (q & l & f & E).
  exists q, l, f. rewrite H. exact E.
Qed.

Lemma squashTranslation_shape c o :
  exists squash layers,
    squashTranslation c o = set_Layers layers (set_Squash squash o).
Proof.
  unfold squashTranslation.
  destruct (Changed c "squash" && Squash o), (Changed c "squash-all").
  - exists true, false. reflexivity.
  - exists false, false. reflexivity.
  - exists true, false. reflexivity.
  - exists (Squash o), (Layers o). destruct o; reflexivity.
Qed.

Lemma sameButSquashLayersFormat_emit ev :
  respects sameButSquashLayersFormat (emit ev).
Proof.
  intros s r s' H. injection H as <- <-.
  apply sameButSquashLayersFormat_opts. reflexivity.
Qed.

Lemma sameButSquashLayersFormat_defer d :
  respects sameButSquashLayersFormat (defer d).
Proof.
  intros s r s' H. injection H as <- <-.
  apply sameButSquashLayersFormat_opts. reflexivity.
Qed.

Lemma sameButSquashLayersFormat_store_Layers :
  respects sameButSquashLayersFormat
    (store (fun o => set_Layers (Layers o) o)).
Proof.
  intros s r s' H. injection H as <- <-.
  apply sameButSquashLayersFormat_opts. cbn. apply set_Layers_same.
Qed.

Lemma sameButSquashLayersFormat_store_squash c :
  respects sameButSquashLayersFormat (store (squashTranslation c)).
Proof.
  intros s r s' H. injection H as <- <-. cbn.
  destruct (squashTranslation_shape c (buildOpts s)) as (q & l & E).
  exists q, l, (Format (buildOpts s)). cbn. rewrite E.
  destruct (buildOpts s); reflexivity.
Qed.

Lemma sameButSquashLayersFormat_store_Format f :
  respects sameButSquashLayersFormat
    (store (fun o => set_Format (f o) o)).
Proof.
  intros s r s' H. injection H as <- <-.
  exists (Squash (buildOpts s)), (Layers (buildOpts s)), (f (buildOpts s)).
  cbn. destruct (buildOpts s); reflexivity.
Qed.

Ltac writes_prims :=
  first [ apply sameButSquashLayersFormat_emit
        | apply sameButSquashLayersFormat_defer
        | apply sameButSquashLayersFormat_store_Layers
        | apply sameButSquashLayersFormat_store_squash
        | apply sameButSquashLayersFormat_store_Format ].

Ltac writes_walk :=
  respects_walk sameButSquashLayersFormat_refl
    sameButSquashLayersFormat_trans writes_prims.

Lemma contextDirOfFiles_writes w fs :
  respects sameButSquashLayersFormat (contextDirOfFiles w fs).
Proof.
  induction fs as [|f fs IH]; cbn [contextDirOfFiles].
  - apply (respects_ret _ sameButSquashLayersFormat_refl).
  - destruct (looksRemote f); [exact IH|]. writes_walk.
Qed.

Lemma compileRequest_writes w cmd args :
  respects sameButSquashLayersFormat (compileRequest w cmd args).
Proof.
  unfold compileRequest, contextDirOf, defaultContainerFiles, openLogfile,
    buildFlagsWrapperToOptions.
  respects_walk sameButSquashLayersFormat_refl
    sameButSquashLayersFormat_trans
    ltac:(first [apply contextDirOfFiles_writes | writes_prims]).
Qed.

Lemma engineBuild_writes w request :
  respects sameButSquashLayersFormat (engineBuild w request).
Proof. unfold engineBuild. writes_walk. Qed.

(** ** The verdict of the options *)

Lemma buildFlagsWrapperToOptions_verdict w c d lf s :
  match firstError (optionVerdicts w c (buildOpts s)) with
  | Some e => fst (buildFlagsWrapperToOptions w c d lf s) = Err e
  | None => is_Ok (fst (buildFlagsWrapperToOptions w c d lf s)) = true
  end.
Proof.
  unfold optionVerdicts, buildFlagsWrapperToOptions.
  destruct (outputAndTags c (buildOpts s)) as [output tags] eqn:Htags.
  cbv [mbind M_bind bind load store lift emit ret mret M_ret].
  rewrite Htags.
  destruct (outputFormatOf (ToLower w (Format (buildOpts s)))) as [fmt|efmt]
    eqn:Hfmt.
  all: destruct (Changed c "memory");
    [destruct (units_RAMInBytes w (Memory (buildOpts s))) as [?|?]|].
  all: cbn [verdict firstError].
  all: try (destruct lf; reflexivity).
  all: destruct (Changed c "memory-swap");
    [destruct (units_RAMInBytes w (MemorySwap (buildOpts s))) as [?|?]|].
  all: cbn [verdict firstError].
  all: try (destruct lf; reflexivity).
  all: destruct (parse_NamespaceOptions w c) as [[? ?]|?].
  all: cbn [verdict firstError].
  all: try (destruct lf; reflexivity).
  all: destruct (parse_IsolationOption w (Isolation (buildOpts s))) as [?|?].
  all: cbn [verdict firstError].
  all: try (destruct lf; reflexivity).
  all: match goal with
       | |- context [parse_IDMappingOptions ?w0 ?c0 ?i] =>
           destruct (parse_IDMappingOptions w0 c0 i) as [[? ?]|?]
       end.
  all: cbn [verdict firstError].
  all: try (destruct lf; reflexivity).
  all: destruct (parse_SystemContextFromOptions w c) as [?|?].
  all: cbn [verdict firstError].
  all: try (destruct lf; reflexivity).
  all: destruct lf; cbn [buildOpts trace defers fst].
  all: rewrite set_Layers_same, squashTranslation_idem.
  all: cbn [Format set_Format].
  all: rewrite squashTranslation_Format, Hfmt; reflexivity.
Qed.

(** A run that gets as far as [buildFlagsWrapperToOptions] returns what
    that function returns. *)
Lemma compileRequest_of_options w cmd args s :
  reachesOptions w cmd args s ->
  exists d lf s2 files,
    buildOpts s2 = buildOpts s /\
    fst (compileRequest w cmd args s) =
    match fst (buildFlagsWrapperToOptions w cmd d lf s2) with
    | Ok opts => Ok (files, opts)
    | Err err => Err err
    end.
Proof.
  intros (Hc & (d & s1 & Hctx & Hd & Hdir) & Hlog).
  destruct (contextDirOf_Ok _ _ _ _ _ _ Hctx) as [Hb1 _].
  unfold compileRequest. rewrite Hc.
  cbv [mbind M_bind bind load]. rewrite Hctx, Hd. cbv [emit].
  rewrite Hdir. cbn [negb].
  unfold defaultContainerFiles, openLogfile.
  cbv [mbind M_bind bind load emit defer ret].
  cbn [buildOpts trace defers]. rewrite Hb1.
  destruct (containerFilesOf (File (buildOpts s)));
    [destruct (utils_FileExists w _)|];
    destruct (Changed cmd "logfile");
    cbn [buildOpts trace defers];
    rewrite ?(Hlog eq_refl);
    match goal with
    | |- context [buildFlagsWrapperToOptions w cmd d ?lf ?s2] =>
        exists d, lf, s2; eexists; split; [reflexivity|];
        destruct (buildFlagsWrapperToOptions w cmd d lf s2) as [[?|?] ?];
        reflexivity
    end.
Qed.

(** ** When the log file is opened *)

Lemma openCalls_app t1 t2 :
  openCalls (t1 ++ t2)%list = (openCalls t1 ++ openCalls t2)%list.
Proof. apply flat_map_app. Qed.

Lemma openCalls_notOpen evs :
  forallb notOpen evs = true -> openCalls evs = [].
Proof.
  induction evs as [|ev evs IH]; [reflexivity|]. cbn [forallb].
  intros H. apply andb_true_iff in H as [Hev H].
  unfold openCalls in *. destruct ev; try discriminate Hev; cbn; auto.
Qed.

Lemma openCalls_grows s s' :
  grows notOpen s s' -> openCalls (trace s') = openCalls (trace s).
Proof.
  intros (evs & T & F).
  rewrite T, openCalls_app, (openCalls_notOpen evs F), app_nil_r.
  reflexivity.
Qed.

Lemma openCalls_cleanup w ds :
  openCalls (flat_map (cleanupEvents w) ds) = [].
Proof.
  induction ds as [|d ds IH]; [reflexivity|]. cbn [flat_map].
  rewrite openCalls_app, IH, app_nil_r.
  destruct d as [tempDir contextDir|f]; cbn; [|reflexivity].
  destruct (os_RemoveAll w tempDir); reflexivity.
Qed.

Lemma engineBuild_grows w P request :
  (forall files opts, P (EvBuild files opts) = true) ->
  respects (grows P) (engineBuild w request).
Proof.
  intros HP. unfold engineBuild.
  respects_walk (grows_refl P) (grows_trans P)
    ltac:(first [apply grows_emit; apply HP]).
Qed.

(** The context of a run does not depend on the flags, the trace or the
    deferred calls it starts with. *)
Lemma contextDirOf_state w args fs s s0 :
  fst (contextDirOf w args fs s) = fst (contextDirOf w args fs s0).
Proof.
  unfold contextDirOf. destruct args as [|arg0 args].
  - rewrite contextDirOfFiles_find.
    destruct (find (fun f => negb (looksRemote f)) fs) as [f|]; [|reflexivity].
    unfold mbind, M_bind, bind, emit.
    destruct (filepath_Abs w f); reflexivity.
  - unfold mbind, M_bind, bind, emit, defer.
    destruct (TempDirForURL w "" "buildah" arg0) as [[tempDir subDir]|e];
      [|reflexivity].
    destruct (negb (tempDir =? "")); [reflexivity|].
    destruct (filepath_Abs w arg0); reflexivity.
Qed.

(** The calls of [os.OpenFile] of the part of [build] after the context. *)
Lemma afterContext_opens w cmd d fs s0 r s1 :
  (containerFiles ← defaultContainerFiles w d fs;
   logfile ← openLogfile w cmd;
   apiBuildOpts ← buildFlagsWrapperToOptions w cmd d logfile;
   ret (containerFiles, apiBuildOpts)) s0 = (r, s1) ->
  openCalls (trace s1) =
  (openCalls (trace s0)
   ++ (if Changed cmd "logfile" then [Logfile (buildOpts s0)] else []))%list.
Proof.
  assert (Hopts : forall lf (files : list string) t r' t',
            (apiBuildOpts ← buildFlagsWrapperToOptions w cmd d lf;
             ret (files, apiBuildOpts)) t = (r', t') ->
            openCalls (trace t') = openCalls (trace t)).
  { intros lf files t r' t' H. apply openCalls_grows. revert t r' t' H.
    change (respects (grows notOpen)
              (apiBuildOpts ← buildFlagsWrapperToOptions w cmd d lf;
               ret (files, apiBuildOpts))).
    apply (respects_bind _ (grows_trans notOpen)).
    - apply buildFlagsWrapperToOptions_grows. reflexivity.
    - intros a. apply (respects_ret _ (grows_refl notOpen)). }
  unfold defaultContainerFiles, openLogfile.
  cbv [mbind M_bind bind load emit defer ret fail].
  cbn [buildOpts trace defers].
  destruct fs as [|f fs]; [destruct (utils_FileExists w _)|];
    destruct (Changed cmd "logfile");
    cbn [buildOpts trace defers];
    try destruct (os_OpenFile w (Logfile (buildOpts s0)));
    intros H;
    first
      [ injection H as <- <-; cbn [trace];
        rewrite ?openCalls_app; cbn; rewrite ?app_nil_r; reflexivity
      | apply (Hopts _ _ _ _ _) in H; rewrite H; cbn [trace];
        rewrite ?openCalls_app; cbn; rewrite ?app_nil_r; reflexivity ].
Qed.

Lemma compileRequest_opens w cmd args s0 r s1 :
  compileRequest w cmd args s0 = (r, s1) ->
  openCalls (trace s1) =
  (openCalls (trace s0)
   ++ (if logfileReached w cmd args s0 then [Logfile (buildOpts s0)]
       else []))%list.
Proof.
  unfold compileRequest, logfileReached.
  destruct (conflict cmd).
  - intros H. injection H as <- <-. cbn. rewrite app_nil_r. reflexivity.
  - cbn [negb andb]. cbv [mbind M_bind bind load].
    destruct (contextDirOf w args (containerFilesOf (File (buildOpts s0))) s0)
      as [[d|e] t] eqn:Hctx.
    + pose proof (openCalls_grows _ _
                    (contextDirOf_grows w notOpen _ _ (fun _ => eq_refl)
                       (fun _ _ _ => eq_refl) _ _ _ Hctx)) as Ht.
      destruct (contextDirOf_Ok _ _ _ _ _ _ Hctx) as [Hb _].
      cbn [fst]. destruct (d =? "").
      * intros H. injection H as <- <-. rewrite Ht, andb_false_r, app_nil_r.
        reflexivity.
      * cbv [emit]. destruct (utils_IsDir w d); cbn [negb andb].
        -- intros H. apply afterContext_opens in H. rewrite H.
           cbn [trace buildOpts]. rewrite openCalls_app, Ht, Hb. cbn.
           rewrite app_nil_r, andb_true_r. reflexivity.
        -- intros H. injection H as <- <-. cbn [trace].
           rewrite openCalls_app, Ht, andb_false_r. cbn.
           rewrite !app_nil_r. reflexivity.
    + intros H. injection H as <- <-. cbn [fst].
      rewrite andb_false_r, app_nil_r.
      apply openCalls_grows.
      exact (contextDirOf_grows w notOpen _ _ (fun _ => eq_refl)
               (fun _ _ _ => eq_refl) _ _ _ Hctx).
Qed.

(** ** What the options take from the parsers and from the flags *)

Lemma buildFlagsWrapperToOptions_parsed w c d lf s opts s' :
  buildFlagsWrapperToOptions w c d lf s = (Ok opts, s') ->
  exists ns userns,
    parse_NamespaceOptions w c = Ok (ns, imagebuildah.ConfigureNetwork opts)
    /\ parse_IsolationOption w (Isolation (buildOpts s))
       = Ok (imagebuildah.Isolation opts)
    /\ parse_IDMappingOptions w c (imagebuildah.Isolation opts)
       = Ok (userns, imagebuildah.IDMappingOptions opts)
    /\ imagebuildah.NamespaceOptions opts = (ns ++ userns)%list
    /\ parse_SystemContextFromOptions w c
       = Ok (imagebuildah.SystemContext opts).
Proof.
  intros H. unfold buildFlagsWrapperToOptions in H.
  repeat step H.
  all: last_step H.
  all: eexists _, _; cbn; repeat split; eassumption.
Qed.

Lemma buildFlagsWrapperToOptions_handed w c d lf s opts s' :
  buildFlagsWrapperToOptions w c d lf s = (Ok opts, s') ->
  let flags := buildOpts s in
  let common := imagebuildah.CommonBuildOpts opts in
  imagebuildah.AddCapabilities opts = CapAdd flags
  /\ imagebuildah.DropCapabilities opts = CapDrop flags
  /\ imagebuildah.Annotations opts = Annotation flags
  /\ imagebuildah.Labels opts = Label flags
  /\ imagebuildah.Architecture opts = Arch flags
  /\ imagebuildah.OS opts = OS flags
  /\ imagebuildah.BlobDirectory opts = BlobCache flags
  /\ imagebuildah.CNIConfigDir opts = CNIConfigDir flags
  /\ imagebuildah.CNIPluginPath opts = CNIPlugInPath flags
  /\ imagebuildah.Devices opts = Devices flags
  /\ imagebuildah.IIDFile opts = Iidfile flags
  /\ imagebuildah.NoCache opts = NoCache flags
  /\ imagebuildah.Quiet opts = Quiet flags
  /\ imagebuildah.SignBy opts = SignBy flags
  /\ imagebuildah.SignaturePolicyPath opts = SignaturePolicy flags
  /\ imagebuildah.Target opts = Target flags
  /\ imagebuildah.TransientMounts opts = Volumes flags
  /\ buildah.cb_Volumes common = Volumes flags
  /\ buildah.cb_AddHost common = AddHost flags
  /\ buildah.cb_CPUPeriod common = CPUPeriod flags
  /\ buildah.cb_CPUQuota common = CPUQuota flags
  /\ buildah.cb_CPUSetCPUs common = CPUSetCPUs flags
  /\ buildah.cb_CPUSetMems common = CPUSetMems flags
  /\ buildah.cb_CPUShares common = CPUShares flags
  /\ buildah.cb_CgroupParent common = CgroupParent flags
  /\ buildah.cb_ShmSize common = ShmSize flags
  /\ buildah.cb_Ulimit common = Ulimit flags.
Proof.
  intros H. cbv zeta. unfold buildFlagsWrapperToOptions in H.
  repeat step H.
  all: last_step H.
  all: rewrite set_Layers_same, squashTranslation_idem.
  all: unfold squashTranslation;
    destruct (Changed c "squash" && Squash (buildOpts _)),
      (Changed c "squash-all");
    cbn; repeat split; reflexivity.
Qed.

(** * Further properties, stated *)

(** X1.  When the build request compiles with [--tag] on the command line,
    the first tag is the output image and the rest, in order, are the
    additional tags; without [--tag] on the command line the output is empty
    and there is no additional tag, whatever [buildOpts.Tag] holds. *)
Theorem X1_first_tag_is_output
    (w : World) (cmd : Command) (args : list string) (s : state)
    (files : list string) (opts : imagebuildah.BuildOptions) (s' : state) :
  compileRequest w cmd args s = (Ok (files, opts), s') ->
  (Changed cmd "tag" = true -> Tag (buildOpts s) <> [] ->
   imagebuildah.Output opts :: imagebuildah.AdditionalTags opts
   = Tag (buildOpts s))
  /\
  (Changed cmd "tag" = false \/ Tag (buildOpts s) = [] ->
   imagebuildah.Output opts = "" /\ imagebuildah.AdditionalTags opts = []).
Proof.
  intros H.
  apply compileRequest_path in H
    as (d & s1 & lf & s2 & _ & _ & _ & _ & Hb & H).
  apply buildFlagsWrapperToOptions_fields in H as (Ht & _).
  rewrite Hb in Ht. unfold outputAndTags in Ht. split.
  - intros Hc Hne. rewrite Hc in Ht.
    destruct (Tag (buildOpts s)) as [|t rest]; [contradiction|].
    injection Ht as -> ->. reflexivity.
  - intros [Hc|Hnil].
    + rewrite Hc in Ht. injection Ht as -> ->. split; reflexivity.
    + rewrite Hnil in Ht. destruct (Changed cmd "tag");
        injection Ht as -> ->; split; reflexivity.
Qed.

(** X2.  When the build request compiles, the runtime arguments are the
    runtime flags of the command line, then the runtime flags of the
    configuration, each with [--] put before it, then [--systemd-cgroup] when
    the configured cgroup manager is systemd; so every runtime argument
    starts with [--]. *)
Theorem X2_runtime_args_order
    (w : World) (cmd : Command) (args : list string) (s : state)
    (files : list string) (opts : imagebuildah.BuildOptions) (s' : state) :
  compileRequest w cmd args s = (Ok (files, opts), s') ->
  let cfg := registry_PodmanConfig w in
  imagebuildah.RuntimeArgs opts
  = (List.map (String.append "--") (RuntimeFlags (buildOpts s))
     ++ List.map (String.append "--") (cfg_RuntimeFlags cfg)
     ++ (if cfg_CgroupManager cfg =? "systemd"
         then ["--systemd-cgroup"] else []))%list
  /\
  Forall (fun arg => gostrings.HasPrefix arg "--" = true)
    (imagebuildah.RuntimeArgs opts).
Proof.
  intros H cfg.
  apply compileRequest_path in H
    as (d & s1 & lf & s2 & _ & _ & _ & _ & Hb & H).
  apply buildFlagsWrapperToOptions_fields in H as (_ & Hr & _).
  rewrite Hb in Hr. rewrite Hr. unfold runtimeFlagsOf. fold cfg.
  split; [reflexivity|].
  rewrite !Forall_app. repeat split.
  - apply Forall_forall. intros x Hx. apply list_elem_of_In in Hx.
    apply in_map_iff in Hx as (y & <- & _). apply HasPrefix_append.
  - apply Forall_forall. intros x Hx. apply list_elem_of_In in Hx.
    apply in_map_iff in Hx as (y & <- & _). apply HasPrefix_append.
  - destruct (cfg_CgroupManager cfg =? config.SystemdCgroupsManager);
      repeat constructor.
Qed.

(** X3.  When the build request compiles, a memory limit is the number that
    [units.RAMInBytes] reads from the flag if the flag is on the command
    line, and zero if it is not, whatever its bound variable holds; the same
    for the swap limit. *)
Theorem X3_memory_limits
    (w : World) (cmd : Command) (args : list string) (s : state)
    (files : list string) (opts : imagebuildah.BuildOptions) (s' : state) :
  compileRequest w cmd args s = (Ok (files, opts), s') ->
  let common := imagebuildah.CommonBuildOpts opts in
  (Changed cmd "memory" = true ->
   units_RAMInBytes w (Memory (buildOpts s)) = Ok (buildah.cb_Memory common))
  /\ (Changed cmd "memory" = false -> buildah.cb_Memory common = 0%Z)
  /\ (Changed cmd "memory-swap" = true ->
      units_RAMInBytes w (MemorySwap (buildOpts s))
      = Ok (buildah.cb_MemorySwap common))
  /\ (Changed cmd "memory-swap" = false ->
      buildah.cb_MemorySwap common = 0%Z).
Proof.
  intros H common.
  apply compileRequest_path in H
    as (d & s1 & lf & s2 & _ & _ & _ & _ & Hb & H).
  apply buildFlagsWrapperToOptions_fields in H as (_ & _ & _ & Hm & Hsw & _).
  rewrite Hb in Hm, Hsw. fold common in Hm, Hsw. repeat split.
  - intros Hc. rewrite Hc in Hm. exact Hm.
  - intros Hc. rewrite Hc in Hm. injection Hm as <-. reflexivity.
  - intros Hc. rewrite Hc in Hsw. exact Hsw.
  - intros Hc. rewrite Hc in Hsw. injection Hsw as <-. reflexivity.
Qed.

(** X4.  When the build request compiles with [--logfile] on the command
    line, [os.OpenFile] accepted the file, the log is redirected to it as the
    last call before the engine, right after its opening, and the standard
    output, the standard error and the reporter of the options are all that
    file.  Without [--logfile] the options carry the standard output, the
    standard error, and the standard error again for the reporter, and the
    run has opened no file and redirected no log. *)
Theorem X4_streams_follow_logfile
    (w : World) (cmd : Command) (args : list string) (s : state)
    (files : list string) (opts : imagebuildah.BuildOptions) (s' : state) :
  compileRequest w cmd args s = (Ok (files, opts), s') ->
  (Changed cmd "logfile" = true ->
   let logfile := os_Opened (Logfile (buildOpts s)) in
   os_OpenFile w (Logfile (buildOpts s)) = None
   /\ imagebuildah.Out opts = logfile
   /\ imagebuildah.Err_ opts = logfile
   /\ imagebuildah.ReportWriter opts = logfile
   /\ exists before,
        trace s' =
        (before ++ [EvOpenFile (Logfile (buildOpts s)); EvSetOutput logfile])%list)
  /\
  (Changed cmd "logfile" = false ->
   imagebuildah.Out opts = os_Stdout
   /\ imagebuildah.Err_ opts = os_Stderr
   /\ imagebuildah.ReportWriter opts = os_Stderr
   /\ exists new,
        trace s' = (trace s ++ new)%list
        /\ forallb (fun ev => negb (isLogEvent ev)) new = true).
Proof.
  intros H.
  apply compileRequest_path in H
    as (d & s1 & lf & s2 & Hctx & _ & _ & Hlog & Hb & H).
  apply buildFlagsWrapperToOptions_fields in H
    as (_ & _ & _ & _ & _ & Hio & Ht & _).
  apply openLogfile_Ok_file in Hlog
    as [(Hc & Ho & Hlf & Ht2)|(Hc & Hlf & Ht2)]; subst lf.
  - cbn [buildOpts trace] in Ho, Ht2, Hio, Ht.
    split; [intros _|intros Hc'; rewrite Hc in Hc'; discriminate Hc'].
    cbv zeta. injection Hio as -> -> ->.
    repeat (split; [first [assumption | reflexivity]|]).
    rewrite Ht, Ht2. eexists. rewrite <- app_assoc. reflexivity.
  - cbn [buildOpts trace] in Ht2.
    split; [intros Hc'; rewrite Hc in Hc'; discriminate Hc'|intros _].
    injection Hio as -> -> ->.
    repeat (split; [reflexivity|]).
    destruct (contextDirOf_grows w (fun ev => negb (isLogEvent ev)) _ _
                (fun _ => eq_refl) (fun _ _ _ => eq_refl) _ _ _ Hctx)
      as (evs & T & F).
    rewrite Ht, Ht2, T, app_nil_r, <- !app_assoc.
    eexists. split; [reflexivity|].
    rewrite forallb_app, F.
    destruct (containerFilesOf (File (buildOpts s))); reflexivity.
Qed.

(** X5.  Every resource that a run of [build] takes is given back exactly
    once, on every return path: the trace that [build] leaves is the trace it
    found, then the events of its work, none of which closes or removes
    anything, then the deferred calls for the files it opened and the
    temporary directories it had created, the last taken first. *)
Theorem X5_resources_released_once
    (w : World) (cmd : Command) (args : list string) (s : state) :
  exists work,
    trace (snd (build w cmd args s)) =
    (trace s ++ work
     ++ flat_map (cleanupEvents w) (rev (acquired w work)))%list
    /\ forallb (fun ev => negb (isCleanup ev)) work = true.
Proof.
  unfold build.
  destruct ((request ← compileRequest w cmd args; engineBuild w request)
              (enter s)) as [r s1] eqn:E.
  assert (H : accounted w (enter s) s1).
  { revert E. generalize (enter s). intros s0 E. revert s0 r s1 E.
    change (respects (accounted w)
              (request ← compileRequest w cmd args; engineBuild w request)).
    apply (respects_bind _ (accounted_trans w));
      [apply compileRequest_accounted
      |intros a; apply quiet_accounted, engineBuild_quiet]. }
  destruct H as (work & T & F & D). exists work. cbn [snd trace].
  rewrite runDeferred_all_events, T, D. cbn [enter trace defers].
  rewrite app_nil_r, <- app_assoc. split; [reflexivity | assumption].
Qed.

(** X6.  [build] calls the image engine at most once, and exactly when the
    request compiles: then the engine receives the compiled container files
    and options and its verdict is the error of [build]; when the request
    does not compile the engine is not called and the error of the
    compilation is the error of [build]. *)
Theorem X6_engine_called_once_with_request
    (w : World) (cmd : Command) (args : list string) (s : state) :
  match fst (compileRequest w cmd args (enter s)) with
  | Ok (files, opts) =>
      fst (build w cmd args s) = ImageEngine_Build w files opts /\
      engineCalls (trace (snd (build w cmd args s)))
      = (engineCalls (trace s) ++ [(files, opts)])%list
  | Err err =>
      fst (build w cmd args s) = Some err /\
      engineCalls (trace (snd (build w cmd args s))) = engineCalls (trace s)
  end.
Proof.
  unfold build, mbind, M_bind, bind.
  destruct (compileRequest w cmd args (enter s)) as [[[files opts]|e] s1] eqn:E.
  all: destruct (compileRequest_grows w isSetup cmd args (fun ev H => H)
                   _ _ _ E) as (evs & T & F).
  all: cbn [enter trace] in T.
  - cbn [fst]. unfold engineBuild, mbind, M_bind, bind, emit, fail, ret.
    destruct (ImageEngine_Build w files opts); cbn [fst snd trace];
      (split; [reflexivity|]);
      rewrite runDeferred_all_events; cbn [trace];
      rewrite T, !engineCalls_app, engineCalls_cleanup,
        (engineCalls_setup evs F), !app_nil_r; reflexivity.
  - cbn [fst snd trace]. split; [reflexivity|].
    rewrite runDeferred_all_events, T, !engineCalls_app, engineCalls_cleanup,
      (engineCalls_setup evs F), !app_nil_r. reflexivity.
Qed.

(** X7.  With a positional argument (and no conflict of flags) [build] asks
    [TempDirForURL] about it first.  An error there, or an error of
    [filepath.Abs] for an argument that was no URL, ends the run, wrapped in
    a message of its own.  When the request compiles, the context directory
    of the options is the subdirectory inside the temporary directory for a
    URL, and the absolute path of the argument otherwise; the container files
    do not enter into it. *)
Theorem X7_context_from_argument
    (w : World) (cmd : Command) (arg : string) (rest : list string)
    (s : state) :
  conflict cmd = false ->
  (forall err,
     TempDirForURL w "" "buildah" arg = Err err ->
     fst (compileRequest w cmd (arg :: rest) s) =
     Err (errors_Wrapf err "error prepping temporary context directory" []))
  /\
  (forall subDir err,
     TempDirForURL w "" "buildah" arg = Ok ("", subDir) ->
     filepath_Abs w arg = Err err ->
     fst (compileRequest w cmd (arg :: rest) s) =
     Err (errors_Wrapf err "error determining path to directory %q" [arg]))
  /\
  (forall files opts s',
     compileRequest w cmd (arg :: rest) s = (Ok (files, opts), s') ->
     exists tempDir subDir,
       TempDirForURL w "" "buildah" arg = Ok (tempDir, subDir) /\
       if tempDir =? ""
       then filepath_Abs w arg = Ok (imagebuildah.ContextDirectory opts)
       else imagebuildah.ContextDirectory opts
            = filepath_Join w tempDir subDir).
Proof.
  intros Hc. repeat split.
  - intros err E. unfold compileRequest. rewrite Hc.
    unfold contextDirOf, mbind, M_bind, bind, load, emit. rewrite E.
    reflexivity.
  - intros subDir err E Ea. unfold compileRequest. rewrite Hc.
    unfold contextDirOf, mbind, M_bind, bind, load, emit. rewrite E.
    cbn. rewrite Ea. reflexivity.
  - intros files opts s' H.
    apply compileRequest_path in H
      as (d & s1 & lf & s2 & Hctx & _ & _ & _ & _ & H).
    apply buildFlagsWrapperToOptions_Ok in H as (_ & _ & _ & _ & Hd & _).
    unfold contextDirOf in Hctx. repeat step Hctx; last_step Hctx.
    + eexists _, _. split; [reflexivity|].
      match goal with
      | E : negb _ = true |- _ => apply negb_true_iff in E; rewrite E
      end.
      congruence.
    + eexists _, _. split; [reflexivity|].
      match goal with
      | E : negb _ = false |- _ => apply negb_false_iff in E; rewrite E
      end.
      congruence.
Qed.

(** X8.  When the build request compiles, the context directory of the
    options is not the empty path, [utils.IsDir] has been asked about this
    very path, and it has answered that it is a directory. *)
Theorem X8_context_is_checked_directory
    (w : World) (cmd : Command) (args : list string) (s : state)
    (files : list string) (opts : imagebuildah.BuildOptions) (s' : state) :
  compileRequest w cmd args s = (Ok (files, opts), s') ->
  imagebuildah.ContextDirectory opts <> ""
  /\ utils_IsDir w (imagebuildah.ContextDirectory opts) = true
  /\ In (EvIsDir (imagebuildah.ContextDirectory opts)) (trace s').
Proof.
  intros H.
  apply compileRequest_path in H
    as (d & s1 & lf & s2 & _ & Hne & Hdir & Hlog & _ & H).
  pose proof (buildFlagsWrapperToOptions_fields _ _ _ _ _ _ _ H)
    as (_ & _ & _ & _ & _ & _ & Ht & _).
  apply buildFlagsWrapperToOptions_Ok in H as (_ & _ & _ & _ & Hd & _).
  rewrite Hd. repeat split; try assumption.
  rewrite Ht. apply in_or_app. left.
  apply openLogfile_Ok_file in Hlog as [(_ & _ & _ & ->)|(_ & _ & ->)];
    cbn [trace]; [apply in_or_app; left|];
    apply in_or_app; right; left; reflexivity.
Qed.

(** X9.  When the build request compiles and container files were declared
    with [--file], the list handed to the engine is the declared list, in
    order and as long, with [/dev/stdin] in the place of each [-]; [build]
    has not asked whether any of them, or any default, exists. *)
Theorem X9_declared_files_pass_unchecked
    (w : World) (cmd : Command) (args : list string) (s : state)
    (files : list string) (opts : imagebuildah.BuildOptions) (s' : state) :
  compileRequest w cmd args s = (Ok (files, opts), s') ->
  File (buildOpts s) <> [] ->
  files = List.map (fun f => if f =? "-" then "/dev/stdin" else f)
            (File (buildOpts s))
  /\ List.length files = List.length (File (buildOpts s))
  /\ probes (trace s') = probes (trace s).
Proof.
  intros H Hne.
  apply compileRequest_Ok in H
    as (_ & d & s1 & lf & s2 & _ & _ & _ & Hf & _ & Hp & H).
  apply buildFlagsWrapperToOptions_probes in H.
  unfold containerFilesFor, containerFilesOf in *.
  destruct (File (buildOpts s)) as [|f fs]; [contradiction|].
  cbn [List.map] in *. subst files. repeat split.
  - cbn. rewrite length_map. reflexivity.
  - rewrite H, Hp, app_nil_r. reflexivity.
Qed.

(** X10.  The normalisation of the declared container files keeps their
    number and their order, leaves every path other than [-] as it is, never
    yields [-], and changes nothing when applied again. *)
Theorem X10_container_files_normalised (files : list string) :
  List.length (containerFilesOf files) = List.length files
  /\ (forall i f, nth_error files i = Some f -> f <> "-" ->
      nth_error (containerFilesOf files) i = Some f)
  /\ (forall i, nth_error files i = Some "-" ->
      nth_error (containerFilesOf files) i = Some "/dev/stdin")
  /\ ~ In "-" (containerFilesOf files)
  /\ containerFilesOf (containerFilesOf files) = containerFilesOf files.
Proof.
  unfold containerFilesOf. repeat split.
  - apply length_map.
  - intros i f Hi Hf. rewrite nth_error_map, Hi. cbn.
    apply String.eqb_neq in Hf. rewrite Hf. reflexivity.
  - intros i Hi. rewrite nth_error_map, Hi. reflexivity.
  - intros Hin. apply in_map_iff in Hin as (f & Hf & _).
    destruct (f =? "-") eqn:E; [discriminate|].
    apply String.eqb_neq in E. contradiction.
  - rewrite List.map_map. apply map_ext. intros f.
    destruct (f =? "-") eqn:E; [reflexivity|]. rewrite E. reflexivity.
Qed.

(** X11.  When the build request compiles with [--build-arg] on the command
    line, the map of build arguments is decided, key by key, by the last
    [--build-arg] that names the key: the key maps to the text after the
    first [=] of that argument, further [=] included, and has no entry when
    that argument has no [=] or when no argument names the key.  Without
    [--build-arg] on the command line the map is empty. *)
Theorem X11_build_args_by_last_occurrence
    (w : World) (cmd : Command) (args : list string) (s : state)
    (files : list string) (opts : imagebuildah.BuildOptions) (s' : state) :
  compileRequest w cmd args s = (Ok (files, opts), s') ->
  (Changed cmd "build-arg" = true ->
   forall k,
     imagebuildah.Args opts !! k =
     match lastArgFor k (BuildArg (buildOpts s)) with
     | Some arg => argValue arg
     | None => None
     end)
  /\
  (Changed cmd "build-arg" = false -> imagebuildah.Args opts = ∅).
Proof.
  intros H.
  apply compileRequest_Ok in H
    as (_ & d & s1 & lf & s2 & _ & _ & _ & _ & Hb & _ & H).
  apply buildFlagsWrapperToOptions_Ok in H as (_ & _ & _ & Ha & _).
  rewrite Hb in Ha. rewrite Ha. unfold buildArgsOf. split.
  - intros -> k. rewrite buildArgs_lookup.
    destruct (lastArgFor k (BuildArg (buildOpts s))); [reflexivity|].
    apply lookup_empty.
  - intros ->. reflexivity.
Qed.

(** X12.  The order of the [--build-arg] flags matters only between flags
    with the same key: two command lines whose build arguments are a
    permutation of each other and name every key once compile to the same
    map of build arguments. *)
Theorem X12_build_args_order_of_distinct_keys
    (w1 w2 : World) (cmd : Command) (args1 args2 : list string)
    (s1 s2 : state) (files1 files2 : list string)
    (opts1 opts2 : imagebuildah.BuildOptions) (s1' s2' : state) :
  compileRequest w1 cmd args1 s1 = (Ok (files1, opts1), s1') ->
  compileRequest w2 cmd args2 s2 = (Ok (files2, opts2), s2') ->
  Permutation (BuildArg (buildOpts s1)) (BuildArg (buildOpts s2)) ->
  List.NoDup (List.map argKey (BuildArg (buildOpts s1))) ->
  imagebuildah.Args opts1 = imagebuildah.Args opts2.
Proof.
  intros H1 H2 Hp Hnd.
  apply compileRequest_Ok in H1
    as (_ & d1 & t1 & lf1 & u1 & _ & _ & _ & _ & Hb1 & _ & H1).
  apply buildFlagsWrapperToOptions_Ok in H1 as (_ & _ & _ & Ha1 & _).
  apply compileRequest_Ok in H2
    as (_ & d2 & t2 & lf2 & u2 & _ & _ & _ & _ & Hb2 & _ & H2).
  apply buildFlagsWrapperToOptions_Ok in H2 as (_ & _ & _ & Ha2 & _).
  rewrite Hb1 in Ha1. rewrite Hb2 in Ha2. rewrite Ha1, Ha2.
  unfold buildArgsOf. destruct (Changed cmd "build-arg"); [|reflexivity].
  apply map_eq. intros k. rewrite !buildArgs_lookup. unfold lastArgFor.
  rewrite (find_key_permutation (rev (BuildArg (buildOpts s1)))
             (rev (BuildArg (buildOpts s2))) k).
  - reflexivity.
  - rewrite List.map_rev. eapply Permutation_NoDup; [|exact Hnd].
    apply Permutation_rev.
  - rewrite <- (Permutation_rev (BuildArg (buildOpts s1))).
    rewrite <- (Permutation_rev (BuildArg (buildOpts s2))). exact Hp.
Qed.

(** X13.  [build] writes into the package-level [buildOpts], and only into
    three of its fields: whatever the run returns, the flags it leaves are
    the flags it found except for [Squash], [Layers] and [Format].  After a
    request that compiled they are the flags it found with the squash flags
    translated and the format in lower case, so the next run in the same
    process starts from those. *)
Theorem X13_build_writes_three_flags
    (w : World) (cmd : Command) (args : list string) (s : state) :
  sameButSquashLayersFormat s (snd (build w cmd args s))
  /\
  (forall files opts s1,
     compileRequest w cmd args (enter s) = (Ok (files, opts), s1) ->
     buildOpts (snd (build w cmd args s)) =
     set_Format (ToLower w (Format (buildOpts s)))
       (squashTranslation cmd (buildOpts s))).
Proof.
  split.
  - unfold build.
    destruct ((request ← compileRequest w cmd args; engineBuild w request)
                (enter s)) as [r s1] eqn:E.
    assert (H : sameButSquashLayersFormat (enter s) s1).
    { revert E. generalize (enter s). intros s0 E. revert s0 r s1 E.
      change (respects sameButSquashLayersFormat
                (request ← compileRequest w cmd args; engineBuild w request)).
      apply (respects_bind _ sameButSquashLayersFormat_trans);
        [apply compileRequest_writes | intros a; apply engineBuild_writes]. }
    destruct H as (q & l & f & H). exists q, l, f.
    cbn [snd buildOpts]. rewrite runDeferred_all_buildOpts. exact H.
  - intros files opts s1 H. unfold build, mbind, M_bind, bind. rewrite H.
    apply compileRequest_path in H
      as (d & t1 & lf & t2 & _ & _ & _ & _ & Hb & H).
    apply buildFlagsWrapperToOptions_fields in H.
    repeat match type of H with _ /\ _ => destruct H as [_ H] end.
    rewrite Hb in H. cbn [enter buildOpts] in H.
    unfold engineBuild, mbind, M_bind, bind, emit, fail, ret.
    destruct (ImageEngine_Build w files opts);
      cbn [snd buildOpts]; rewrite runDeferred_all_buildOpts; exact H.
Qed.

(** X14.  [build] opens (creates and truncates) the log file exactly when
    the flags do not conflict, [--logfile] is on the command line and the
    context resolves to a directory, and then once, with the name of the
    flag: a run that fails later, on a flag value or in the engine, has
    truncated the file all the same, and a run that fails on the flags or on
    the context has opened nothing. *)
Theorem X14_logfile_opened_after_context
    (w : World) (cmd : Command) (args : list string) (s : state) :
  openCalls (trace (snd (build w cmd args s))) =
  (openCalls (trace s)
   ++ (if logfileReached w cmd args s then [Logfile (buildOpts s)]
       else []))%list.
Proof.
  assert (Hreach : logfileReached w cmd args (enter s)
                   = logfileReached w cmd args s).
  { unfold logfileReached. cbn [enter buildOpts].
    rewrite (contextDirOf_state w args _ (enter s) s). reflexivity. }
  unfold build, mbind, M_bind, bind.
  destruct (compileRequest w cmd args (enter s)) as [[request|e] s1] eqn:E;
    apply compileRequest_opens in E; rewrite Hreach in E;
    cbn [enter trace buildOpts] in E.
  - destruct (engineBuild w request s1) as [r s2] eqn:E2.
    cbn [snd trace]. rewrite runDeferred_all_events, openCalls_app,
      openCalls_cleanup, app_nil_r.
    rewrite (openCalls_grows s1 s2); [exact E|].
    exact (engineBuild_grows w notOpen request (fun _ _ => eq_refl) _ _ _ E2).
  - cbn [snd trace]. rewrite runDeferred_all_events, openCalls_app,
      openCalls_cleanup, app_nil_r. exact E.
Qed.

(** X15.  A command line that sets no flag compiles to the defaults that
    [buildFlags] has put into [buildOpts]: intermediate containers are
    removed by force, the layers follow BUILDAH_LAYERS, the HTTP proxy is off
    for a remote client, and the pull policy is "pull if missing" although
    the default of [--pull] is true (unless the library has [--pull-always]
    on by default); there is no output name, no tag, no build argument, no
    memory limit, and the streams are the standard ones. *)
Theorem X15_compiled_defaults
    (w : World) (lib o : buildFlagsWrapper) (cmd : Command)
    (args : list string) (s : state)
    (files : list string) (opts : imagebuildah.BuildOptions) (s' : state) :
  buildFlags w lib = Some o ->
  buildOpts s = o ->
  (forall name, Changed cmd name = false) ->
  compileRequest w cmd args s = (Ok (files, opts), s') ->
  Pull o = true
  /\ imagebuildah.ForceRmIntermediateCtrs opts = true
  /\ imagebuildah.Layers opts = (useLayers w =? "true")
  /\ imagebuildah.Squash opts = Squash lib
  /\ buildah.cb_HTTPProxy (imagebuildah.CommonBuildOpts opts)
     = (if registry_IsRemote w then false else HTTPProxy lib)
  /\ (PullAlways lib = false ->
      imagebuildah.PullPolicy_ opts = imagebuildah.PullIfMissing)
  /\ imagebuildah.Output opts = ""
  /\ imagebuildah.AdditionalTags opts = []
  /\ imagebuildah.Args opts = ∅
  /\ buildah.cb_Memory (imagebuildah.CommonBuildOpts opts) = 0%Z
  /\ buildah.cb_MemorySwap (imagebuildah.CommonBuildOpts opts) = 0%Z
  /\ imagebuildah.Out opts = os_Stdout
  /\ imagebuildah.Err_ opts = os_Stderr
  /\ imagebuildah.ReportWriter opts = os_Stderr.
Proof.
  intros Hflags Ho Hnone H.
  apply compileRequest_path in H
    as (d & s1 & lf & s2 & _ & _ & _ & Hlog & Hb & H).
  pose proof (buildFlagsWrapperToOptions_Ok _ _ _ _ _ _ _ H)
    as (Hsq & Hla & Hpull & Hargs & _).
  apply buildFlagsWrapperToOptions_fields in H
    as (Htags & _ & _ & Hm & Hsw & Hio & _ & _ & Hforce & _ & Hproxy & _).
  apply openLogfile_Ok_file in Hlog as [(Hc & _)|(_ & -> & _)];
    [rewrite Hnone in Hc; discriminate Hc|].
  rewrite Hb, Ho in *.
  unfold outputAndTags in Htags. unfold buildArgsOf in Hargs.
  unfold pullPolicyOf in Hpull.
  rewrite squashTranslation_untouched in Hsq, Hla
    by (rewrite ?Hnone; reflexivity).
  rewrite !Hnone in *. cbn [andb] in Hpull.
  injection Htags as -> ->. injection Hm as <-. injection Hsw as <-.
  injection Hio as -> -> ->.
  rewrite Hforce, Hla, Hsq, Hproxy, Hargs, Hpull.
  unfold buildFlags in Hflags.
  destruct (GetFromAndBudFlags w); [discriminate|].
  injection Hflags as <-.
  destruct (registry_IsRemote w); cbn; repeat split;
    intros ->; destruct (PullNever lib); reflexivity.
Qed.

(** X16.  A build request compiles exactly when the flags do not conflict,
    the context resolves to a directory, the log file (if asked for) opens,
    and none of the fallible steps of [buildFlagsWrapperToOptions] fails.
    When the run gets as far as these steps and some of them would fail, the
    error of the compilation is the error of the first of them in the order
    memory, memory-swap, namespaces, isolation, ID mappings, system context,
    format. *)
Theorem X16_first_failing_step_decides
    (w : World) (cmd : Command) (args : list string) (s : state) :
  let verdicts := optionVerdicts w cmd (buildOpts s) in
  (is_Ok (fst (compileRequest w cmd args s)) = true <->
   reachesOptions w cmd args s /\ firstError verdicts = None)
  /\
  (forall err,
     reachesOptions w cmd args s -> firstError verdicts = Some err ->
     fst (compileRequest w cmd args s) = Err err).
Proof.
  intros verdicts.
  assert (Hfwd : reachesOptions w cmd args s ->
            match firstError verdicts with
            | Some err => fst (compileRequest w cmd args s) = Err err
            | None => is_Ok (fst (compileRequest w cmd args s)) = true
            end).
  { intros Hr.
    destruct (compileRequest_of_options _ _ _ _ Hr)
      as (d & lf & s2 & files & Hb & ->).
    pose proof (buildFlagsWrapperToOptions_verdict w cmd d lf s2) as Hv.
    rewrite Hb in Hv. fold verdicts in Hv.
    destruct (firstError verdicts).
    - rewrite Hv. reflexivity.
    - destruct (fst (buildFlagsWrapperToOptions w cmd d lf s2));
        [reflexivity | discriminate Hv]. }
  split; [split|].
  - intros Hok.
    destruct (compileRequest w cmd args s) as [[[files opts]|e] s'] eqn:E;
      [|discriminate Hok].
    assert (Hr : reachesOptions w cmd args s).
    { pose proof (compileRequest_Ok _ _ _ _ _ _ _ E) as (Hc & _).
      apply compileRequest_path in E
        as (d & s1 & lf & s2 & Hctx & Hne & Hdir & Hlog & _ & _).
      split; [assumption|]. split.
      - exists d, s1. repeat split; try assumption.
        apply String.eqb_neq. assumption.
      - intros Hch.
        apply openLogfile_Ok_file in Hlog as [(_ & Ho & _)|(Hn & _)];
          [exact Ho | congruence]. }
    split; [assumption|].
    specialize (Hfwd Hr). rewrite ?E in Hfwd. cbn [fst] in Hfwd.
    destruct (firstError verdicts); [discriminate Hfwd | reflexivity].
  - intros [Hr Hnone]. specialize (Hfwd Hr). rewrite Hnone in Hfwd.
    exact Hfwd.
  - intros err Hr Hsome. specialize (Hfwd Hr). rewrite Hsome in Hfwd.
    exact Hfwd.
Qed.

(** X17.  When the build request compiles, the options carry what the
    parsers of buildah returned for this command line: the network policy and
    the namespace options of [NamespaceOptions], followed by the user
    namespace options of [IDMappingOptions]; the isolation of
    [IsolationOption], which is also the isolation that [IDMappingOptions]
    was asked with; the ID mappings; the system context. *)
Theorem X17_options_carry_parser_results
    (w : World) (cmd : Command) (args : list string) (s : state)
    (files : list string) (opts : imagebuildah.BuildOptions) (s' : state) :
  compileRequest w cmd args s = (Ok (files, opts), s') ->
  exists ns userns,
    parse_NamespaceOptions w cmd
    = Ok (ns, imagebuildah.ConfigureNetwork opts)
    /\ parse_IsolationOption w (Isolation (buildOpts s))
       = Ok (imagebuildah.Isolation opts)
    /\ parse_IDMappingOptions w cmd (imagebuildah.Isolation opts)
       = Ok (userns, imagebuildah.IDMappingOptions opts)
    /\ imagebuildah.NamespaceOptions opts = (ns ++ userns)%list
    /\ parse_SystemContextFromOptions w cmd
       = Ok (imagebuildah.SystemContext opts).
Proof.
  intros H.
  apply compileRequest_path in H
    as (d & s1 & lf & s2 & _ & _ & _ & _ & Hb & H).
  apply buildFlagsWrapperToOptions_parsed in H. rewrite Hb in H. exact H.
Qed.

(** X18.  When the build request compiles, the flags that [build] only hands
    over reach the options unchanged by the rewriting of the squash flags and
    of the format: capabilities, annotations, labels, architecture and OS,
    devices, the limits on CPU, cgroup parent, shared memory and ulimits, the
    signing and cache options, the target; the volumes arrive twice, as
    transient mounts and in the common options; compression is off exactly
    when [--disable-compression] is set, and the two flags for removing
    intermediate containers are taken as they are. *)
Theorem X18_flags_handed_over
    (w : World) (cmd : Command) (args : list string) (s : state)
    (files : list string) (opts : imagebuildah.BuildOptions) (s' : state) :
  compileRequest w cmd args s = (Ok (files, opts), s') ->
  let flags := buildOpts s in
  let common := imagebuildah.CommonBuildOpts opts in
  imagebuildah.AddCapabilities opts = CapAdd flags
  /\ imagebuildah.DropCapabilities opts = CapDrop flags
  /\ imagebuildah.Annotations opts = Annotation flags
  /\ imagebuildah.Labels opts = Label flags
  /\ imagebuildah.Architecture opts = Arch flags
  /\ imagebuildah.OS opts = OS flags
  /\ imagebuildah.BlobDirectory opts = BlobCache flags
  /\ imagebuildah.CNIConfigDir opts = CNIConfigDir flags
  /\ imagebuildah.CNIPluginPath opts = CNIPlugInPath flags
  /\ imagebuildah.Devices opts = Devices flags
  /\ imagebuildah.IIDFile opts = Iidfile flags
  /\ imagebuildah.NoCache opts = NoCache flags
  /\ imagebuildah.Quiet opts = Quiet flags
  /\ imagebuildah.SignBy opts = SignBy flags
  /\ imagebuildah.SignaturePolicyPath opts = SignaturePolicy flags
  /\ imagebuildah.Target opts = Target flags
  /\ imagebuildah.TransientMounts opts = Volumes flags
  /\ buildah.cb_Volumes common = Volumes flags
  /\ buildah.cb_AddHost common = AddHost flags
  /\ buildah.cb_CPUPeriod common = CPUPeriod flags
  /\ buildah.cb_CPUQuota common = CPUQuota flags
  /\ buildah.cb_CPUSetCPUs common = CPUSetCPUs flags
  /\ buildah.cb_CPUSetMems common = CPUSetMems flags
  /\ buildah.cb_CPUShares common = CPUShares flags
  /\ buildah.cb_CgroupParent common = CgroupParent flags
  /\ buildah.cb_ShmSize common = ShmSize flags
  /\ buildah.cb_Ulimit common = Ulimit flags
  /\ buildah.cb_HTTPProxy common = HTTPProxy flags
  /\ imagebuildah.ForceRmIntermediateCtrs opts = ForceRm flags
  /\ imagebuildah.RemoveIntermediateCtrs opts = Rm flags
  /\ imagebuildah.Compression_ opts
     = (if DisableCompression flags then imagebuildah.Uncompressed
        else imagebuildah.Gzip).
Proof.
  intros H. cbv zeta.
  apply compileRequest_path in H
    as (d & s1 & lf & s2 & _ & _ & _ & _ & Hb & H).
  pose proof (buildFlagsWrapperToOptions_fields _ _ _ _ _ _ _ H)
    as (_ & _ & _ & _ & _ & _ & _ & Hcomp & Hforce & Hrm & Hproxy & _).
  apply buildFlagsWrapperToOptions_handed in H. cbv zeta in H.
  rewrite Hb in *.
  repeat match type of H with
         | _ /\ _ => destruct H as [? H]
         end.
  repeat split; assumption.
Qed.

(** * Further properties on sample runs *)

(** A sample run that compiles: the result, computed. *)
Ltac sample_run HE :=
  eexists _, _, _;
  match goal with
  | |- ?E /\ _ => assert (HE : E) by (vm_compute; reflexivity)
  end;
  split; [exact HE|].

(** [podman build --tag foo --tag bar .] *)
Lemma X1_witness :
  exists files opts s',
    compileRequest Sample.world (Sample.command ["tag"]) ["."]
      (Sample.start (set_Tag ["foo"; "bar"] Sample.initial))
    = (Ok (files, opts), s')
    /\ imagebuildah.Output opts :: imagebuildah.AdditionalTags opts
       = ["foo"; "bar"].
Proof.
  sample_run HE.
  refine (proj1 (X1_first_tag_is_output _ _ _ _ _ _ _ HE) _ _);
    [reflexivity | discriminate].
Defined.

(** [podman build --runtime-flag debug .] with the systemd cgroup manager. *)
Lemma X2_witness :
  exists files opts s',
    compileRequest Sample.world (Sample.command ["runtime-flag"]) ["."]
      (Sample.start (set_RuntimeFlags ["debug"] Sample.initial))
    = (Ok (files, opts), s')
    /\ imagebuildah.RuntimeArgs opts = ["--debug"; "--systemd-cgroup"].
Proof.
  sample_run HE.
  exact (proj1 (X2_runtime_args_order _ _ _ _ _ _ _ HE)).
Defined.

(** [podman build --memory 512m .] *)
Lemma X3_witness :
  exists files opts s',
    compileRequest Sample.world (Sample.command ["memory"]) ["."]
      (Sample.start (set_Memory "512m" Sample.initial))
    = (Ok (files, opts), s')
    /\ Ok (536870912)%Z
       = Ok (buildah.cb_Memory (imagebuildah.CommonBuildOpts opts))
    /\ buildah.cb_MemorySwap (imagebuildah.CommonBuildOpts opts) = 0%Z.
Proof.
  sample_run HE.
  pose proof (X3_memory_limits _ _ _ _ _ _ _ HE) as (H1 & _ & _ & H4).
  exact (conj (H1 eq_refl) (H4 eq_refl)).
Defined.

(** [podman build --logfile log.txt .] *)
Lemma X4_witness :
  exists files opts s',
    compileRequest Sample.world (Sample.command ["logfile"]) ["."]
      (Sample.start (set_Logfile "log.txt" Sample.initial))
    = (Ok (files, opts), s')
    /\ imagebuildah.Out opts = os_Opened "log.txt"
    /\ imagebuildah.ReportWriter opts = os_Opened "log.txt".
Proof.
  sample_run HE.
  destruct (proj1 (X4_streams_follow_logfile _ _ _ _ _ _ _ HE) eq_refl)
    as (_ & H1 & _ & H3 & _).
  exact (conj H1 H3).
Defined.

(** [podman build https://x.org/a.git] *)
Lemma X7_witness :
  exists files opts s',
    compileRequest Sample.world (Sample.command []) ["https://x.org/a.git"]
      (Sample.start Sample.initial)
    = (Ok (files, opts), s')
    /\ imagebuildah.ContextDirectory opts = "/var/tmp/buildah1/src".
Proof.
  sample_run HE.
  destruct (proj2 (proj2 (X7_context_from_argument Sample.world
                            (Sample.command []) "https://x.org/a.git" []
                            (Sample.start Sample.initial) eq_refl))
              _ _ _ HE) as (tempDir & subDir & E & H).
  vm_compute in E. injection E as <- <-. exact H.
Defined.

(** [podman build .] in [/tmp/ctx]. *)
Lemma X8_witness :
  exists files opts s',
    compileRequest Sample.world (Sample.command []) ["."]
      (Sample.start Sample.initial)
    = (Ok (files, opts), s')
    /\ utils_IsDir Sample.world (imagebuildah.ContextDirectory opts) = true.
Proof.
  sample_run HE.
  exact (proj1 (proj2 (X8_context_is_checked_directory _ _ _ _ _ _ _ HE))).
Defined.

(** [podman build -f - -f Containerfile.simple .] *)
Lemma X9_witness :
  exists files opts s',
    compileRequest Sample.world (Sample.command ["file"]) ["."]
      (Sample.start (set_File ["-"; "Containerfile.simple"] Sample.initial))
    = (Ok (files, opts), s')
    /\ files = ["/dev/stdin"; "Containerfile.simple"]
    /\ probes (trace s') = [].
Proof.
  sample_run HE.
  assert (Hne : File (set_File ["-"; "Containerfile.simple"] Sample.initial)
                <> []) by discriminate.
  destruct (X9_declared_files_pass_unchecked _ _ _ _ _ _ _ HE Hne)
    as (H1 & _ & H3).
  exact (conj H1 H3).
Defined.

(** [podman build --build-arg A=1=2 --build-arg B --build-arg A=x=y .] *)
Lemma X11_witness :
  exists files opts s',
    compileRequest Sample.world (Sample.command ["build-arg"]) ["."]
      (Sample.start (set_BuildArg ["A=1=2"; "B"; "A=x=y"] Sample.initial))
    = (Ok (files, opts), s')
    /\ imagebuildah.Args opts !! "A" = Some "x=y"
    /\ imagebuildah.Args opts !! "B" = None
    /\ imagebuildah.Args opts !! "C" = None.
Proof.
  sample_run HE.
  pose proof (proj1 (X11_build_args_by_last_occurrence _ _ _ _ _ _ _ HE)
                eq_refl) as H.
  exact (conj (H "A") (conj (H "B") (H "C"))).
Defined.

(** [--build-arg A=1 --build-arg B=2] and [--build-arg B=2 --build-arg
    A=1]. *)
Lemma X12_witness :
  exists files1 opts1 s1' files2 opts2 s2',
    compileRequest Sample.world (Sample.command ["build-arg"]) ["."]
      (Sample.start (set_BuildArg ["A=1"; "B=2"] Sample.initial))
    = (Ok (files1, opts1), s1')
    /\ compileRequest Sample.world (Sample.command ["build-arg"]) ["."]
         (Sample.start (set_BuildArg ["B=2"; "A=1"] Sample.initial))
       = (Ok (files2, opts2), s2')
    /\ imagebuildah.Args opts1 = imagebuildah.Args opts2.
Proof.
  eexists _, _, _, _, _, _.
  match goal with
  | |- ?E1 /\ ?E2 /\ _ =>
      assert (H1 : E1) by (vm_compute; reflexivity);
      assert (H2 : E2) by (vm_compute; reflexivity)
  end.
  split; [exact H1|]. split; [exact H2|].
  refine (X12_build_args_order_of_distinct_keys _ _ _ _ _ _ _ _ _ _ _ _ _
            H1 H2 _ _).
  - apply perm_swap.
  - repeat constructor; vm_compute; intuition discriminate.
Defined.

(** [podman build --squash --format OCI .]: what the run leaves in
    [buildOpts]. *)
Lemma X13_witness :
  exists files opts s1,
    compileRequest Sample.world (Sample.command ["squash"; "format"]) ["."]
      (enter (Sample.start
                (set_Squash true (set_Format "OCI" Sample.initial))))
    = (Ok (files, opts), s1)
    /\ buildOpts
         (snd (build Sample.world (Sample.command ["squash"; "format"]) ["."]
                 (Sample.start
                    (set_Squash true (set_Format "OCI" Sample.initial)))))
       = set_Layers false (set_Squash false (set_Format "oci" Sample.initial)).
Proof.
  sample_run HE.
  exact (proj2 (X13_build_writes_three_flags _ _ _ _) _ _ _ HE).
Defined.

(** [podman build .] *)
Lemma X15_witness :
  exists files opts s',
    compileRequest Sample.world (Sample.command []) ["."]
      (Sample.start Sample.initial)
    = (Ok (files, opts), s')
    /\ imagebuildah.ForceRmIntermediateCtrs opts = true
    /\ imagebuildah.Layers opts = true
    /\ imagebuildah.PullPolicy_ opts = imagebuildah.PullIfMissing.
Proof.
  sample_run HE.
  assert (Hf : buildFlags Sample.world Sample.libDefaults
               = Some Sample.initial) by reflexivity.
  destruct (X15_compiled_defaults Sample.world Sample.libDefaults
              Sample.initial (Sample.command []) ["."]
              (Sample.start Sample.initial) _ _ _ Hf eq_refl
              (fun _ => eq_refl) HE)
    as (_ & H1 & H2 & _ & _ & H5 & _).
  exact (conj H1 (conj H2 (H5 eq_refl))).
Defined.

(** [podman build --memory 512x --format banana .]: the memory limit is
    read before the format. *)
Lemma X16_witness :
  fst (compileRequest Sample.world (Sample.command ["memory"; "format"]) ["."]
         (Sample.start (set_Memory "512x" (set_Format "banana" Sample.initial))))
  = Err (errors_New "invalid size").
Proof.
  refine (proj2 (X16_first_failing_step_decides _ _ _ _) _ _ _);
    [|vm_compute; reflexivity].
  split; [reflexivity|]. split; [|discriminate].
  eexists _, _. split; [vm_compute; reflexivity|]. split; reflexivity.
Defined.

(** [podman build .]: the parsers of the sample world. *)
Lemma X17_witness :
  exists files opts s',
    compileRequest Sample.world (Sample.command []) ["."]
      (Sample.start Sample.initial)
    = (Ok (files, opts), s')
    /\ imagebuildah.NamespaceOptions opts = []
    /\ parse_SystemContextFromOptions Sample.world (Sample.command [])
       = Ok (imagebuildah.SystemContext opts).
Proof.
  sample_run HE.
  destruct (X17_options_carry_parser_results _ _ _ _ _ _ _ HE)
    as (ns & userns & H1 & _ & H3 & H4 & H5).
  vm_compute in H1, H3.
  assert (Hns : ns = []) by congruence.
  assert (Hus : userns = []) by congruence.
  rewrite Hns, Hus in H4.
  exact (conj H4 H5).
Defined.

(** [podman build .]: the defaults of the library, handed over. *)
Lemma X18_witness :
  exists files opts s',
    compileRequest Sample.world (Sample.command []) ["."]
      (Sample.start Sample.initial)
    = (Ok (files, opts), s')
    /\ imagebuildah.Architecture opts = "amd64"
    /\ imagebuildah.Compression_ opts = imagebuildah.Gzip.
Proof.
  sample_run HE.
  pose proof (X18_flags_handed_over _ _ _ _ _ _ _ HE) as H.
  cbv zeta in H.
  split; [apply H | apply H].
Defined.
